(* ===== verification/_CoqProject ===== *)
-Q . S2P
Prelude.v
PyValue.v
Series.v
Frame.v
Scoring.v
Wellformed.v
CsvCell.v
CsvHeader.v
CsvWrite.v
CsvRead.v
CsvRoundtrip.v
Excel.v
Spec.v
Engine.v
Rules.v
App.v
Session.v
