(* ===== verification/Prelude.v ===== *)
(** * A verification of the species prioritization app

    The program, [src/species_prioritization_app.py], is a Streamlit app
    around one pure function, [score_species(df)] (lines 15-72), which
    takes a pandas DataFrame of species, adds seven sub-score columns, a
    [Total_Score] column and a [Priority] label column, and returns the
    augmented copy.  Three tabs call it: the bulk tab (lines 85-104) scores
    an uploaded CSV and shows [Species_Name] and [Priority]; the single
    entry tab (lines 109-167) builds a one-row frame from form widgets and
    scores it; the downloads tab (lines 172-225) offers a fixed sample
    frame and a criteria table.

    The development models the program at the level of the pandas
    operations it calls, because that is where its behaviour is decided:
    the dtype of a column ([int64], [float64] or [object]) decides whether
    [Threat_Level * 3] wraps around at 64 bits, whether a string raises a
    [TypeError] or is repeated, and how a missing value (NaN) flows into
    the label.  Everything is executable: the theorems' witnesses run
    [score_species] on concrete frames by [vm_compute].

    Files, in dependency order (each a Module of the same name):
    - [Prelude.v] (this file): the [result] error type with its [let*]
      notation in [py_scope], [mapM] and [zip_with], the tactics
      ([inv_ok], [invert_binds], [destruct_ifs], [or_solve], ...), the hint
      database [pyops], and generic lemmas on lists and [mapM].
    - [PyValue.v]: Python scalars as the cells of a frame ([VInt],
      [VFloat], [VNaN], [VStr]), the exceptions [KeyError] and
      [TypeError], the operators the code uses ([==], [>=], [*], [+]) with
      their failing cases and pandas' NaN propagation, and numpy's signed
      64-bit wrap-around [wrap64].
    - [Series.v]: a pandas Series as a dtype and a list of cells;
      [map(dict)], [fillna], [apply], scalar [*] and element-wise [+]
      with pandas' dtype rules.
    - [Frame.v]: a DataFrame as an ordered association list from column
      names to series; [df[k]] ([KeyError] when absent), [df[k] = s]
      (overwrite in place or append), [df[[k1, k2]]], [df.copy()].
    - [Scoring.v]: [score_species] as written: the dict literals, the
      three lambdas, the seven sub-score assignments run in order, the sum
      and the label; the theorem that the input columns are kept, in
      front of the nine computed ones (C3).
    - [Wellformed.v]: the invariant [frame_wf] (distinct names, [n] rows,
      every cell fitting its column's dtype) and its decision procedure,
      the hypothesis of the engine and Excel theorems.
    - [CsvCell.v]: the text of one CSV cell: UTF-8 validity, pandas'
      default missing-value markers, the classification of a field as
      missing, integer, decimal or text ([classify]), and Python's
      printing of ints and floats ([py_str_int], [py_repr_float]).
    - [CsvHeader.v]: the column names [read_csv] gives a header line:
      [Unnamed: i] for an empty name, the C parser's renaming of repeated
      names ([mangle_go], [parsers.pyx]) and the [dedup_names] of
      [pandas.io.common] after it; the theorem that the renaming returns
      within its fuel with distinct names and keeps a header of distinct
      non-empty names (C17).
    - [CsvWrite.v]: [to_csv(index=False)] through [csv.writer]
      ([QUOTE_MINIMAL], doubled quotes, [os.linesep] as [LF] or [CRLF]).
    - [CsvRead.v]: [pd.read_csv] with its defaults: the C tokenizer as a
      state machine ([step], [run], [tokenize]), the header of
      [CsvHeader.v], the field-count check and the dtype inference of
      each column; its errors on an unclosed quote (C19) and on a blank
      text (C20).
    - [CsvRoundtrip.v]: the simulation of the tokenizer on the text
      [to_csv] writes, and the round trip [read_csv (to_csv df) = df] for
      every frame [csv_safe] accepts (C14); a long row raises
      [ParserError] (C18); data lines one field longer than the header
      are read as the file without its first column (C22).
    - [Excel.v]: [to_excel] as openpyxl stores cells (number, text cut to
      32767 characters, formula, error code, [IllegalCharacterError]):
      the layout of the sheet ([to_excel_layout]) and the error on a
      control character (C16).
    - [Spec.v]: the specification's rule table on typed records, the
      frame [pd.DataFrame] builds from records, and the refinement
      theorem (C1), batch independence (C2) and the label cascade (C10).
    - [Engine.v]: [score_species] on arbitrary frames: its exceptions (C4,
      C5), NaN threat levels (C6), that only the seven input columns are
      read (C7) and idempotence (C8).
    - [Rules.v]: the rule table extended to every cell ([cell_code],
      [cell_rule]) and the proof that the sub-score expressions compute it
      in every row of any column (C11, C12).
    - [App.v]: the three tabs as the elements they draw ([Dataframe],
      [Table], [DownloadButton]) and the page, which runs them in order
      and stops at the first uncaught exception: the single-entry tab
      scores every allowed form (C9) and offers its report exactly when
      the name is a legal Excel text (C15); the bulk tab raises
      [KeyError] after scoring a frame without [Species_Name] (C13); and
      the end-to-end refinement: the bulk tab on the CSV of any list of
      records shows the specification's labels and offers the report of
      the scored frame (C21), composing the CSV round trip, the scoring
      refinement and the Excel layout.
    - [Session.v]: the app as Streamlit runs it, one run of the script per
      interaction: a session (uploaded file, form values, last page),
      the events (a file chosen or removed, the form edited, [Prioritize]
      pressed, a download button clicked) with the guards of the widgets
      drawn, the reachable sessions and the sessions from which a page
      can eventually be reached; the exceptions a reachable run can
      raise (C23) and that the report and the sample file are always
      reachable (C24).

    Interfaces between the parts: [score_species] depends on the frame
    only through [get_col] and [set_col] ([Frame.v]) and on columns only
    through the Series operations ([Series.v]); the Section [Assignments]
    of [Engine.v] states, as its hypotheses, what a list of assignments
    must promise (every expression succeeds, no written column is read
    later) and proves the run lemmas against that, discharged for the
    seven assignments of the code by [subscore_total] and
    [subscore_disjoint].

    Numbers: Python floats are modelled as exact rationals [Q] (kept
    reduced by [Qred]).  The theorems on frames of records assume
    [|Threat_Level| <= 2^50] ([Spec.threat_bounded]): then [3 t] does not
    wrap in [int64] and every value computed is a multiple of 1/2 below
    [2^52], exactly a binary64 float, so the rationals are the floats the
    program computes.  Beyond that bound the model keeps [int64]
    wrap-around exactly ([wrap64]) but not float rounding.  The CSV
    model reads a decimal of at most 15 significant digits and no
    exponent, the texts for which pandas' float parser is exact; other
    numbers, a lone carriage return and texts longer than one parser
    chunk ([one_chunk]) make [read_csv] give [None] (outside the model),
    never a wrong frame.  Two functions use fuel: the renaming of
    repeated header names gets [2 + length header] rounds of its inner
    loop for each name, enough since each round visits a name of the
    header not visited before (C17; the [dedup_names] after it, given
    [1 + length] rounds, changes nothing on the distinct names the
    renaming gives), and [ndigits] counts decimal digits
    with fuel [N.size n], the bit count, which bounds the digit count.
    Everything else is structurally recursive on lists and strings.

    Not modelled, and why:
    - presentation without effect on what the model observes:
      [st.set_page_config], [st.title], [st.subheader], [st.columns]
      (lines 77-78, 86, 110, 112); the page lists only the elements
      that carry data;
    - the CSV texts whose reading needs binary64 rounding, which exact
      rationals do not give: numbers with an exponent or more than 15
      significant digits, integers beyond [int64] (pandas turns them
      into [uint64] or rounded floats), and their printing by
      [to_csv]; a lone carriage return (the tokenizer's [\r]-only line
      ends) and files read in several chunks, whose details depend on
      the buffer sizes of the C parser: [read_csv] gives [None] on
      them, never a wrong frame;
    - the bytes of the [.xlsx] file, its styles, and what the browser
      does with a downloaded file. *)

From Stdlib Require Import ZArith QArith Qreduction String List Lia.
Import ListNotations.

Declare Scope py_scope.
Delimit Scope py_scope with py.

(** ** Results: a value or an exception *)

Inductive result (E A : Type) : Type :=
| Ok (a : A)
| Err (e : E).
Arguments Ok {E A} a.
Arguments Err {E A} e.

Definition bind {E A B} (m : result E A) (k : A -> result E B) : result E B :=
  match m with
  | Ok a => k a
  | Err e => Err e
  end.

Notation "'let*' x ':=' m 'in' k" := (bind m (fun x => k))
  (at level 10, x name, m at level 100, k at level 200) : py_scope.

Open Scope py_scope.

Definition is_ok {E A} (r : result E A) : bool :=
  match r with Ok _ => true | Err _ => false end.

(** [mapM f l] applies [f] to the elements of [l] from left to right and
    stops at the first exception, as a Python loop over an object array
    does. *)
Fixpoint mapM {E A B} (f : A -> result E B) (l : list A) : result E (list B) :=
  match l with
  | [] => Ok []
  | x :: xs =>
      let* y := f x in
      let* ys := mapM f xs in
      Ok (y :: ys)
  end.

(** Element-wise combination of two lists of the same length, as numpy
    combines two aligned columns. *)
Fixpoint zip_with {A B C} (f : A -> B -> C) (l1 : list A) (l2 : list B) : list C :=
  match l1, l2 with
  | x :: xs, y :: ys => f x y :: zip_with f xs ys
  | _, _ => []
  end.

(** [omap f l]: [f] on every element, [None] as soon as one gives [None]. *)
Fixpoint omap {A B} (f : A -> option B) (l : list A) : option (list B) :=
  match l with
  | [] => Some []
  | x :: xs =>
      match f x with
      | Some y => match omap f xs with Some ys => Some (y :: ys) | None => None end
      | None => None
      end
  end.

Create HintDb pyops.
Create Rewrite HintDb pyops.

(** ** Lemmas on results *)

Lemma bind_Ok {E A B} (a : A) (k : A -> result E B) : bind (Ok a) k = k a.
Proof. reflexivity. Qed.

Lemma bind_Err {E A B} (e : E) (k : A -> result E B) : bind (Err e) k = Err e.
Proof. reflexivity. Qed.

#[export] Hint Rewrite @bind_Ok @bind_Err : pyops.

Lemma bind_eq_Ok {E A B} (m : result E A) (k : A -> result E B) b :
  bind m k = Ok b <-> exists a, m = Ok a /\ k a = Ok b.
Proof.
  destruct m as [a|e]; simpl; split.
  - intros H. eauto.
  - intros (a' & Ha & Hk). congruence.
  - discriminate.
  - intros (a' & Ha & _). discriminate.
Qed.

Ltac inv_ok :=
  repeat match goal with
         | H : Ok ?a = Ok ?b |- _ =>
             injection H as H; first [subst a | subst b | idtac]
         | H : Err ?a = Err ?b |- _ =>
             injection H as H; first [subst a | subst b | idtac]
         | H : Ok _ = Err _ |- _ => discriminate H
         | H : Err _ = Ok _ |- _ => discriminate H
         end.

(** ** Lemmas on [mapM] *)

Section MapM.
Context {E A B : Type}.
Variable f : A -> result E B.

Lemma mapM_Ok_iff (l : list A) (l' : list B) :
  mapM f l = Ok l' <-> Forall2 (fun x y => f x = Ok y) l l'.
Proof.
  revert l'; induction l as [|x xs IH]; intros l'; simpl.
  - split; intros H; [inv_ok; constructor | inversion H; reflexivity].
  - split.
    + intros H. apply bind_eq_Ok in H as (y & Hy & H).
      apply bind_eq_Ok in H as (ys & Hys & H). inv_ok.
      constructor; [exact Hy | apply IH; exact Hys].
    + intros H. inversion H as [|? y ? ys Hy Hys]; subst.
      rewrite Hy; simpl. apply IH in Hys. rewrite Hys. reflexivity.
Qed.

Lemma mapM_length (l : list A) (l' : list B) :
  mapM f l = Ok l' -> length l' = length l.
Proof.
  intros H. apply mapM_Ok_iff in H. symmetry. eapply Forall2_length; eauto.
Qed.

Lemma mapM_map (g : A -> B) (l : list A) :
  (forall x, In x l -> f x = Ok (g x)) -> mapM f l = Ok (map g l).
Proof.
  induction l as [|x xs IH]; intros H; simpl; [reflexivity|].
  rewrite (H x (or_introl eq_refl)); simpl.
  rewrite IH by (intros y Hy; apply H; right; exact Hy). reflexivity.
Qed.

(** [mapM] succeeds exactly when [f] succeeds on every element. *)
Lemma mapM_is_ok (l : list A) :
  is_ok (mapM f l) = forallb (fun x => is_ok (f x)) l.
Proof.
  induction l as [|x xs IH]; simpl; [reflexivity|].
  destruct (f x); simpl; [|reflexivity].
  rewrite <- IH. destruct (mapM f xs); reflexivity.
Qed.
End MapM.

(** ** Lemmas on [zip_with] *)

Lemma zip_with_length {A B C} (f : A -> B -> C) l1 l2 :
  length (zip_with f l1 l2) = Nat.min (length l1) (length l2).
Proof.
  revert l2; induction l1 as [|x xs IH]; intros [|y ys]; simpl; auto.
Qed.

Lemma zip_with_map_l {A A' B C} (g : A -> A') (f : A' -> B -> C) l1 l2 :
  zip_with f (map g l1) l2 = zip_with (fun x y => f (g x) y) l1 l2.
Proof.
  revert l2; induction l1 as [|x xs IH]; intros [|y ys]; simpl; f_equal; auto.
Qed.

Lemma zip_with_map_r {A B B' C} (g : B -> B') (f : A -> B' -> C) l1 l2 :
  zip_with f l1 (map g l2) = zip_with (fun x y => f x (g y)) l1 l2.
Proof.
  revert l2; induction l1 as [|x xs IH]; intros [|y ys]; simpl; f_equal; auto.
Qed.

Lemma zip_with_diag {A C} (f : A -> A -> C) (l : list A) :
  zip_with f l l = map (fun x => f x x) l.
Proof. induction l; simpl; f_equal; auto. Qed.

Lemma In_zip_with {A B C} (f : A -> B -> C) l1 l2 z :
  In z (zip_with f l1 l2) -> exists x y, In x l1 /\ In y l2 /\ z = f x y.
Proof.
  revert l2; induction l1 as [|x xs IH]; intros [|y ys] H; simpl in *; try tauto.
  destruct H as [<- | H]; [exists x, y; auto|].
  destruct (IH ys H) as (a & b & Ha & Hb & ->). exists a, b; auto.
Qed.

#[export] Hint Rewrite @zip_with_map_l @zip_with_map_r @length_map : pyops.

(** ** Transport of a pointwise relation through [mapM] *)

Lemma mapM_Forall2 {E A B C D} (f : A -> result E C) (R : A -> B -> Prop)
      (S : C -> D -> Prop) (g : B -> D) (l : list A) (m : list B) :
  Forall2 R l m ->
  (forall a b, R a b -> exists c, f a = Ok c /\ S c (g b)) ->
  exists cs, mapM f l = Ok cs /\ Forall2 S cs (map g m).
Proof.
  intros H Hf. induction H as [|a b l m Hab _ IH]; simpl.
  - exists []. split; [reflexivity | constructor].
  - destruct (Hf a b Hab) as (c & Hc & HS). destruct IH as (cs & Hcs & HF).
    rewrite Hc; simpl. rewrite Hcs; simpl. exists (c :: cs). split; [reflexivity|].
    constructor; assumption.
Qed.

Lemma mapM_combine_Forall2 {E A A' B B' C D} (f : A -> A' -> result E C)
      (R1 : A -> B -> Prop) (R2 : A' -> B' -> Prop) (S : C -> D -> Prop)
      (g : B -> B' -> D) l1 l2 m1 m2 :
  Forall2 R1 l1 m1 -> Forall2 R2 l2 m2 ->
  (forall a a' b b', R1 a b -> R2 a' b' -> exists c, f a a' = Ok c /\ S c (g b b')) ->
  exists cs, mapM (fun p => f (fst p) (snd p)) (combine l1 l2) = Ok cs /\
             Forall2 S cs (zip_with g m1 m2).
Proof.
  intros H1. revert l2 m2. induction H1 as [|a b l m Hab _ IH]; intros l2 m2 H2 Hf.
  - exists []. split; [reflexivity | constructor].
  - destruct H2 as [|a' b' l' m' Hab' H2]; simpl.
    + exists []. split; [reflexivity | constructor].
    + destruct (Hf a a' b b' Hab Hab') as (c & Hc & HS).
      destruct (IH l' m' H2 Hf) as (cs & Hcs & HF).
      rewrite Hc; simpl. rewrite Hcs; simpl. exists (c :: cs).
      split; [reflexivity | constructor; assumption].
Qed.

Lemma Forall2_map_r {A B C} (R : A -> C -> Prop) (g : B -> C) l m :
  Forall2 (fun a b => R a (g b)) l m -> Forall2 R l (map g m).
Proof. induction 1; simpl; constructor; auto. Qed.

Lemma Forall2_map_l {A B C} (R : C -> B -> Prop) (g : A -> C) l m :
  Forall2 (fun a b => R (g a) b) l m -> Forall2 R (map g l) m.
Proof. induction 1; simpl; constructor; auto. Qed.

Lemma Forall2_refl_map {A B} (R : A -> B -> Prop) (g : A -> B) l :
  (forall a, In a l -> R a (g a)) -> Forall2 R l (map g l).
Proof.
  induction l as [|a l IH]; intros H; simpl; constructor.
  - apply H; left; reflexivity.
  - apply IH; intros x Hx; apply H; right; exact Hx.
Qed.

Lemma Forall_map_intro {A B} (P : B -> Prop) (f : A -> B) (l : list A) :
  (forall x, In x l -> P (f x)) -> Forall P (map f l).
Proof.
  intros H. apply Forall_forall. intros y Hy. apply in_map_iff in Hy as (x & <- & Hx). auto.
Qed.

(** Case analysis on every [if] of the goal, innermost conditions included. *)
Ltac destruct_ifs :=
  repeat match goal with
         | |- context [if ?b then _ else _] => destruct b
         end.

(** The same, keeping each condition as a hypothesis. *)
Ltac destruct_ifs_eqn :=
  repeat match goal with
         | |- context [if ?b then _ else _] => let E := fresh "E" in destruct b eqn:E
         end.

(** A disjunction one of whose members holds by [assumption] or [reflexivity]. *)
Ltac or_solve :=
  solve [repeat first [left; solve [assumption | reflexivity] | right];
         solve [assumption | reflexivity]].

(** [Forall P l] for a concrete list whose elements [lia] checks. *)
(** [computed_eq H e]: [H : e = v] with [v] the value of the closed
    term [e], for witnesses on concrete runs. *)
Ltac computed_eq H e :=
  assert (H : e = ltac:(let v := eval vm_compute in e in exact v)) by (vm_compute; reflexivity).

Ltac forall_lia :=
  repeat first [apply Forall_nil | apply Forall_cons; [simpl; lia|]].

(** Split every hypothesis [let* x := m in k = Ok b] into its successful
    parts. *)
Ltac invert_binds :=
  repeat match goal with
         | H : bind _ _ = Ok _ |- _ => apply bind_eq_Ok in H as (? & ? & ?)
         end; inv_ok.

Lemma map_fst_combine {A B} (l1 : list A) (l2 : list B) :
  length l1 = length l2 -> map fst (combine l1 l2) = l1.
Proof.
  revert l2; induction l1 as [|x l1 IH]; intros [|y l2] H; simpl in *; try discriminate;
    [reflexivity|]. f_equal. apply IH. congruence.
Qed.

(** ** More on [mapM] *)

Lemma mapM_total {E A B} (f : A -> result E B) (P : A -> B -> Prop) (l : list A) :
  (forall x, In x l -> exists y, f x = Ok y /\ P x y) ->
  exists ys, mapM f l = Ok ys /\ Forall2 P l ys.
Proof.
  induction l as [|x l IH]; intros H; simpl.
  - exists []. split; [reflexivity | constructor].
  - destruct (H x (or_introl eq_refl)) as (y & Hy & Py). rewrite Hy; simpl.
    destruct IH as (ys & Hys & HF); [intros z Hz; apply H; right; exact Hz|].
    rewrite Hys; simpl. exists (y :: ys). split; [reflexivity | constructor; assumption].
Qed.

Lemma mapM_Err_In {E A B} (f : A -> result E B) (l : list A) e :
  mapM f l = Err e -> exists x, In x l /\ f x = Err e.
Proof.
  induction l as [|x l IH]; simpl; [discriminate|].
  destruct (f x) eqn:Ex; simpl.
  - destruct (mapM f l); simpl; intros H; [discriminate|].
    inv_ok. destruct IH as (y & Hy & Ey); [reflexivity|]. eauto.
  - intros H. inv_ok. eauto.
Qed.

Lemma Forall2_map_eq {A B C} (g : A -> C) (h : B -> C) l l' :
  Forall2 (fun x y => g x = h y) l l' -> map g l = map h l'.
Proof. induction 1; simpl; f_equal; assumption. Qed.

Lemma In_combine_r_exists {A B} (la : list A) (lb : list B) y :
  length la = length lb -> In y lb -> exists x, In (x, y) (combine la lb).
Proof.
  revert lb; induction la as [|x la IH]; intros [|y' lb] Hlen Hy; simpl in *;
    try discriminate; try contradiction.
  destruct Hy as [<- | Hy]; [eauto|].
  destruct (IH lb ltac:(congruence) Hy) as (x' & Hx'). eauto.
Qed.

Lemma existsb_map_id {A} (f : A -> bool) (l : list A) :
  existsb f l = existsb (fun b => b) (map f l).
Proof. induction l as [|a l IH]; simpl; [reflexivity | rewrite IH; reflexivity]. Qed.

Lemma existsb_false_Forall {A} (f : A -> bool) (l : list A) :
  Forall (fun x => f x = false) l -> existsb f l = false.
Proof. induction 1 as [|x l Hx _ IH]; simpl; [reflexivity|]. rewrite Hx. exact IH. Qed.

Lemma Forall2_Forall_snd {A B} (P : B -> Prop) (l : list A) (l' : list B) :
  Forall2 (fun _ y => P y) l l' -> Forall P l'.
Proof. induction 1; constructor; assumption. Qed.

Lemma Forall2_In_l {A B} (R : A -> B -> Prop) (l : list A) (l' : list B) x :
  Forall2 R l l' -> In x l -> exists y, In y l' /\ R x y.
Proof.
  induction 1 as [|a b l l' Hab _ IH]; simpl; [contradiction|].
  intros [-> | Hx]; [exists b; auto|]. destruct (IH Hx) as (y & Hy & Hr). eauto.
Qed.

Lemma find_ext_in {A} (p q : A -> bool) (l : list A) :
  (forall x, In x l -> p x = q x) -> find p l = find q l.
Proof.
  induction l as [|x l IH]; intros H; simpl; [reflexivity|].
  rewrite (H x (or_introl eq_refl)). destruct (q x); [reflexivity|].
  apply IH. intros y Hy. apply H. right. exact Hy.
Qed.

Lemma Forall2_impl_in {A B} (R S : A -> B -> Prop) (l : list A) (l' : list B) :
  (forall a b, In a l -> R a b -> S a b) -> Forall2 R l l' -> Forall2 S l l'.
Proof.
  intros H HF. induction HF as [|a b l l' Hab _ IH]; constructor.
  - apply H; [left; reflexivity | exact Hab].
  - apply IH. intros x y Hx. apply H. right. exact Hx.
Qed.

(** What every successful call of [f] produces holds of every element
    [mapM f] returns. *)
Lemma mapM_Forall {E A B} (f : A -> result E B) (P : A -> Prop) (Q : B -> Prop) l l' :
  Forall P l -> (forall x y, P x -> f x = Ok y -> Q y) -> mapM f l = Ok l' -> Forall Q l'.
Proof.
  intros HP Hf Hm. apply mapM_Ok_iff in Hm.
  induction Hm as [|x y l l' Hxy _ IH]; constructor; inversion HP; subst; eauto.
Qed.

Lemma Forall_combine {A B} (P : A -> Prop) (Q : B -> Prop) (l : list A) (m : list B) :
  Forall P l -> Forall Q m -> Forall (fun p => P (fst p) /\ Q (snd p)) (combine l m).
Proof.
  intros HP. revert m. induction HP as [|x l Hx _ IH]; intros [|y m] HQ; simpl;
    constructor; inversion HQ; subst; auto.
Qed.

Lemma forallb_Forall_iff {A} (f : A -> bool) (l : list A) :
  forallb f l = true <-> Forall (fun x => f x = true) l.
Proof. rewrite forallb_forall, Forall_forall. reflexivity. Qed.

Lemma Forall2_nth_error {A B} (R : A -> B -> Prop) l l' i x :
  Forall2 R l l' -> nth_error l i = Some x -> exists y, nth_error l' i = Some y /\ R x y.
Proof.
  intros HF. revert i. induction HF as [|a b l l' Hab _ IH]; intros [|i] Hi; simpl in *;
    try discriminate; [injection Hi as <-; eauto | auto].
Qed.

Lemma mapM_nth_error {E A B} (f : A -> result E B) l l' i x :
  mapM f l = Ok l' -> nth_error l i = Some x -> exists y, nth_error l' i = Some y /\ f x = Ok y.
Proof. intros H. apply mapM_Ok_iff in H. exact (Forall2_nth_error _ _ _ i x H). Qed.

Lemma nth_error_combine_some {A B} (l : list A) (m : list B) i x y :
  nth_error l i = Some x -> nth_error m i = Some y -> nth_error (combine l m) i = Some (x, y).
Proof.
  revert m i. induction l as [|a l IH]; intros [|b m] [|i] Hx Hy; simpl in *;
    try discriminate; [congruence | auto].
Qed.

Lemma nth_error_lt {A} (l : list A) (i : nat) : (i < length l)%nat -> exists x, nth_error l i = Some x.
Proof.
  intros H. apply nth_error_Some in H. destruct (nth_error l i) as [x|]; [eauto | congruence].
Qed.

Lemma Forall2_nth_error_r {A B} (R : A -> B -> Prop) l l' i y :
  Forall2 R l l' -> nth_error l' i = Some y -> exists x, nth_error l i = Some x /\ R x y.
Proof.
  intros HF. revert i. induction HF as [|a b l l' Hab _ IH]; intros [|i] Hi; simpl in *;
    try discriminate; [injection Hi as <-; eauto | auto].
Qed.

Lemma Forall2_both {A B} (P Q : A -> B -> Prop) (R : A -> Prop) l m :
  Forall2 P l m -> Forall2 Q l m -> (forall a b, P a b -> Q a b -> R a) -> Forall R l.
Proof.
  intros HP. induction HP as [|a b l m Hab _ IH]; intros HQ H; constructor;
    inversion HQ; subst; eauto.
Qed.

Lemma omap_Some_iff {A B} (f : A -> option B) l l' :
  omap f l = Some l' <-> Forall2 (fun x y => f x = Some y) l l'.
Proof.
  revert l'. induction l as [|x l IH]; intros l'; simpl.
  - split; [intros [= <-]; constructor | intros H; inversion H; reflexivity].
  - split.
    + destruct (f x) eqn:E; [|discriminate]. destruct (omap f l) eqn:E'; [|discriminate].
      intros [= <-]. constructor; [exact E | apply IH; reflexivity].
    + intros H. inversion H as [|? y ? l'' Hy Hl]; subst. rewrite Hy.
      apply IH in Hl. rewrite Hl. reflexivity.
Qed.

Lemma omap_map {A B C} (f : B -> option C) (g : A -> B) l : omap f (map g l) = omap (fun x => f (g x)) l.
Proof. induction l as [|x l IH]; simpl; [reflexivity|]. rewrite IH. reflexivity. Qed.

Lemma omap_Some_map {A B} (f : A -> option B) (g : A -> B) l :
  (forall x, In x l -> f x = Some (g x)) -> omap f l = Some (map g l).
Proof.
  induction l as [|x l IH]; intros H; simpl; [reflexivity|].
  rewrite (H x (or_introl eq_refl)), IH by (intros y Hy; apply H; right; exact Hy). reflexivity.
Qed.

Lemma Forall2_In_r_exists {A B} (R : A -> B -> Prop) (l : list A) (l' : list B) x :
  Forall2 R l l' -> In x l' -> exists y, In y l /\ R y x.
Proof.
  induction 1 as [|a b l l' Hab _ IH]; simpl; [contradiction|].
  intros [-> | Hx]; [exists a; auto|]. destruct (IH Hx) as (y & Hy & Hr). eauto.
Qed.

Lemma mapM_Err_of_In {E A B} (f : A -> result E B) (l : list A) x e :
  In x l -> f x = Err e -> exists e', mapM f l = Err e'.
Proof.
  induction l as [|y l IH]; simpl; [tauto|]. intros [->|Hin] Ex.
  - rewrite Ex. simpl. eauto.
  - destruct (f y); simpl; [|eauto]. destruct (IH Hin Ex) as (e' & ->). simpl. eauto.
Qed.

Lemma map_nth_seq {A} (l : list A) d : map (fun i => nth i l d) (seq 0 (length l)) = l.
Proof.
  induction l as [|a l IH]; [reflexivity|]. simpl. f_equal. rewrite <- seq_shift, map_map. exact IH.
Qed.
