(* ===== verification/PyValue.v ===== *)
(** * Python scalars: the cells of a frame

    The values [score_species] reads and writes are Python objects held in
    pandas columns: integers (numpy [int64] or Python [int]), floats, the
    missing value NaN, and strings.  This file gives them as the inductive
    [value], the exceptions the program can raise ([KeyError] from a
    missing column, [TypeError] from an operator on a string, the
    three errors of the CSV reader and the two of the Excel writer), and the
    scalar operators the code applies: [x == k] (lines 48 and 52), [x >= k]
    (line 66), [*] (lines 25-53) and [+] (lines 55-63), each with the cases
    in which Python raises, and NaN on either side giving NaN, as pandas
    applies an operator to the cells of a column.  It also gives numpy's signed 64-bit
    wrap-around, [wrap64], which the [int64] columns of [Series.v] use. *)

From Stdlib Require Import ZArith QArith Qreduction Lqa String List Lia.
From Stdlib Require Import Morphisms.
From S2P Require Import Prelude.
Import ListNotations.
Open Scope py_scope.

Module PyValue.

(** A cell.  [VFloat] is a finite Python float, modelled as an exact
    rational; [VNaN] is [float('nan')], which pandas also uses for a
    missing cell. *)
Inductive value : Type :=
| VInt (z : Z)
| VFloat (q : Q)
| VNaN
| VStr (s : string).

(** The exceptions the modelled code can raise.  [KeyError] carries the
    missing column labels; the last three are raised by [pd.read_csv]
    (line 91): [pandas.errors.ParserError] for a malformed file,
    [pandas.errors.EmptyDataError] for a file without any line, and
    [UnicodeDecodeError] for bytes that are not UTF-8; the last two by the
    Excel export ([to_excel], lines 98, 161, 219): openpyxl's
    [IllegalCharacterError] for a control character in a text cell and
    [ValueError] for an invalid sheet title. *)
Inductive exn : Type :=
| KeyError (keys : list string)
| TypeError
| ParserError
| EmptyDataError
| UnicodeDecodeError
| IllegalCharacterError
| ValueError.

Abbreviation pyresult := (result exn).

Lemma value_eq_dec (x y : value) : {x = y} + {x <> y}.
Proof.
  decide equality; try apply Z.eq_dec; try apply string_dec.
  destruct q, q0. decide equality; [apply Pos.eq_dec | apply Z.eq_dec].
Defined.

(** ** numpy [int64] *)

Definition int64_min : Z := (- 2 ^ 63)%Z.
Definition int64_max : Z := (2 ^ 63 - 1)%Z.

Definition in_int64 (z : Z) : bool := (int64_min <=? z)%Z && (z <=? int64_max)%Z.

(** Two's complement wrap-around of a mathematical result to 64 bits, as
    numpy computes [a * b] and [a + b] on [int64] arrays. *)
Definition wrap64 (z : Z) : Z := ((z + 2 ^ 63) mod 2 ^ 64 - 2 ^ 63)%Z.

(** ** Comparisons *)

(** Python [x == k] for an integer literal [k]: numbers compare by value,
    NaN and strings are unequal to every number. *)
Definition py_eq_int (x : value) (k : Z) : bool :=
  match x with
  | VInt z => Z.eqb z k
  | VFloat q => Qeq_bool q (inject_Z k)
  | VNaN => false
  | VStr _ => false
  end.

(** Python [x >= k]: NaN compares false, a string raises [TypeError]. *)
Definition py_ge_int (x : value) (k : Z) : pyresult bool :=
  match x with
  | VInt z => Ok (k <=? z)%Z
  | VFloat q => Ok (Qle_bool (inject_Z k) q)
  | VNaN => Ok false
  | VStr _ => Err TypeError
  end.

(** ** Arithmetic *)

Fixpoint str_repeat (n : nat) (s : string) : string :=
  match n with
  | O => EmptyString
  | S n => s ++ str_repeat n s
  end.

(** [s * k] repeats [s]; a count [k <= 0] gives the empty string. *)
Definition py_str_mul (s : string) (k : Z) : string := str_repeat (Z.to_nat k) s.

(** The operators act on the cells of a column as pandas applies them:
    NaN on either side gives NaN, a string included, since for an
    [object] column [_masked_arith_op] ([pandas/core/ops/array_ops.py])
    applies Python's operator only where both operands are present and
    puts NaN elsewhere. *)
Definition py_mul (x y : value) : pyresult value :=
  match x, y with
  | VInt a, VInt b => Ok (VInt (a * b)%Z)
  | VInt a, VFloat b => Ok (VFloat (Qred (inject_Z a * b)))
  | VFloat a, VInt b => Ok (VFloat (Qred (a * inject_Z b)))
  | VFloat a, VFloat b => Ok (VFloat (Qred (a * b)))
  | VNaN, _ => Ok VNaN
  | _, VNaN => Ok VNaN
  | VStr s, VInt k => Ok (VStr (py_str_mul s k))
  | VInt k, VStr s => Ok (VStr (py_str_mul s k))
  | _, _ => Err TypeError
  end.

Definition py_add (x y : value) : pyresult value :=
  match x, y with
  | VInt a, VInt b => Ok (VInt (a + b)%Z)
  | VInt a, VFloat b => Ok (VFloat (Qred (inject_Z a + b)))
  | VFloat a, VInt b => Ok (VFloat (Qred (a + inject_Z b)))
  | VFloat a, VFloat b => Ok (VFloat (Qred (a + b)))
  | VNaN, _ => Ok VNaN
  | _, VNaN => Ok VNaN
  | VStr a, VStr b => Ok (VStr (a ++ b))
  | _, _ => Err TypeError
  end.

(** ** Classification of cells *)

Definition is_str (x : value) : bool :=
  match x with VStr _ => true | _ => false end.

Definition is_nan (x : value) : bool :=
  match x with VNaN => true | _ => false end.

(** A number: an [int] or a non-NaN [float]. *)
Definition is_num (x : value) : bool :=
  match x with VInt _ | VFloat _ => true | _ => false end.

(** Python [x == y] on two cells: numbers by value, strings by their
    characters, NaN equal to nothing. *)
Definition py_eq (x y : value) : bool :=
  match x, y with
  | VInt a, VInt b => Z.eqb a b
  | VInt a, VFloat q => Qeq_bool (inject_Z a) q
  | VFloat q, VInt b => Qeq_bool q (inject_Z b)
  | VFloat p, VFloat q => Qeq_bool p q
  | VStr a, VStr b => String.eqb a b
  | _, _ => false
  end.

(** [num_rel v q]: the cell [v] is a number whose value is [q]. *)
Definition num_rel (v : value) (q : Q) : Prop :=
  match v with
  | VInt z => inject_Z z == q
  | VFloat r => r == q
  | _ => False
  end.

(** ** Lemmas *)

Lemma wrap64_small z : in_int64 z = true -> wrap64 z = z.
Proof.
  unfold in_int64, wrap64, int64_min, int64_max. intros H.
  apply andb_prop in H as [H1 H2]. apply Z.leb_le in H1, H2.
  rewrite Z.mod_small by lia. lia.
Qed.

Lemma wrap64_in_int64 z : in_int64 (wrap64 z) = true.
Proof.
  unfold in_int64, wrap64, int64_min, int64_max.
  pose proof (Z.mod_pos_bound (z + 2 ^ 63) (2 ^ 64) ltac:(lia)).
  apply andb_true_intro; split; apply Z.leb_le; lia.
Qed.

Lemma wrap64_mod z : ((wrap64 z - z) mod 2 ^ 64 = 0)%Z.
Proof.
  Local Open Scope Z_scope.
  unfold wrap64. rewrite Z.mod_eq by lia.
  replace ((z + 2 ^ 63) mod 2 ^ 64 - 2 ^ 63 - z) with
    ((z + 2 ^ 63) mod 2 ^ 64 - (z + 2 ^ 63)) by lia.
  rewrite Z.mod_eq by lia.
  replace (z + 2 ^ 63 - 2 ^ 64 * ((z + 2 ^ 63) / 2 ^ 64) - (z + 2 ^ 63))
    with ((- ((z + 2 ^ 63) / 2 ^ 64)) * 2 ^ 64) by lia.
  rewrite Z.div_mul by lia. lia.
Qed.

Lemma in_int64_iff z : in_int64 z = true <-> (- 2 ^ 63 <= z < 2 ^ 63)%Z.
Proof.
  unfold in_int64, int64_min, int64_max. rewrite andb_true_iff, !Z.leb_le. lia.
Qed.

#[export] Instance num_rel_Proper : Proper (eq ==> Qeq ==> iff) num_rel.
Proof.
  intros v v' <- q q' Hq. destruct v; simpl; try tauto; rewrite Hq; tauto.
Qed.

Lemma py_eq_int_num v q k : num_rel v q -> py_eq_int v k = Qeq_bool q (inject_Z k).
Proof.
  destruct v as [z|r| |s]; simpl; intros H; try contradiction.
  - apply eq_true_iff_eq. rewrite Z.eqb_eq, Qeq_bool_iff, <- H.
    split; [intros ->; reflexivity | apply inject_Z_injective].
  - apply eq_true_iff_eq. rewrite !Qeq_bool_iff, H. tauto.
Qed.

Lemma py_ge_int_num v q k : num_rel v q -> py_ge_int v k = Ok (Qle_bool (inject_Z k) q).
Proof.
  destruct v as [z|r| |s]; simpl; intros H; try contradiction; f_equal.
  - apply eq_true_iff_eq. rewrite Z.leb_le, Qle_bool_iff, <- H, Zle_Qle. tauto.
  - apply eq_true_iff_eq. rewrite !Qle_bool_iff, H. tauto.
Qed.

(** Multiplying a number by a number gives their product, whatever the
    mix of [int] and [float]. *)
Lemma py_mul_num v w q r :
  num_rel v q -> num_rel w r ->
  exists u, py_mul v w = Ok u /\ num_rel u (q * r) /\ is_str u = false.
Proof.
  destruct v as [a|a| |s], w as [b|b| |t]; intros Hv Hw; simpl in Hv, Hw; try contradiction;
    eexists; (split; [reflexivity|]); (split; [|reflexivity]); unfold num_rel;
    rewrite ?Qred_correct, ?inject_Z_mult, ?Hv, ?Hw; reflexivity.
Qed.

Lemma py_add_num v w q r :
  num_rel v q -> num_rel w r ->
  exists u, py_add v w = Ok u /\ num_rel u (q + r) /\ is_str u = false.
Proof.
  destruct v as [a|a| |s], w as [b|b| |t]; intros Hv Hw; simpl in Hv, Hw; try contradiction;
    eexists; (split; [reflexivity|]); (split; [|reflexivity]); unfold num_rel;
    rewrite ?Qred_correct, ?inject_Z_plus, ?Hv, ?Hw; reflexivity.
Qed.

(** An integer multiplier never raises: strings are repeated, NaN stays
    NaN. *)
Lemma py_mul_int_ok v k : exists u, py_mul v (VInt k) = Ok u /\ is_str u = is_str v.
Proof. destruct v; eexists; split; reflexivity. Qed.





(** Every failing operator fails with [TypeError]. *)
Lemma py_add_err v w e : py_add v w = Err e -> e = TypeError.
Proof. destruct v, w; simpl; intros H; inv_ok; reflexivity. Qed.

Lemma py_mul_err v w e : py_mul v w = Err e -> e = TypeError.
Proof. destruct v, w; simpl; intros H; inv_ok; reflexivity. Qed.

Lemma py_ge_int_ok v k : is_str v = false -> exists b, py_ge_int v k = Ok b.
Proof. destruct v; simpl; intros H; try discriminate; eauto. Qed.

Lemma py_add_nostr v w :
  is_str v = false -> is_str w = false -> exists u, py_add v w = Ok u /\ is_str u = false.
Proof. destruct v, w; simpl; intros H1 H2; try discriminate; eexists; split; reflexivity. Qed.

Lemma py_mul_is_num v w :
  is_num v = true -> is_num w = true -> exists u, py_mul v w = Ok u /\ is_num u = true.
Proof. destruct v, w; simpl; intros H1 H2; try discriminate; eexists; split; reflexivity. Qed.

Lemma py_add_is_num v w :
  is_num v = true -> is_num w = true -> exists u, py_add v w = Ok u /\ is_num u = true.
Proof. destruct v, w; simpl; intros H1 H2; try discriminate; eexists; split; reflexivity. Qed.

(** A string on the right of a number raises. *)
Lemma py_add_num_str v w : is_num v = true -> is_str w = true -> py_add v w = Err TypeError.
Proof. destruct v, w; simpl; intros H1 H2; try discriminate; reflexivity. Qed.

Lemma py_add_nan_any v u : py_add VNaN v = Ok u -> u = VNaN.
Proof. destruct v; simpl; intros H; inv_ok; reflexivity. Qed.

Lemma py_mul_nan_any v u : py_mul VNaN v = Ok u -> u = VNaN.
Proof. destruct v; simpl; intros H; inv_ok; reflexivity. Qed.

Lemma num_rel_compat v q q' : num_rel v q -> q == q' -> num_rel v q'.
Proof. intros H E. rewrite <- E. exact H. Qed.

Lemma py_eq_num v w q : num_rel v q -> num_rel w q -> py_eq v w = true.
Proof.
  destruct v, w; simpl; try contradiction; intros H1 H2; try apply Qeq_bool_iff;
    try (rewrite H1, H2; reflexivity).
  apply Z.eqb_eq. apply inject_Z_injective. rewrite H1, H2. reflexivity.
Qed.

Lemma py_eq_str s : py_eq (VStr s) (VStr s) = true.
Proof. apply String.eqb_refl. Qed.

Lemma py_add_nan_any_r v u : py_add v VNaN = Ok u -> u = VNaN.
Proof. destruct v; simpl; intros H; inv_ok; reflexivity. Qed.

Lemma wrap64_high z : (2 ^ 63 <= z < 2 ^ 64 + 2 ^ 63)%Z -> wrap64 z = (z - 2 ^ 64)%Z.
Proof.
  intros H. unfold wrap64.
  replace (z + 2 ^ 63)%Z with ((z + 2 ^ 63 - 2 ^ 64) + 1 * 2 ^ 64)%Z by ring.
  rewrite Z_mod_plus_full, Z.mod_small by lia. ring.
Qed.

Lemma wrap64_low z : (- 2 ^ 64 - 2 ^ 63 <= z < - 2 ^ 63)%Z -> wrap64 z = (z + 2 ^ 64)%Z.
Proof.
  intros H. unfold wrap64.
  replace (z + 2 ^ 63)%Z with ((z + 2 ^ 63 + 2 ^ 64) + (-1) * 2 ^ 64)%Z by ring.
  rewrite Z_mod_plus_full, Z.mod_small by lia. ring.
Qed.

Lemma wrap64_id_iff z : wrap64 z = z <-> in_int64 z = true.
Proof.
  split; [|apply wrap64_small]. intros H. rewrite <- H. apply wrap64_in_int64.
Qed.

End PyValue.

#[export] Hint Resolve PyValue.wrap64_in_int64 : pyops.
