(* ===== verification/Series.v ===== *)
(** * pandas Series: a dtype and a column of cells

    A column of the frame [score_species] works on, with the pandas
    operations the code applies to it:
    - [s_map_dict]: [Series.map(dict)] (lines 19, 27, 34, 41), NaN where a
      cell is not a key, [float64] as soon as one cell is missing;
    - [s_fillna]: [.fillna(0)] (lines 25, 30, 39, 45);
    - [s_mul]: [series * k] for a literal [k] (lines 25-53), the product
      of each cell by [k] and, on an [int64] column times an integer, the
      64-bit wrap-around of numpy;
    - [s_apply]: [Series.apply(f)] (lines 47, 51, 65), with the dtype
      pandas infers from the results;
    - [s_add]: [a + b] on two aligned columns (lines 55-63).
    The lemmas give each operation's result on numeric columns, on
    columns without strings, and row by row on NaN cells. *)

From Stdlib Require Import ZArith QArith Qabs Qreduction Lqa String List Lia.
From S2P Require Import Prelude PyValue.
Import ListNotations.
Open Scope py_scope.

Module Series.
Import PyValue.

Inductive dtype : Type :=
| Int64
| Float64
| Object.

Record series : Type := mkSeries {
  sdtype : dtype;
  svalues : list value
}.

(** A numeric literal of the code: [3], [2], [1] or [1.5]. *)
Inductive scalar : Type :=
| SInt (z : Z)
| SFloat (q : Q).

Definition scalar_value (k : scalar) : value :=
  match k with SInt z => VInt z | SFloat q => VFloat q end.

Definition scalar_q (k : scalar) : Q :=
  match k with SInt z => inject_Z z | SFloat q => q end.

(** ** [Series.map(dict)] *)

(** Lookup in a Python dict literal with string keys; a cell that is not
    a string is never a key. *)
Fixpoint dict_get (d : list (string * Z)) (k : string) : option Z :=
  match d with
  | [] => None
  | (k', v) :: d' => if String.eqb k k' then Some v else dict_get d' k
  end.

Definition map_cell (d : list (string * Z)) (v : value) : option Z :=
  match v with VStr k => dict_get d k | _ => None end.

Definition s_map_dict (d : list (string * Z)) (s : series) : series :=
  let r := map (map_cell d) (svalues s) in
  if forallb (fun o => match o with Some _ => true | None => false end) r
  then mkSeries Int64 (map (fun o => match o with Some z => VInt z | None => VNaN end) r)
  else mkSeries Float64
         (map (fun o => match o with Some z => VFloat (inject_Z z) | None => VNaN end) r).

(** ** [.fillna(k)] *)

Definition fill_cell (d : dtype) (k : Z) (v : value) : value :=
  match v with
  | VNaN => match d with Float64 => VFloat (inject_Z k) | _ => VInt k end
  | _ => v
  end.

Definition s_fillna (k : Z) (s : series) : series :=
  mkSeries (sdtype s) (map (fill_cell (sdtype s) k) (svalues s)).

(** ** Arithmetic *)

(** numpy reduces an [int64] result to 64 bits. *)
Definition wrap_cell (v : value) : value :=
  match v with VInt z => VInt (wrap64 z) | _ => v end.

(** [series * k]: numeric columns stay numeric ([int64 * int] stays
    [int64] and wraps, anything with a float is [float64]); an [object]
    column is multiplied cell by cell with Python's [*]. *)
Definition s_mul (s : series) (k : scalar) : pyresult series :=
  let* vs := mapM (fun v => py_mul v (scalar_value k)) (svalues s) in
  Ok (match sdtype s, k with
      | Int64, SInt _ => mkSeries Int64 (map wrap_cell vs)
      | Object, _ => mkSeries Object vs
      | _, _ => mkSeries Float64 vs
      end).

(** [a + b] on two columns of one frame (same index, so cell by cell). *)
Definition s_add (a b : series) : pyresult series :=
  let* vs := mapM (fun p => py_add (fst p) (snd p)) (combine (svalues a) (svalues b)) in
  Ok (match sdtype a, sdtype b with
      | Int64, Int64 => mkSeries Int64 (map wrap_cell vs)
      | Object, _ | _, Object => mkSeries Object vs
      | _, _ => mkSeries Float64 vs
      end).

(** ** [Series.apply(f)] *)

(** The dtype [lib.maybe_convert_objects] infers for the results of
    [apply] and for the columns of [pd.DataFrame(records)]: [int64] when
    all are integers that fit, [float64] when all are numbers or NaN and
    the integers fit, [object] otherwise: a string, or an integer beyond
    [int64], which pandas keeps as a Python int.  (An all-integer column
    with a value in [[2^63, 2^64)] and none negative is [uint64] in
    pandas; it is [object] here.  No column of the program can hold one:
    the lambdas return small numbers and the form's threat slider stops
    at 5.) *)
Definition infer_dtype (vs : list value) : dtype :=
  if forallb (fun v => match v with VInt z => in_int64 z | _ => false end) vs then Int64
  else if forallb (fun v => match v with VInt z => in_int64 z | VStr _ => false | _ => true end) vs
  then Float64
  else Object.

Definition coerce (d : dtype) (v : value) : value :=
  match d, v with
  | Float64, VInt z => VFloat (inject_Z z)
  | _, _ => v
  end.

Definition series_of_values (vs : list value) : series :=
  let d := infer_dtype vs in mkSeries d (map (coerce d) vs).

(** An empty Series is returned as it is, with its dtype. *)
Definition s_apply (f : value -> pyresult value) (s : series) : pyresult series :=
  match svalues s with
  | [] => Ok s
  | _ => let* vs := mapM f (svalues s) in Ok (series_of_values vs)
  end.

(** ** Derived predicates *)

Definition has_str (s : series) : bool := existsb is_str (svalues s).

(** Every cell is a number, none a string or NaN. *)
Definition all_num (s : series) : bool := forallb is_num (svalues s).

(** [num_series s qs]: every cell of [s] is a number, the list of their
    values is [qs]. *)
Definition num_series (s : series) (qs : list Q) : Prop := Forall2 num_rel (svalues s) qs.

Definition q_in_int64 (q : Q) : Prop := - inject_Z (2 ^ 63) <= q < inject_Z (2 ^ 63).

(** ** Lemmas *)

Lemma Forall2_Forall_r {A B} (R : A -> B -> Prop) (P : B -> Prop) l m :
  Forall2 R l m -> Forall P m -> Forall2 (fun a b => R a b /\ P b) l m.
Proof. induction 1; inversion 1; subst; constructor; auto. Qed.

Lemma q_in_int64_Z z q : inject_Z z == q -> q_in_int64 q -> in_int64 z = true.
Proof.
  unfold q_in_int64. intros Hz [H1 H2]. rewrite <- Hz in H1, H2.
  rewrite <- inject_Z_opp, <- Zle_Qle in H1. rewrite <- Zlt_Qlt in H2.
  apply in_int64_iff. lia.
Qed.

(** A cell whose value fits in 64 bits is left alone by the wrap. *)
Lemma wrap_cell_num v q : num_rel v q -> q_in_int64 q -> num_rel (wrap_cell v) q.
Proof.
  destruct v as [z|r| |t]; simpl; intros Hv Hq; try exact Hv.
  rewrite wrap64_small; [exact Hv | eapply q_in_int64_Z; eauto].
Qed.

Lemma wrap_cell_is_str v : is_str (wrap_cell v) = is_str v.
Proof. destruct v; reflexivity. Qed.

Lemma forallb_is_num_wrap vs : forallb is_num (map wrap_cell vs) = forallb is_num vs.
Proof. induction vs as [|[] vs IH]; simpl; rewrite ?IH; reflexivity. Qed.

Lemma has_str_false_iff s : has_str s = false <-> Forall (fun v => is_str v = false) (svalues s).
Proof.
  unfold has_str. rewrite Forall_forall. split.
  - intros H v Hv. destruct (is_str v) eqn:E; [|reflexivity].
    assert (existsb is_str (svalues s) = true) by (apply existsb_exists; eauto). congruence.
  - intros H. destruct (existsb is_str (svalues s)) eqn:E; [|reflexivity].
    apply existsb_exists in E as (v & Hv & Hs). rewrite H in Hs by exact Hv. discriminate.
Qed.

Lemma num_series_no_str s qs : num_series s qs -> has_str s = false.
Proof.
  intros H. apply has_str_false_iff. unfold num_series in H.
  induction H as [|v q vs qs Hv _ IH]; constructor; [|exact IH].
  destruct v; simpl in *; first [reflexivity | contradiction].
Qed.

Lemma num_series_length s qs : num_series s qs -> length (svalues s) = length qs.
Proof. apply Forall2_length. Qed.

(** *** [map(dict).fillna(0)] is the code of the cell, 0 for a non-key *)

Definition dict_code (d : list (string * Z)) (v : value) : Z :=
  match map_cell d v with Some z => z | None => 0%Z end.

Lemma s_map_dict_fillna_num d s :
  num_series (s_fillna 0 (s_map_dict d s)) (map (fun v => inject_Z (dict_code d v)) (svalues s)).
Proof.
  unfold num_series, s_fillna, s_map_dict, dict_code.
  destruct forallb; simpl; rewrite !map_map; apply Forall2_map_l, Forall2_refl_map;
    intros v _; destruct (map_cell d v); simpl; reflexivity.
Qed.

(** *** [series * k] on a numeric column *)

Lemma s_mul_num s k qs :
  num_series s qs -> Forall (fun q => q_in_int64 (q * scalar_q k)) qs ->
  exists s', s_mul s k = Ok s' /\ num_series s' (map (fun q => q * scalar_q k) qs) /\
             has_str s' = false.
Proof.
  intros Hs Hb. unfold s_mul.
  destruct (mapM_Forall2 (fun v => py_mul v (scalar_value k)) _
              (fun u q => num_rel u q /\ q_in_int64 q /\ is_str u = false)
              (fun q => q * scalar_q k) _ _ (Forall2_Forall_r _ _ _ _ Hs Hb))
    as (vs & Hvs & Hrel).
  { intros v q [Hv Hq].
    assert (Hk : num_rel (scalar_value k) (scalar_q k)) by (destruct k; simpl; reflexivity).
    destruct (py_mul_num _ _ _ _ Hv Hk) as (u & Hu & Hn & Hstr). eauto. }
  rewrite Hvs; simpl. eexists; split; [reflexivity|].
  assert (Hw : Forall2 num_rel (map wrap_cell vs) (map (fun q => q * scalar_q k) qs)).
  { apply Forall2_map_l. eapply Forall2_impl; [|exact Hrel].
    intros u q (Hn & Hq & _). apply wrap_cell_num; assumption. }
  assert (Hp : Forall2 num_rel vs (map (fun q => q * scalar_q k) qs)).
  { eapply Forall2_impl; [|exact Hrel]. intros u q (Hn & _); exact Hn. }
  destruct (sdtype s), k; split; unfold num_series; simpl; try assumption;
    eapply num_series_no_str; eassumption.
Qed.

(** *** [a + b] on two numeric columns *)

Lemma s_add_num a b qa qb :
  num_series a qa -> num_series b qb ->
  Forall q_in_int64 (zip_with Qplus qa qb) ->
  exists c, s_add a b = Ok c /\ num_series c (zip_with Qplus qa qb) /\ has_str c = false.
Proof.
  intros Ha Hb Hbd. unfold s_add.
  destruct (mapM_combine_Forall2 py_add num_rel num_rel
              (fun u q => num_rel u q /\ is_str u = false) Qplus _ _ _ _ Ha Hb)
    as (vs & Hvs & Hrel).
  { intros v w q r Hv Hw. destruct (py_add_num _ _ _ _ Hv Hw) as (u & Hu & Hn & Hs). eauto. }
  rewrite Hvs; simpl. eexists; split; [reflexivity|].
  assert (Hp : Forall2 num_rel vs (zip_with Qplus qa qb)).
  { eapply Forall2_impl; [|exact Hrel]. intros u q (Hn & _); exact Hn. }
  assert (Hw : Forall2 num_rel (map wrap_cell vs) (zip_with Qplus qa qb)).
  { apply Forall2_map_l. pose proof (Forall2_Forall_r _ _ _ _ Hp Hbd) as H.
    eapply Forall2_impl; [|exact H]. intros u q [Hn Hq]. apply wrap_cell_num; assumption. }
  destruct (sdtype a), (sdtype b); split; unfold num_series; simpl; try assumption;
    eapply num_series_no_str; eassumption.
Qed.

Lemma Qabs_q_in_int64 q : Qabs q < inject_Z (2 ^ 63) -> q_in_int64 q.
Proof. unfold q_in_int64. rewrite Qabs_Qlt_condition. lra. Qed.

(** *** [apply] with a lambda that returns small integers *)

Lemma series_of_values_ints zs :
  forallb in_int64 zs = true -> series_of_values (map VInt zs) = mkSeries Int64 (map VInt zs).
Proof.
  intros H. unfold series_of_values, infer_dtype.
  replace (forallb _ (map VInt zs)) with true.
  - f_equal. rewrite map_map. apply map_ext. reflexivity.
  - induction zs as [|z zs IH]; simpl in *; [reflexivity|].
    apply andb_prop in H as [H1 H2]. rewrite H1. exact (IH H2).
Qed.

Lemma s_apply_int_num (f : value -> pyresult value) (g : Q -> Z) s qs :
  num_series s qs ->
  (forall v q, num_rel v q -> f v = Ok (VInt (g q))) ->
  (forall q, in_int64 (g q) = true) ->
  exists a, s_apply f s = Ok a /\ num_series a (map (fun q => inject_Z (g q)) qs).
Proof.
  intros Hs Hf Hg. unfold s_apply.
  destruct (svalues s) as [|v vs] eqn:Ev.
  - exists s. split; [reflexivity|]. unfold num_series in *. rewrite Ev in Hs.
    inversion Hs; subst. rewrite Ev. constructor.
  - rewrite <- Ev.
    destruct (mapM_Forall2 f num_rel (fun u z => u = VInt z) g _ _ Hs) as (us & Hus & Hrel).
    { intros v' q Hv'. eauto. }
    rewrite Hus; simpl.
    assert (Hus' : us = map VInt (map g qs)).
    { clear Hus. induction Hrel; simpl; congruence. }
    subst us. rewrite series_of_values_ints.
    + eexists; split; [reflexivity|]. unfold num_series; simpl.
      rewrite map_map. apply Forall2_map_l. apply Forall2_map_r.
      clear. induction qs; constructor; simpl; [reflexivity | assumption].
    + apply forallb_forall. intros z Hz. apply in_map_iff in Hz as (q & <- & _). apply Hg.
Qed.

(** *** Strings and errors *)

Lemma py_mul_scalar_nostr v k :
  is_str v = false -> exists u, py_mul v (scalar_value k) = Ok u /\ is_str u = false.
Proof. destruct v, k; simpl; intros H; try discriminate; eexists; split; reflexivity. Qed.

Lemma s_mul_result_values s k s' :
  s_mul s k = Ok s' -> exists vs, mapM (fun v => py_mul v (scalar_value k)) (svalues s) = Ok vs /\
                                  map is_str (svalues s') = map is_str vs /\
                                  length (svalues s') = length vs.
Proof.
  unfold s_mul. intros H. invert_binds. eexists; split; [eassumption|].
  destruct (sdtype s), k; simpl; rewrite ?length_map; split; try reflexivity;
    rewrite map_map; apply map_ext; apply wrap_cell_is_str.
Qed.

(** An integer multiplier never raises and keeps the strings where they are. *)
Lemma s_mul_int s k :
  exists s', s_mul s (SInt k) = Ok s' /\ map is_str (svalues s') = map is_str (svalues s) /\
             length (svalues s') = length (svalues s).
Proof.
  destruct (mapM_total (fun v => py_mul v (scalar_value (SInt k)))
              (fun v u => is_str u = is_str v) (svalues s)) as (vs & Hvs & HF).
  { intros v _. destruct (py_mul_int_ok v k) as (u & Hu & Hs). eauto. }
  assert (E : exists s', s_mul s (SInt k) = Ok s') by (unfold s_mul; rewrite Hvs; simpl; eauto).
  destruct E as (s' & Es'). exists s'. split; [exact Es'|].
  destruct (s_mul_result_values _ _ _ Es') as (vs' & Hvs' & Hstr & Hlen).
  rewrite Hvs in Hvs'. inv_ok. rewrite Hstr, Hlen. split.
  - symmetry. apply Forall2_map_eq. eapply Forall2_impl; [|exact HF]. intros v u H; exact (eq_sym H).
  - symmetry. eapply Forall2_length. exact HF.
Qed.

Lemma map_is_str_has_str s s' :
  map is_str (svalues s') = map is_str (svalues s) -> has_str s' = has_str s.
Proof.
  unfold has_str. intros H. rewrite !(existsb_map_id is_str), H. reflexivity.
Qed.

Lemma s_mul_nostr s k :
  has_str s = false ->
  exists s', s_mul s k = Ok s' /\ has_str s' = false /\ length (svalues s') = length (svalues s).
Proof.
  intros Hs. apply has_str_false_iff in Hs. rewrite Forall_forall in Hs.
  destruct (mapM_total (fun v => py_mul v (scalar_value k)) (fun v u => is_str u = false)
              (svalues s)) as (vs & Hvs & HF).
  { intros v Hv. apply py_mul_scalar_nostr, Hs, Hv. }
  assert (E : exists s', s_mul s k = Ok s') by (unfold s_mul; rewrite Hvs; simpl; eauto).
  destruct E as (s' & Es'). exists s'. split; [exact Es'|].
  destruct (s_mul_result_values _ _ _ Es') as (vs' & Hvs' & Hstr & Hlen).
  rewrite Hvs in Hvs'. inv_ok. split.
  - unfold has_str. rewrite existsb_map_id, Hstr, <- existsb_map_id.
    apply existsb_false_Forall. exact (Forall2_Forall_snd _ _ _ HF).
  - rewrite Hlen. symmetry. eapply Forall2_length. exact HF.
Qed.

Lemma s_add_result_values a b c :
  s_add a b = Ok c ->
  exists vs, mapM (fun p => py_add (fst p) (snd p)) (combine (svalues a) (svalues b)) = Ok vs /\
             map is_str (svalues c) = map is_str vs /\ length (svalues c) = length vs.
Proof.
  unfold s_add. intros H. invert_binds. eexists; split; [eassumption|].
  destruct (sdtype a), (sdtype b); simpl; rewrite ?length_map; split; try reflexivity;
    rewrite map_map; apply map_ext; apply wrap_cell_is_str.
Qed.

Lemma s_add_nostr a b :
  has_str a = false -> has_str b = false ->
  exists c, s_add a b = Ok c /\ has_str c = false /\
            length (svalues c) = Nat.min (length (svalues a)) (length (svalues b)).
Proof.
  intros Ha Hb. apply has_str_false_iff in Ha, Hb. rewrite Forall_forall in Ha, Hb.
  destruct (mapM_total (fun p => py_add (fst p) (snd p)) (fun _ u => is_str u = false)
              (combine (svalues a) (svalues b))) as (vs & Hvs & HF).
  { intros [v w] Hp. apply py_add_nostr; [apply Ha; eapply in_combine_l | apply Hb; eapply in_combine_r];
      exact Hp. }
  assert (E : exists c, s_add a b = Ok c) by (unfold s_add; rewrite Hvs; simpl; eauto).
  destruct E as (c & Ec). exists c. split; [exact Ec|].
  destruct (s_add_result_values _ _ _ Ec) as (vs' & Hvs' & Hstr & Hlen).
  rewrite Hvs in Hvs'. inv_ok. split.
  - unfold has_str. rewrite existsb_map_id, Hstr, <- existsb_map_id.
    apply existsb_false_Forall. exact (Forall2_Forall_snd _ _ _ HF).
  - rewrite Hlen, <- (Forall2_length HF). apply length_combine.
Qed.

(** A string in the right operand of [a + b], with [a] free of strings,
    raises [TypeError]. *)
Lemma s_add_str a b :
  all_num a = true -> has_str b = true -> length (svalues a) = length (svalues b) ->
  s_add a b = Err TypeError.
Proof.
  intros Ha Hb Hlen. unfold all_num in Ha. rewrite forallb_forall in Ha.
  unfold has_str in Hb. apply existsb_exists in Hb as (w & Hw & Hws).
  destruct (In_combine_r_exists _ _ w Hlen Hw) as (v & Hvw).
  unfold s_add.
  destruct (mapM (fun p => py_add (fst p) (snd p)) (combine (svalues a) (svalues b))) as [vs|e]
    eqn:E.
  - exfalso. apply mapM_Ok_iff in E.
    destruct (Forall2_In_l _ _ _ _ E Hvw) as (u & _ & Hu). simpl in Hu.
    rewrite py_add_num_str in Hu; [discriminate | apply Ha; eapply in_combine_l; exact Hvw | exact Hws].
  - simpl. apply mapM_Err_In in E as ([v' w'] & _ & E). simpl in E.
    rewrite (py_add_err _ _ _ E). reflexivity.
Qed.

(** Numbers times a number, and numbers plus numbers, are numbers. *)
Lemma s_mul_all_num s k :
  all_num s = true -> exists s', s_mul s k = Ok s' /\ all_num s' = true.
Proof.
  unfold all_num. intros H. rewrite forallb_forall in H.
  destruct (mapM_total (fun v => py_mul v (scalar_value k)) (fun _ u => is_num u = true)
              (svalues s)) as (vs & Hvs & HF).
  { intros v Hv. apply py_mul_is_num; [apply H, Hv | destruct k; reflexivity]. }
  assert (Hn : forallb is_num vs = true)
    by exact (proj2 (forallb_Forall_iff _ _) (Forall2_Forall_snd _ _ _ HF)).
  unfold s_mul. rewrite Hvs. simpl. eexists; split; [reflexivity|].
  destruct (sdtype s), k; simpl; rewrite ?forallb_is_num_wrap; exact Hn.
Qed.

Lemma s_add_all_num a b :
  all_num a = true -> all_num b = true -> exists c, s_add a b = Ok c /\ all_num c = true.
Proof.
  unfold all_num. intros Ha Hb. rewrite forallb_forall in Ha, Hb.
  destruct (mapM_total (fun p => py_add (fst p) (snd p)) (fun _ u => is_num u = true)
              (combine (svalues a) (svalues b))) as (vs & Hvs & HF).
  { intros [v w] Hp. apply py_add_is_num; [apply Ha; eapply in_combine_l | apply Hb; eapply in_combine_r];
      exact Hp. }
  assert (Hn : forallb is_num vs = true)
    by exact (proj2 (forallb_Forall_iff _ _) (Forall2_Forall_snd _ _ _ HF)).
  unfold s_add. rewrite Hvs. simpl. eexists; split; [reflexivity|].
  destruct (sdtype a), (sdtype b); simpl; rewrite ?forallb_is_num_wrap; exact Hn.
Qed.

(** *** [apply] with a lambda that always returns an integer *)

Lemma s_apply_int_any (f : value -> pyresult value) s :
  (forall v, exists z, f v = Ok (VInt z) /\ in_int64 z = true) ->
  exists a, s_apply f s = Ok a /\ has_str a = false /\
            length (svalues a) = length (svalues s).
Proof.
  intros Hf. unfold s_apply. destruct (svalues s) as [|v0 vs0] eqn:Ev.
  - exists s. split; [reflexivity|]. unfold has_str. rewrite Ev. split; reflexivity.
  - rewrite <- Ev.
    destruct (mapM_total f (fun _ u => exists z, u = VInt z /\ in_int64 z = true) (svalues s))
      as (us & Hus & HF); [intros v _; destruct (Hf v) as (z & Hz & Hr); eauto|].
    rewrite Hus; simpl.
    assert (Hints : exists zs, us = map VInt zs /\ forallb in_int64 zs = true).
    { apply Forall2_Forall_snd in HF. clear Hus. induction HF as [|u us (z & -> & Hz) _ IH].
      - exists []. split; reflexivity.
      - destruct IH as (zs & -> & Hzs). exists (z :: zs). simpl. rewrite Hz, Hzs. split; reflexivity. }
    destruct Hints as (zs & -> & Hzs). rewrite series_of_values_ints by exact Hzs.
    eexists; split; [reflexivity|]. split.
    + unfold has_str; simpl. clear. induction zs; simpl; [reflexivity | exact IHzs].
    + simpl. rewrite length_map. rewrite <- (length_map VInt zs). symmetry.
      eapply Forall2_length. exact HF.
Qed.

Lemma s_map_dict_fillna_nostr d s : has_str (s_fillna 0 (s_map_dict d s)) = false.
Proof.
  unfold has_str, s_fillna, s_map_dict. apply existsb_false_Forall.
  destruct forallb; simpl; rewrite !map_map; apply Forall_map_intro;
    intros v _; destruct (map_cell d v); reflexivity.
Qed.

Lemma s_map_dict_fillna_all_num d s : all_num (s_fillna 0 (s_map_dict d s)) = true.
Proof.
  unfold all_num, s_fillna, s_map_dict. apply forallb_Forall_iff.
  destruct forallb; simpl; rewrite !map_map; apply Forall_map_intro;
    intros v _; destruct (map_cell d v); reflexivity.
Qed.

Lemma s_map_dict_fillna_length d s :
  length (svalues (s_fillna 0 (s_map_dict d s))) = length (svalues s).
Proof. unfold s_fillna, s_map_dict. destruct forallb; simpl; rewrite !length_map; reflexivity. Qed.

(** ** NaN, row by row *)

(** A NaN cell stays NaN when the column is multiplied by a number. *)
Lemma s_mul_nan_at s k i r :
  nth_error (svalues s) i = Some VNaN -> s_mul s k = Ok r -> nth_error (svalues r) i = Some VNaN.
Proof.
  intros Hi H. unfold s_mul in H. invert_binds.
  destruct (mapM_nth_error _ _ _ _ _ H Hi) as (y & Hy & Ey). apply py_mul_nan_any in Ey. subst y.
  destruct (sdtype s), k; simpl; rewrite ?nth_error_map, Hy; reflexivity.
Qed.

(** A NaN cell on either side of [a + b] gives a NaN cell. *)
Lemma s_add_nan_at a b i r :
  (nth_error (svalues a) i = Some VNaN /\ (i < length (svalues b))%nat) \/
  (nth_error (svalues b) i = Some VNaN /\ (i < length (svalues a))%nat) ->
  s_add a b = Ok r -> nth_error (svalues r) i = Some VNaN.
Proof.
  intros Hi H. unfold s_add in H. invert_binds.
  assert (Hp : exists p, nth_error (combine (svalues a) (svalues b)) i = Some p /\
                         (fst p = VNaN \/ snd p = VNaN)).
  { destruct Hi as [[Ha Hb] | [Hb Ha]];
      [apply nth_error_lt in Hb as (y & Hy) | apply nth_error_lt in Ha as (x0 & Hx)];
      eexists; (split; [apply nth_error_combine_some; eassumption|]); simpl; auto. }
  destruct Hp as ([v w] & Hp & Hn).
  destruct (mapM_nth_error _ _ _ _ _ H Hp) as (u & Hu & Eu). simpl in *.
  assert (u = VNaN) as ->
    by (destruct Hn as [-> | ->]; [apply (py_add_nan_any w) | apply (py_add_nan_any_r v)]; exact Eu).
  destruct (sdtype a), (sdtype b); simpl; rewrite ?nth_error_map, Hu; reflexivity.
Qed.

Lemma s_add_length a b c :
  s_add a b = Ok c -> length (svalues c) = Nat.min (length (svalues a)) (length (svalues b)).
Proof.
  intros H. destruct (s_add_result_values _ _ _ H) as (vs & Hvs & _ & Hl).
  rewrite Hl, (mapM_length _ _ _ Hvs), length_combine. reflexivity.
Qed.

Lemma s_apply_nonempty f s :
  svalues s <> [] -> s_apply f s = let* vs := mapM f (svalues s) in Ok (series_of_values vs).
Proof. intros H. unfold s_apply. destruct (svalues s); [congruence | reflexivity]. Qed.

End Series.
