(* ===== verification/Frame.v ===== *)
(** * pandas DataFrame: named columns in order

    A frame is the list of its columns, each a name and a [Series.series],
    in display order; the order matters because the exported report lists
    the columns in it.  The operations are the ones the program applies
    to a frame:
    - [get_col df k] is [df[k]]: the column, or [KeyError] when absent;
    - [set_col df k s] is [df[k] = s]: an existing column is overwritten
      in place, a new one is appended at the end;
    - [select_cols df ks] is [df[[k1, ..., kn]]] (lines 94 and 157): the
      listed columns in that order, or [KeyError] naming every missing one.
    The lemmas read back assignments and sequences of assignments. *)

From Stdlib Require Import ZArith QArith String List Lia.
From S2P Require Import Prelude PyValue Series.
Import ListNotations.
Open Scope py_scope.

Module Frame.
Import PyValue Series.

Definition frame : Type := list (string * series).

Definition columns (df : frame) : list string := map fst df.

Definition has_col (df : frame) (k : string) : bool :=
  existsb (fun k' => String.eqb k k') (columns df).

(** [df[k]] *)
Fixpoint get_col (df : frame) (k : string) : pyresult series :=
  match df with
  | [] => Err (KeyError [k])
  | (k', s) :: df' => if String.eqb k k' then Ok s else get_col df' k
  end.

(** [df[k] = s] *)
Fixpoint set_col (df : frame) (k : string) (s : series) : frame :=
  match df with
  | [] => [(k, s)]
  | (k', s') :: df' =>
      if String.eqb k k' then (k', s) :: df' else (k', s') :: set_col df' k s
  end.

(** [df[[k1, ..., kn]]] *)
Definition select_cols (df : frame) (ks : list string) : pyresult frame :=
  match filter (fun k => negb (has_col df k)) ks with
  | [] => mapM (fun k => let* s := get_col df k in Ok (k, s)) ks
  | missing => Err (KeyError missing)
  end.

(** [df.copy()]: the model has no aliasing, so a copy is the frame itself. *)
Definition copy (df : frame) : frame := df.

(** [len(df)]: the number of rows, the length of the columns. *)
Definition nrows (df : frame) : nat :=
  match df with
  | [] => O
  | (_, s) :: _ => length (svalues s)
  end.

(** Whether a list of names has no repetition. *)
Fixpoint nodupb (ks : list string) : bool :=
  match ks with
  | [] => true
  | k :: ks' => negb (existsb (String.eqb k) ks') && nodupb ks'
  end.

(** ** Lemmas *)

Lemma get_set_same df k s : get_col (set_col df k s) k = Ok s.
Proof.
  induction df as [|[k' s'] df IH]; simpl.
  - rewrite String.eqb_refl. reflexivity.
  - destruct (String.eqb k k') eqn:E; simpl; rewrite E; [reflexivity | exact IH].
Qed.

Lemma get_set_other df k k' s : k <> k' -> get_col (set_col df k s) k' = get_col df k'.
Proof.
  intros Hne. induction df as [|[j t] df IH]; simpl.
  - destruct (String.eqb k' k) eqn:E; [apply String.eqb_eq in E; congruence | reflexivity].
  - destruct (String.eqb k j) eqn:E; simpl.
    + apply String.eqb_eq in E; subst j.
      destruct (String.eqb k' k) eqn:E'; [apply String.eqb_eq in E'; congruence | reflexivity].
    + destruct (String.eqb k' j); [reflexivity | exact IH].
Qed.

Lemma has_col_get df k : has_col df k = true <-> exists s, get_col df k = Ok s.
Proof.
  unfold has_col, columns. induction df as [|[j t] df IH]; simpl.
  - split; [discriminate | intros (s & H); discriminate].
  - destruct (String.eqb k j); simpl; [split; eauto|exact IH].
Qed.

Lemma get_col_missing df k : has_col df k = false -> get_col df k = Err (KeyError [k]).
Proof.
  unfold has_col, columns. induction df as [|[j t] df IH]; simpl; [reflexivity|].
  destruct (String.eqb k j); simpl; [discriminate | exact IH].
Qed.

Lemma columns_set_col df k s :
  columns (set_col df k s) = if has_col df k then columns df else columns df ++ [k].
Proof.
  unfold has_col, columns. induction df as [|[j t] df IH]; simpl; [reflexivity|].
  destruct (String.eqb k j) eqn:E; simpl; [reflexivity|].
  rewrite IH. destruct existsb; reflexivity.
Qed.

Lemma has_col_set_col df k k' s :
  has_col (set_col df k s) k' = (String.eqb k' k || has_col df k')%bool.
Proof.
  unfold has_col. rewrite columns_set_col. fold (has_col df k).
  destruct (has_col df k) eqn:Hk.
  - destruct (String.eqb k' k) eqn:E; [|reflexivity].
    apply String.eqb_eq in E; subst k'. exact Hk.
  - rewrite existsb_app. simpl. rewrite orb_false_r, orb_comm. reflexivity.
Qed.

Lemma get_col_In df k s : get_col df k = Ok s -> In (k, s) df.
Proof.
  induction df as [|[j t] df IH]; simpl; [discriminate|].
  destruct (String.eqb k j) eqn:E; intros H; [|right; auto].
  apply String.eqb_eq in E. subst j. inv_ok. left; reflexivity.
Qed.



Lemma select_cols_ok df ks :
  Forall (fun k => has_col df k = true) ks ->
  exists sel, select_cols df ks = Ok sel /\ map fst sel = ks /\
              Forall (fun k => get_col sel k = get_col df k) ks.
Proof.
  intros Hks. unfold select_cols.
  replace (filter (fun k => negb (has_col df k)) ks) with (@nil string).
  2:{ induction Hks as [|k ks Hk _ IH]; simpl; [reflexivity|]. rewrite Hk. exact IH. }
  assert (Hm : exists sel, mapM (fun k => let* s := get_col df k in Ok (k, s)) ks = Ok sel /\
                           Forall2 (fun k p => fst p = k /\ get_col df k = Ok (snd p)) ks sel).
  { induction Hks as [|k ks Hk _ IH]; simpl.
    - exists []. split; [reflexivity | constructor].
    - apply has_col_get in Hk as (s & Hs). rewrite Hs; simpl.
      destruct IH as (sel & Hsel & HF). rewrite Hsel; simpl.
      exists ((k, s) :: sel). split; [reflexivity | constructor; auto]. }
  destruct Hm as (sel & Hsel & HF). exists sel. split; [exact Hsel|]. clear Hsel Hks.
  split.
  - induction HF as [|k [k' s] ks sel [Hk _] _ IH]; simpl in *; [reflexivity|]. congruence.
  - apply Forall_forall. intros k Hk.
    induction HF as [|k' [k'' s] ks sel [Hk' Hs] _ IH]; simpl in *; [contradiction|].
    subst k''. destruct (String.eqb k k') eqn:E.
    + apply String.eqb_eq in E. subst k'. congruence.
    + destruct Hk as [-> | Hk]; [rewrite String.eqb_refl in E; discriminate|]. auto.
Qed.

Lemma select_cols_missing df ks :
  filter (fun k => negb (has_col df k)) ks <> [] ->
  select_cols df ks = Err (KeyError (filter (fun k => negb (has_col df k)) ks)).
Proof. unfold select_cols. destruct filter; [congruence | reflexivity]. Qed.

Lemma not_In_eqb k ks : existsb (String.eqb k) ks = false -> ~ In k ks.
Proof.
  intros H Hin. assert (existsb (String.eqb k) ks = true) by
    (apply existsb_exists; exists k; split; [exact Hin | apply String.eqb_refl]). congruence.
Qed.

Lemma nodupb_NoDup ks : nodupb ks = true -> NoDup ks.
Proof.
  induction ks as [|k ks IH]; simpl; [constructor|].
  rewrite andb_true_iff, negb_true_iff. intros [Hk Hks].
  constructor; [apply not_In_eqb; exact Hk | auto].
Qed.


(** ** A sequence of assignments *)

(** [df[k1] = c1; ...; df[kn] = cn], in that order. *)
Definition set_cols (df : frame) (kcs : list (string * series)) : frame :=
  fold_left (fun acc kc => set_col acc (fst kc) (snd kc)) kcs df.

Lemma get_set_cols_other df kcs k :
  ~ In k (map fst kcs) -> get_col (set_cols df kcs) k = get_col df k.
Proof.
  unfold set_cols. revert df. induction kcs as [|[k' c] kcs IH]; intros df Hk; simpl in *;
    [reflexivity|].
  rewrite IH by tauto. apply get_set_other. intros ->. tauto.
Qed.


Lemma columns_set_cols df kcs :
  columns (set_cols df kcs) =
  fold_left (fun ks k => if existsb (String.eqb k) ks then ks else ks ++ [k])
            (map fst kcs) (columns df).
Proof.
  unfold set_cols. revert df. induction kcs as [|[k c] kcs IH]; intros df; simpl;
    [reflexivity|].
  rewrite IH, columns_set_col. reflexivity.
Qed.

Lemma In_set_col df k s c : In c (set_col df k s) -> In c df \/ c = (k, s).
Proof.
  induction df as [|[j t] df IH]; simpl; [intuition congruence|].
  destruct (String.eqb k j) eqn:E; simpl.
  - apply String.eqb_eq in E. subst j. intuition.
  - intuition.
Qed.

Lemma In_set_cols df kcs c : In c (set_cols df kcs) -> In c df \/ In c kcs.
Proof.
  unfold set_cols. revert df. induction kcs as [|[k t] kcs IH]; intros df; simpl; [tauto|].
  intros H. destruct (IH _ H) as [H1|H1]; [|tauto].
  destruct (In_set_col _ _ _ _ H1); [tauto|]. subst. tauto.
Qed.

(** Assignments to other columns leave the first column in place. *)
Lemma set_cols_cons_other k0 s0 df kcs :
  ~ In k0 (map fst kcs) -> set_cols ((k0, s0) :: df) kcs = (k0, s0) :: set_cols df kcs.
Proof.
  unfold set_cols. revert df. induction kcs as [|[k t] kcs IH]; intros df Hk; simpl in *; [reflexivity|].
  destruct (String.eqb k k0) eqn:E; [apply String.eqb_eq in E; subst; tauto|].
  apply IH. tauto.
Qed.

(** Writing back the value a column already holds changes nothing. *)
Lemma set_col_get df k s : get_col df k = Ok s -> set_col df k s = df.
Proof.
  induction df as [|[j t] df IH]; simpl; [discriminate|].
  destruct (String.eqb k j) eqn:E; intros H; [inv_ok; reflexivity | rewrite IH; auto].
Qed.

(** Two frames on which the same assignments are performed agree, after
    them, on every written column and on every column they agreed on. *)
Lemma get_set_cols_agree df1 df2 kcs k :
  (get_col df1 k = get_col df2 k \/ In k (map fst kcs)) ->
  get_col (set_cols df1 kcs) k = get_col (set_cols df2 kcs) k.
Proof.
  unfold set_cols. revert df1 df2. induction kcs as [|[k' c] kcs IH]; intros df1 df2 H;
    simpl in *; [destruct H; tauto|].
  apply IH. destruct (in_dec string_dec k (map fst kcs)) as [Hin | Hout]; [tauto|].
  left. destruct (string_dec k' k) as [-> | Hne]; [rewrite !get_set_same; reflexivity|].
  rewrite !get_set_other by exact Hne. destruct H as [H | [H | H]]; tauto.
Qed.

Lemma get_set_cols_in df kcs k c :
  NoDup (map fst kcs) -> In (k, c) kcs -> get_col (set_cols df kcs) k = Ok c.
Proof.
  unfold set_cols. revert df. induction kcs as [|[k' c'] kcs IH]; intros df Hnd Hin;
    simpl in *; [contradiction|].
  inversion Hnd as [|? ? Hk' Hnd']; subst.
  destruct Hin as [E | Hin].
  - injection E as -> ->. fold (set_cols (set_col df k c) kcs).
    rewrite get_set_cols_other by exact Hk'. apply get_set_same.
  - apply IH; assumption.
Qed.

(** Performing the same assignments twice is performing them once. *)
Lemma set_cols_twice df kcs :
  NoDup (map fst kcs) -> set_cols (set_cols df kcs) kcs = set_cols df kcs.
Proof.
  intros Hnd. assert (H : forall kc, In kc kcs -> get_col (set_cols df kcs) (fst kc) = Ok (snd kc))
    by (intros [k c] Hin; apply get_set_cols_in; assumption).
  generalize (set_cols df kcs) H. clear H Hnd. intros d.
  unfold set_cols. induction kcs as [|[k c] kcs IH]; intros H; simpl; [reflexivity|].
  rewrite set_col_get by (apply (H (k, c)); left; reflexivity).
  apply IH. intros kc Hin. apply H. right. exact Hin.
Qed.

End Frame.
