(* ===== verification/Scoring.v ===== *)
(** * [score_species]: the scoring engine (lines 15-72)

    [score_species df] copies the frame and performs, in order:
    - the seven sub-score assignments of lines 19-53, listed in
      [subscore_assignments] as (source column, written column,
      expression) and run one after the other by [run_assignments]; each
      is a [read_assign]: read the source with [get_col] (a missing column
      raises [KeyError] there), compute, assign with [set_col].  The
      expressions are [map_score d k] ([df[src].map(d).fillna(0) * k],
      lines 19-45, with the dict literals [IUCN_map], [Endemism_map],
      [Altitude_map], [Exploitation_map]), [threat_score]
      ([df["Threat_Level"] * 3], line 32) and [apply_score f]
      ([df[src].apply(f) * 1.5], lines 47-53, with [habitat_lambda] and
      [use_lambda]);
    - [total_step] (lines 55-63): the left-to-right sum [sum_cols] of the
      seven sub-score columns read back from the frame;
    - [priority_step] (lines 65-70): [df["Total_Score"].apply(f)] with the
      threshold cascade [priority_lambda].
    The lemmas give each step's behaviour on numeric columns.  Theorem:
    [score_species_preserves_inputs] (the input columns are kept and the
    column order of the report). *)

From Stdlib Require Import ZArith QArith Qabs Qreduction Lqa String List Lia.
From S2P Require Import Prelude PyValue Series Frame.
Import ListNotations.
Open Scope py_scope.
Open Scope string_scope.

Module Scoring.
Import PyValue Series Frame.

(** ** The dict literals *)

Definition IUCN_map : list (string * Z) :=
  [("Critically Endangered", 5%Z); ("Endangered", 4%Z); ("Vulnerable", 3%Z);
   ("Near Threatened", 2%Z); ("Least Concern", 1%Z)].

Definition Endemism_map : list (string * Z) := [("Yes", 2%Z); ("No", 1%Z)].

Definition Altitude_map : list (string * Z) :=
  [("<500", 4%Z); ("501-1000", 3%Z); ("1001-1500", 2%Z); (">1500", 1%Z)].

Definition Exploitation_map : list (string * Z) :=
  [("Not exploited", 1%Z); ("Local use", 2%Z); ("Commercial use", 3%Z)].

(** ** The lambdas *)

(** [lambda x: 4 if x == 1 else 3 if x == 2 else 2 if x == 3 else 1] *)
Definition habitat_lambda (x : value) : pyresult value :=
  Ok (VInt (if py_eq_int x 1 then 4
            else if py_eq_int x 2 then 3
            else if py_eq_int x 3 then 2
            else 1)).

(** [lambda x: 1 if x == 0 else 2 if x == 1 else 3 if x == 2 else 4 if x == 3 else 5] *)
Definition use_lambda (x : value) : pyresult value :=
  Ok (VInt (if py_eq_int x 0 then 1
            else if py_eq_int x 1 then 2
            else if py_eq_int x 2 then 3
            else if py_eq_int x 3 then 4
            else 5)).

(** [lambda x: "Critical" if x >= 39 else "High" if x >= 32 else
    "Medium" if x >= 24 else "Low"]: each comparison is evaluated only
    when the previous one was false. *)
Definition priority_lambda (x : value) : pyresult value :=
  let* c := py_ge_int x 39 in
  if c then Ok (VStr "Critical") else
  let* h := py_ge_int x 32 in
  if h then Ok (VStr "High") else
  let* m := py_ge_int x 24 in
  if m then Ok (VStr "Medium") else Ok (VStr "Low").

(** ** The steps *)

(** [df[dst] = e(df[src])]: read one column, compute a new one, assign it. *)
Definition read_assign (src dst : string) (e : series -> pyresult series)
    (df : frame) : pyresult frame :=
  let* s := get_col df src in
  let* r := e s in
  Ok (set_col df dst r).

(** [df[src].map(d).fillna(0) * k] (lines 19-45) *)
Definition map_score (d : list (string * Z)) (k : Z) (s : series) : pyresult series :=
  s_mul (s_fillna 0 (s_map_dict d s)) (SInt k).

(** [df["Threat_Level"] * 3] (line 32) *)
Definition threat_score (s : series) : pyresult series := s_mul s (SInt 3).

(** [df[src].apply(f) * 1.5] (lines 47-53) *)
Definition apply_score (f : value -> pyresult value) (s : series) : pyresult series :=
  let* a := s_apply f s in
  s_mul a (SFloat (3 # 2)).

(** The seven sub-score assignments of lines 19-53, in order: source
    column, written column, expression. *)
Definition subscore_assignments : list (string * string * (series -> pyresult series)) :=
  [("IUCN_Status", "IUCN_Score", map_score IUCN_map 3);
   ("Endemism", "Endemism_Score", map_score Endemism_map 2);
   ("Threat_Level", "Threat_Score", threat_score);
   ("Altitudinal_Range", "Altitude_Score", map_score Altitude_map 1);
   ("Exploitation", "Exploitation_Score", map_score Exploitation_map 2);
   ("Habitat_Specificity", "Habitat_Score", apply_score habitat_lambda);
   ("Use_Value", "Use_Score", apply_score use_lambda)].

(** Statements executed one after the other on the same frame. *)
Fixpoint run_assignments (asg : list (string * string * (series -> pyresult series)))
    (df : frame) : pyresult frame :=
  match asg with
  | [] => Ok df
  | (src, dst, e) :: asg' =>
      let* df := read_assign src dst e df in
      run_assignments asg' df
  end.

(** [acc + df[k1] + ... + df[kn]], evaluated from the left. *)
Fixpoint sum_cols (df : frame) (acc : series) (ks : list string) : pyresult series :=
  match ks with
  | [] => Ok acc
  | k :: ks' =>
      let* s := get_col df k in
      let* acc' := s_add acc s in
      sum_cols df acc' ks'
  end.

Definition score_columns : list string :=
  ["IUCN_Score"; "Endemism_Score"; "Threat_Score"; "Altitude_Score";
   "Exploitation_Score"; "Habitat_Score"; "Use_Score"].

Definition total_step (df : frame) : pyresult frame :=
  let* first := get_col df "IUCN_Score" in
  let* t := sum_cols df first (tl score_columns) in
  Ok (set_col df "Total_Score" t).

Definition priority_step : frame -> pyresult frame :=
  read_assign "Total_Score" "Priority" (s_apply priority_lambda).

Definition score_species (df : frame) : pyresult frame :=
  let df := copy df in
  let* df := run_assignments subscore_assignments df in
  let* df := total_step df in
  priority_step df.

(** The columns it writes, in the order it writes them. *)
Definition computed_columns : list string := score_columns ++ ["Total_Score"; "Priority"].

(** ** The lambdas on numbers *)

(** What the three lambdas compute from the value [q] of a numeric cell. *)
Definition habitat_code (q : Q) : Z :=
  if Qeq_bool q (inject_Z 1) then 4
  else if Qeq_bool q (inject_Z 2) then 3
  else if Qeq_bool q (inject_Z 3) then 2
  else 1.

Definition use_code (q : Q) : Z :=
  if Qeq_bool q (inject_Z 0) then 1
  else if Qeq_bool q (inject_Z 1) then 2
  else if Qeq_bool q (inject_Z 2) then 3
  else if Qeq_bool q (inject_Z 3) then 4
  else 5.

Definition priority_label (q : Q) : string :=
  if Qle_bool (inject_Z 39) q then "Critical"
  else if Qle_bool (inject_Z 32) q then "High"
  else if Qle_bool (inject_Z 24) q then "Medium"
  else "Low".

Lemma habitat_lambda_num v q : num_rel v q -> habitat_lambda v = Ok (VInt (habitat_code q)).
Proof. intros H. unfold habitat_lambda. rewrite !(py_eq_int_num v q) by exact H. reflexivity. Qed.

Lemma use_lambda_num v q : num_rel v q -> use_lambda v = Ok (VInt (use_code q)).
Proof. intros H. unfold use_lambda. rewrite !(py_eq_int_num v q) by exact H. reflexivity. Qed.

Lemma priority_lambda_num v q : num_rel v q -> priority_lambda v = Ok (VStr (priority_label q)).
Proof.
  intros H. unfold priority_lambda, priority_label.
  rewrite !(py_ge_int_num v q) by exact H. simpl.
  destruct (Qle_bool (inject_Z 39) q); [reflexivity|]. simpl.
  destruct (Qle_bool (inject_Z 32) q); [reflexivity|]. simpl.
  destruct (Qle_bool (inject_Z 24) q); reflexivity.
Qed.

Lemma habitat_code_range q : (1 <= habitat_code q <= 4)%Z.
Proof. unfold habitat_code. destruct_ifs; lia. Qed.

Lemma use_code_range q : (1 <= use_code q <= 5)%Z.
Proof. unfold use_code. destruct_ifs; lia. Qed.

Lemma dict_code_range d m v :
  Forall (fun p => (0 <= snd p <= m)%Z) d -> (0 <= m)%Z -> (0 <= dict_code d v <= m)%Z.
Proof.
  intros Hd Hm. unfold dict_code, map_cell. destruct v as [| | |k]; try lia.
  induction Hd as [|[k' z] d Hz _ IH]; simpl in *; [lia|].
  destruct (String.eqb k k'); [lia | exact IH].
Qed.

(** ** The steps on numeric columns *)

Lemma small_q_in_int64 z (m : Q) :
  (0 <= z <= 15)%Z -> 0 <= m <= 3 -> q_in_int64 (inject_Z z * m).
Proof.
  intros Hz Hm. unfold q_in_int64.
  assert (H1 : inject_Z 0 <= inject_Z z) by (rewrite <- Zle_Qle; lia).
  assert (H2 : inject_Z z <= inject_Z 15) by (rewrite <- Zle_Qle; lia).
  change (inject_Z 0) with 0 in H1. change (inject_Z 15) with 15 in H2.
  replace (inject_Z (2 ^ 63)) with (9223372036854775808 # 1) by reflexivity.
  split; nra.
Qed.

Lemma read_assign_ok src dst e df s r :
  get_col df src = Ok s -> e s = Ok r -> read_assign src dst e df = Ok (set_col df dst r).
Proof. intros Hs Hr. unfold read_assign. rewrite Hs, bind_Ok, Hr. reflexivity. Qed.

Lemma read_assign_missing src dst e df :
  has_col df src = false -> read_assign src dst e df = Err (KeyError [src]).
Proof. intros H. unfold read_assign. rewrite get_col_missing by exact H. reflexivity. Qed.

Lemma read_assign_inv src dst e df df' :
  read_assign src dst e df = Ok df' ->
  exists s r, get_col df src = Ok s /\ e s = Ok r /\ df' = set_col df dst r.
Proof. unfold read_assign. intros H. invert_binds. eauto. Qed.

Lemma map_score_num d k s :
  (forall v, q_in_int64 (inject_Z (dict_code d v) * inject_Z k)) ->
  exists r, map_score d k s = Ok r /\
            num_series r (map (fun v => inject_Z (dict_code d v) * inject_Z k) (svalues s)).
Proof.
  intros Hb. unfold map_score.
  destruct (s_mul_num _ (SInt k) _ (s_map_dict_fillna_num d s)) as (r & Hr & Hn & _).
  { apply Forall_map_intro. intros v _. apply Hb. }
  exists r. split; [exact Hr|]. rewrite map_map in Hn. exact Hn.
Qed.

Lemma threat_score_num s qs :
  num_series s qs -> Forall (fun q => q_in_int64 (q * inject_Z 3)) qs ->
  exists r, threat_score s = Ok r /\ num_series r (map (fun q => q * inject_Z 3) qs).
Proof.
  intros Hn Hb. destruct (s_mul_num _ (SInt 3) _ Hn Hb) as (r & Hr & Hr' & _). eauto.
Qed.

Lemma apply_score_num f g s qs :
  num_series s qs ->
  (forall v q, num_rel v q -> f v = Ok (VInt (g q))) ->
  (forall q, (1 <= g q <= 5)%Z) ->
  exists r, apply_score f s = Ok r /\ num_series r (map (fun q => inject_Z (g q) * (3 # 2)) qs).
Proof.
  intros Hn Hf Hg. unfold apply_score.
  destruct (s_apply_int_num f g s qs Hn Hf) as (a & Ha & Han).
  { intros q. apply in_int64_iff. specialize (Hg q). lia. }
  rewrite Ha, bind_Ok.
  destruct (s_mul_num a (SFloat (3 # 2)) _ Han) as (r & Hr & Hrn & _).
  { apply Forall_map_intro. intros q _. simpl. apply small_q_in_int64; [specialize (Hg q); lia | lra]. }
  exists r. split; [exact Hr|]. rewrite map_map in Hrn. exact Hrn.
Qed.

Lemma series_of_values_strs vs :
  vs <> [] -> forallb is_str vs = true -> series_of_values vs = mkSeries Object vs.
Proof.
  intros Hne Hs. destruct vs as [|v vs]; [congruence|].
  simpl in Hs. apply andb_prop in Hs as [Hv _].
  destruct v; try discriminate. unfold series_of_values, infer_dtype; simpl.
  rewrite map_ext with (g := fun x => x) by (intros []; reflexivity).
  rewrite map_id. reflexivity.
Qed.

Lemma priority_step_num df t qs :
  get_col df "Total_Score" = Ok t -> num_series t qs ->
  exists p, priority_step df = Ok (set_col df "Priority" p) /\
            svalues p = map (fun q => VStr (priority_label q)) qs.
Proof.
  intros Ht Hn. unfold priority_step, read_assign. rewrite Ht; simpl. unfold s_apply.
  destruct (svalues t) as [|v vs] eqn:Ev.
  - exists t. split; [reflexivity|]. unfold num_series in Hn. rewrite Ev in Hn.
    inversion Hn; subst. exact Ev.
  - rewrite <- Ev.
    destruct (mapM_Forall2 priority_lambda num_rel eq (fun q => VStr (priority_label q)) _ _ Hn)
      as (us & Hus & Hrel).
    { intros v' q Hv'. exists (VStr (priority_label q)). split; [|reflexivity].
      apply priority_lambda_num. exact Hv'. }
    rewrite Hus; simpl.
    assert (Hus' : us = map (fun q => VStr (priority_label q)) qs).
    { clear Hus. induction Hrel; simpl; congruence. }
    subst us. rewrite series_of_values_strs.
    + eexists; split; reflexivity.
    + unfold num_series in Hn. rewrite Ev in Hn. inversion Hn; subst. simpl. discriminate.
    + apply forallb_forall. intros w Hw. apply in_map_iff in Hw as (q & <- & _). reflexivity.
Qed.

(** ** The shape of the result *)

(** [score_species] succeeds only by assigning the nine computed columns,
    in order, to the input frame. *)
Lemma score_species_shape df out :
  score_species df = Ok out ->
  exists cs, length cs = length computed_columns /\
             out = set_cols df (combine computed_columns cs).
Proof.
  unfold score_species, copy, total_step, priority_step.
  cbn [run_assignments subscore_assignments]. unfold read_assign.
  intros H. invert_binds.
  eexists [_; _; _; _; _; _; _; _; _]. split; reflexivity.
Qed.

(** C3. Input columns are kept: when [score_species] succeeds, every column
    of the input frame whose name is not one of the nine computed names is
    unchanged in the result, and the result's columns are the input's,
    followed by those of the nine computed names (in the order the code
    assigns them) that the input did not already have; a computed name the
    input had is overwritten in place. *)
Theorem score_species_preserves_inputs df out :
  score_species df = Ok out ->
  (forall k, ~ In k computed_columns -> get_col out k = get_col df k) /\
  columns out =
  fold_left (fun ks k => if existsb (String.eqb k) ks then ks else (ks ++ [k])%list)
            computed_columns (columns df).
Proof.
  intros H. destruct (score_species_shape df out H) as (cs & Hlen & ->).
  rewrite columns_set_cols, map_fst_combine by (symmetry; exact Hlen). split; [|reflexivity].
  intros k Hk. apply get_set_cols_other. rewrite map_fst_combine by (symmetry; exact Hlen).
  exact Hk.
Qed.

(** *** The left-to-right sum, row by row *)

Section SumRows.
Context {R : Type}.
Variable rs : list R.

Definition sum_abs (fs : list (R -> Q)) (r : R) : Q :=
  fold_right (fun f a => Qabs (f r) + a) 0 fs.

Lemma sum_abs_nonneg fs r : 0 <= sum_abs fs r.
Proof.
  induction fs as [|f fs IH]; simpl; [lra|]. pose proof (Qabs_nonneg (f r)). lra.
Qed.

(** When every partial sum is below [2^63] in absolute value (which the
    sum of absolute values bounds), [acc + df[k1] + ... + df[kn]] is the
    row-wise sum. *)
Lemma sum_cols_rows df ks fs : forall acc f0,
  num_series acc (map f0 rs) ->
  Forall2 (fun k f => exists s, get_col df k = Ok s /\ num_series s (map f rs)) ks fs ->
  (forall r, In r rs -> Qabs (f0 r) + sum_abs fs r < inject_Z (2 ^ 63)) ->
  exists t, sum_cols df acc ks = Ok t /\
            num_series t (map (fun r => fold_left (fun a f => a + f r) fs (f0 r)) rs).
Proof.
  revert fs. induction ks as [|k ks IH]; intros fs acc f0 Hacc Hks Hb;
    inversion Hks as [|? f ? fs' (s & Hs & Hsn) Hrest]; subst; simpl.
  - exists acc. split; [reflexivity | exact Hacc].
  - rewrite Hs; simpl.
    destruct (s_add_num acc s _ _ Hacc Hsn) as (acc' & Hadd & Hacc' & _).
    { rewrite zip_with_map_l, zip_with_map_r, zip_with_diag.
      apply Forall_map_intro. intros r Hr. apply Qabs_q_in_int64.
      specialize (Hb r Hr). unfold sum_abs in Hb; cbn [fold_right] in Hb.
      pose proof (Qabs_triangle (f0 r) (f r)). pose proof (sum_abs_nonneg fs' r).
      unfold sum_abs in *. lra. }
    rewrite Hadd; simpl.
    rewrite zip_with_map_l, zip_with_map_r, zip_with_diag in Hacc'.
    apply (IH fs' acc' (fun r => f0 r + f r) Hacc' Hrest).
    intros r Hr. specialize (Hb r Hr). unfold sum_abs in *; cbn [fold_right] in Hb.
    pose proof (Qabs_triangle (f0 r) (f r)). lra.
Qed.
End SumRows.

End Scoring.
