(* ===== verification/Wellformed.v ===== *)
(** * Well-formed frames

    [frame_wf n df] says that the column names of [df] are distinct
    and that every column has [n] cells, each fitting the column's dtype:
    an [int64] column holds integers of 64 bits only, a [float64] column
    numbers and NaN.  It is the hypothesis under which the engine's
    theorems ([Engine.v]) and the Excel export's error theorem
    ([Excel.v]) are stated: the frames pandas builds have this shape.
    [frame_wfb] decides it on concrete frames. *)

From Stdlib Require Import ZArith QArith String List Lia.
From S2P Require Import Prelude PyValue Series Frame Scoring.
Import ListNotations.
Open Scope py_scope.

Module Wellformed.
Import PyValue Series Frame Scoring.

(** ** The invariant *)

(** A cell fits a dtype: an [int64] column holds 64-bit integers, a
    [float64] column numbers and NaN, an [object] column anything. *)
Definition cell_fits (d : dtype) (v : value) : bool :=
  match d, v with
  | Int64, VInt z => in_int64 z
  | Float64, (VFloat _ | VNaN) => true
  | Object, _ => true
  | _, _ => false
  end.

Definition series_wf (s : series) : bool := forallb (cell_fits (sdtype s)) (svalues s).

(** A frame of [n] rows: distinct column names, every column well formed
    with [n] cells. *)
Definition frame_wf (n : nat) (df : frame) : Prop :=
  NoDup (columns df) /\
  Forall (fun c => series_wf (snd c) = true /\ length (svalues (snd c)) = n) df.

(** A decision procedure for [frame_wf], to check concrete frames. *)
Definition frame_wfb (n : nat) (df : frame) : bool :=
  nodupb (columns df) &&
  forallb (fun c => series_wf (snd c) && Nat.eqb (length (svalues (snd c))) n) df.

(** ** Lemmas *)

Lemma get_col_wf n df k s : frame_wf n df -> get_col df k = Ok s ->
  series_wf s = true /\ length (svalues s) = n.
Proof.
  intros [_ Hall] H. apply get_col_In in H.
  rewrite Forall_forall in Hall. exact (Hall _ H).
Qed.

Lemma frame_wfb_sound n df : frame_wfb n df = true -> frame_wf n df.
Proof.
  unfold frame_wfb. rewrite andb_true_iff, forallb_Forall_iff. intros [Hnd Hall].
  split; [apply nodupb_NoDup; exact Hnd|].
  eapply Forall_impl; [|exact Hall]. intros c. simpl.
  rewrite andb_true_iff, Nat.eqb_eq. tauto.
Qed.

End Wellformed.
