(* ===== verification/CsvCell.v ===== *)
(** * CSV cells: bytes, missing-value markers and numbers as text

    The bulk tab reads an uploaded file with [pd.read_csv(uploaded_file)]
    (line 91) and the downloads tab writes [sample_df.to_csv(index=False)]
    (line 188).  This file holds what both do to one cell:
    - [utf8_valid]: the upload is decoded as UTF-8 (strict), the bytes of a
      Rocq [string] are checked against the well-formed byte sequences of
      the Unicode standard (table 3-7), as Python's decoder does;
    - [na_values]: the strings [read_csv] reads as NaN by default;
    - [classify]: the C parser's reading of one unquoted field: NaN, an
      integer ([str_to_int64]: optional sign and digits), a decimal number
      ([xstrtod]), a string, or a field the model does not cover
      ([TOut]: exponents, more than 15 digits, [inf], booleans, numbers
      padded with blanks, which pandas reads as numbers or booleans);
    - [py_str_int] and [py_repr_float]: [str] of an [int] and [repr] of a
      [float] in positional notation, as [to_csv] writes a numeric cell;
      [format_cell] is the text of any cell, NaN being the empty string.
    Floats are exact rationals as everywhere in the development: a decimal
    text of at most 15 digits reads as the rational it denotes, which is
    the double nearest to it, and [repr] of that double gives the text
    back (15 digits identify a binary64 number).  The lemmas are the
    round trips [classify (py_str_int z) = TInt z] and
    [classify s = TFloat q] for [py_repr_float q = Some s]. *)

From Stdlib Require Import NArith ZArith QArith Qreduction Qabs String Ascii List Lia.
From S2P Require Import Prelude PyValue.
Import ListNotations.
Open Scope py_scope.

Module CsvCell.
Import PyValue.

(** ** Characters *)

Definition c_tab : ascii := "009"%char.
Definition c_lf : ascii := "010"%char.
Definition c_cr : ascii := "013"%char.
Definition c_quote : ascii := "034"%char.
Definition c_comma : ascii := ","%char.

Definition byte (c : ascii) : nat := nat_of_ascii c.

Definition byte_in (lo hi : nat) (c : ascii) : bool := (lo <=? byte c) && (byte c <=? hi).

Definition is_digit (c : ascii) : bool := byte_in 48 57 c.

(** The blanks of C's [isspace]: tab, line feed, vertical tab, form feed,
    carriage return and space. *)
Definition is_space (c : ascii) : bool := byte_in 9 13 c || (byte c =? 32).

(** Every byte below 128. *)
Fixpoint ascii_only (s : string) : bool :=
  match s with
  | EmptyString => true
  | String c t => (byte c <? 128) && ascii_only t
  end.

(** Every character satisfies [p]. *)
Fixpoint str_forall (p : ascii -> bool) (s : string) : bool :=
  match s with
  | EmptyString => true
  | String c t => p c && str_forall p t
  end.

(** ** UTF-8 *)

Definition cont (c : ascii) : bool := byte_in 128 191 c.

Fixpoint utf8_valid (s : string) : bool :=
  match s with
  | EmptyString => true
  | String c s1 =>
      if byte c <? 128 then utf8_valid s1
      else if byte_in 194 223 c then
        match s1 with String c1 s2 => cont c1 && utf8_valid s2 | _ => false end
      else if byte_in 224 239 c then
        match s1 with
        | String c1 (String c2 s3) =>
            byte_in (if byte c =? 224 then 160 else 128) (if byte c =? 237 then 159 else 191) c1 &&
            cont c2 && utf8_valid s3
        | _ => false
        end
      else if byte_in 240 244 c then
        match s1 with
        | String c1 (String c2 (String c3 s4)) =>
            byte_in (if byte c =? 240 then 144 else 128) (if byte c =? 244 then 143 else 191) c1 &&
            cont c2 && cont c3 && utf8_valid s4
        | _ => false
        end
      else false
  end.

(** The UTF-8 byte order mark, skipped by the C parser at the start of
    the data. *)
Definition bom : string :=
  String (ascii_of_nat 239) (String (ascii_of_nat 187) (String (ascii_of_nat 191) EmptyString)).

(** ** Missing values *)

(** [pandas._libs.parsers.STR_NA_VALUES], the default [na_values]. *)
Definition na_values : list string :=
  [EmptyString; "#N/A"; "#N/A N/A"; "#NA"; "-1.#IND"; "-1.#QNAN"; "-NaN"; "-nan";
   "1.#IND"; "1.#QNAN"; "<NA>"; "N/A"; "NA"; "NULL"; "NaN"; "None"; "n/a"; "nan"; "null"]%string.

Definition is_na (s : string) : bool := existsb (String.eqb s) na_values.

(** ** Decimal digits *)

Definition digit_val (c : ascii) : N := N.of_nat (byte c - 48).

(** The value of a string of digits read from the left onto [acc]. *)
Fixpoint digits_acc (s : string) (acc : N) : option N :=
  match s with
  | EmptyString => Some acc
  | String c t => if is_digit c then digits_acc t (10 * acc + digit_val c)%N else None
  end.

(** A non-empty string of digits. *)
Definition digits_N (s : string) : option N :=
  match s with EmptyString => None | _ => digits_acc s 0 end.

Definition digit_char (d : N) : ascii := ascii_of_nat (48 + N.to_nat d).

(** The [k] least significant digits of [n], most significant first. *)
Fixpoint digits_fixed (k : nat) (n : N) : string :=
  match k with
  | O => EmptyString
  | S k' => (digits_fixed k' (n / 10) ++ String (digit_char (n mod 10)) EmptyString)%string
  end.

(** The number of decimal digits of [n] (at least one); [fuel] bounds the
    divisions by ten, and the number of bits of [n] is enough. *)
Fixpoint ndigits_fuel (fuel : nat) (n : N) : nat :=
  match fuel with
  | O => 1
  | S f => if (n <? 10)%N then 1 else S (ndigits_fuel f (n / 10))
  end.

Definition ndigits (n : N) : nat := ndigits_fuel (N.to_nat (N.size n)) n.

(** [str(n)] for a natural number: its digits without leading zeros. *)
Definition str_of_N (n : N) : string := digits_fixed (ndigits n) n.

(** [str(z)] of a Python [int], as [to_csv] writes an [int64] cell. *)
Definition py_str_int (z : Z) : string :=
  if (z <? 0)%Z then String "-"%char (str_of_N (Z.abs_N z)) else str_of_N (Z.abs_N z).

(** ** Reading a field *)

Definition split_sign (s : string) : bool * string :=
  match s with
  | String c t =>
      if Ascii.eqb c "-"%char then (true, t) else if Ascii.eqb c "+"%char then (false, t) else (false, s)
  | EmptyString => (false, EmptyString)
  end.

(** The text before the first character satisfying [p], and the text
    after it if there is one. *)
Fixpoint split_at (p : ascii -> bool) (s : string) : string * option string :=
  match s with
  | EmptyString => (EmptyString, None)
  | String c t =>
      if p c then (EmptyString, Some t)
      else let (a, b) := split_at p t in (String c a, b)
  end.

Definition is_dot (c : ascii) : bool := Ascii.eqb c "."%char.
Definition is_exp (c : ascii) : bool := Ascii.eqb c "e"%char || Ascii.eqb c "E"%char.

(** [str_to_int64]: an optional sign and at least one digit. *)
Definition parse_int (s : string) : option Z :=
  let (neg, t) := split_sign s in
  match digits_N t with
  | Some n => Some (if neg then (- Z.of_N n)%Z else Z.of_N n)
  | None => None
  end.

(** Digits that may be empty. *)
Definition opt_digits (s : string) : option N :=
  match s with EmptyString => Some 0%N | _ => digits_N s end.

(** A decimal [int.frac] with at most 15 digits and no exponent; one of
    the two parts may be empty ([1.] and [.5] are numbers). *)
Definition parse_dec (s : string) : option Q :=
  let (neg, t) := split_sign s in
  match split_at is_dot t with
  | (ip, Some fp) =>
      if (1 <=? String.length ip + String.length fp) && (String.length ip + String.length fp <=? 15)
      then match opt_digits ip, opt_digits fp with
           | Some a, Some b =>
               let num := (Z.of_N a * 10 ^ Z.of_nat (String.length fp) + Z.of_N b)%Z in
               Some (Qred ((if neg then - num else num)%Z # Z.to_pos (10 ^ Z.of_nat (String.length fp))))
           | _, _ => None
           end
      else None
  | (_, None) => None
  end.

(** Any number [xstrtod] reads: a sign, a mantissa with digits, an
    optional exponent. *)
Definition mantissa_ok (m : string) : bool :=
  match split_at is_dot m with
  | (ip, None) => match digits_N ip with Some _ => true | None => false end
  | (ip, Some fp) => match digits_N (ip ++ fp) with Some _ => true | None => false end
  end.

Definition numeric_like (s : string) : bool :=
  let t := snd (split_sign s) in
  match split_at is_exp t with
  | (m, None) => mantissa_ok m
  | (m, Some e) =>
      mantissa_ok m && match digits_N (snd (split_sign e)) with Some _ => true | None => false end
  end.

Definition lower_char (c : ascii) : ascii :=
  if byte_in 65 90 c then ascii_of_nat (byte c + 32) else c.

Fixpoint lower (s : string) : string :=
  match s with EmptyString => EmptyString | String c t => String (lower_char c) (lower t) end.

(** The infinities and NaN spellings the float conversion accepts. *)
Definition special_float (s : string) : bool :=
  existsb (String.eqb (lower (snd (split_sign s)))) ["inf"; "infinity"; "nan"]%string.

(** The default [true_values] and [false_values] of the C parser. *)
Definition bool_like (s : string) : bool :=
  existsb (String.eqb s) ["True"; "TRUE"; "true"; "False"; "FALSE"; "false"]%string.

Fixpoint lstrip (s : string) : string :=
  match s with
  | String c t => if is_space c then lstrip t else s
  | EmptyString => EmptyString
  end.

Fixpoint rstrip (s : string) : string :=
  match s with
  | String c t =>
      let t' := rstrip t in
      if is_space c && String.eqb t' EmptyString then EmptyString else String c t'
  | EmptyString => EmptyString
  end.

Definition strip (s : string) : string := rstrip (lstrip s).

(** How the C parser reads a field. *)
Inductive token : Type :=
| TNA
| TInt (z : Z)
| TFloat (q : Q)
| TStr
| TOut.

Definition classify (f : string) : token :=
  if is_na f then TNA
  else match parse_int f with
       | Some z => TInt z
       | None =>
           match parse_dec f with
           | Some q => TFloat q
           | None =>
               if numeric_like (strip f) || special_float (strip f) || bool_like f then TOut
               else TStr
           end
       end.

(** ** Writing a cell *)

(** The least [k <= 15] with [d | 10^k]. *)
Definition dec_scale (d : positive) : option nat :=
  find (fun k => Z.eqb ((10 ^ Z.of_nat k) mod Z.pos d) 0) (seq 0 16).

(** [repr] of a float in positional notation: the shortest text that reads
    back as the same double, here the exact decimal expansion when it has
    at most 15 digits and the value is [0] or of magnitude at least
    [10^-4] (below that, and from [10^16], Python writes an exponent). *)
Definition py_repr_float (q0 : Q) : option string :=
  let q := Qred q0 in
  match dec_scale (Qden q) with
  | None => None
  | Some k =>
      let m := (Qnum q * (10 ^ Z.of_nat k / Z.pos (Qden q)))%Z in
      let a := Z.abs_N m in
      let ip := str_of_N (a / 10 ^ N.of_nat k)%N in
      let fp := if Nat.eqb k 0 then "0"%string else digits_fixed k (a mod 10 ^ N.of_nat k)%N in
      if (String.length ip + String.length fp <=? 15) &&
         (Qeq_bool q 0 || Qle_bool (1 # 10000) (Qabs q))
      then Some ((if (m <? 0)%Z then "-" else EmptyString) ++ ip ++ "." ++ fp)%string
      else None
  end.

(** The text [to_csv] writes for a cell, before quoting; [na_rep] is the
    empty string. *)
Definition format_cell (v : value) : option string :=
  match v with
  | VInt z => Some (py_str_int z)
  | VFloat q => py_repr_float q
  | VNaN => Some EmptyString
  | VStr s => Some s
  end.

(** ** Lemmas *)

Lemma digit_char_spec d : (d < 10)%N -> is_digit (digit_char d) = true /\ digit_val (digit_char d) = d.
Proof.
  intros H. rewrite <- (N2Nat.id d). assert (Hn : (N.to_nat d < 10)%nat) by lia.
  unfold digit_char. rewrite Nat2N.id. generalize (N.to_nat d) Hn. clear. intros n Hn.
  do 10 (destruct n as [|n]; [split; reflexivity|]). lia.
Qed.

Lemma is_digit_byte c : is_digit c = true -> (byte c < 128)%nat.
Proof. unfold is_digit, byte_in. rewrite andb_true_iff, !Nat.leb_le. lia. Qed.

Lemma digits_acc_app s t acc :
  digits_acc (s ++ t)%string acc = match digits_acc s acc with Some v => digits_acc t v | None => None end.
Proof. revert acc. induction s as [|c s IH]; intros acc; simpl; [reflexivity|]. destruct (is_digit c); auto. Qed.

Lemma digits_N_nonempty s : s <> EmptyString -> digits_N s = digits_acc s 0.
Proof. destruct s; [contradiction | reflexivity]. Qed.

Lemma length_append_string a b : String.length (a ++ b)%string = (String.length a + String.length b)%nat.
Proof. induction a as [|c a IH]; simpl; auto. Qed.

Lemma length_digits_fixed k n : String.length (digits_fixed k n) = k.
Proof.
  revert n. induction k as [|k IH]; intros n; simpl; [reflexivity|].
  rewrite length_append_string, IH. simpl. lia.
Qed.

Lemma append_empty_r s : (s ++ EmptyString)%string = s.
Proof. induction s as [|c s IH]; simpl; congruence. Qed.

Lemma digits_fixed_nonempty k n : digits_fixed (S k) n <> EmptyString.
Proof. intros E. apply (f_equal String.length) in E. rewrite length_digits_fixed in E. discriminate. Qed.

Lemma digits_acc_fixed k n acc :
  digits_acc (digits_fixed k n) acc = Some (acc * 10 ^ N.of_nat k + n mod 10 ^ N.of_nat k)%N.
Proof.
  revert n acc. induction k as [|k IH]; intros n acc; cbn [digits_fixed].
  - simpl. f_equal. rewrite N.mod_1_r. lia.
  - rewrite digits_acc_app, IH. cbn [digits_acc].
    destruct (digit_char_spec (n mod 10)) as [-> ->]; [apply N.mod_lt; discriminate|].
    f_equal. rewrite Nat2N.inj_succ, N.pow_succ_r', N.Div0.mod_mul_r by (try apply N.pow_nonzero; discriminate).
    lia.
Qed.

Lemma ndigits_fuel_bound f n :
  (n < 10 ^ N.of_nat (S f))%N -> (n < 10 ^ N.of_nat (ndigits_fuel f n))%N.
Proof.
  revert n. induction f as [|f IH]; intros n Hn; simpl; [exact Hn|].
  destruct (N.ltb_spec n 10) as [Hlt|Hge]; [exact Hlt|].
  assert (Hd : (n / 10 < 10 ^ N.of_nat (S f))%N).
  { apply N.Div0.div_lt_upper_bound. rewrite <- N.pow_succ_r', <- Nat2N.inj_succ. exact Hn. }
  specialize (IH _ Hd). rewrite Nat2N.inj_succ, N.pow_succ_r'.
  pose proof (N.div_mod n 10 ltac:(discriminate)). pose proof (N.mod_lt n 10 ltac:(discriminate)).
  lia.
Qed.

Lemma ndigits_bound n : (n < 10 ^ N.of_nat (ndigits n))%N.
Proof.
  apply ndigits_fuel_bound. rewrite Nat2N.inj_succ, N2Nat.id.
  apply (N.lt_le_trans _ (2 ^ N.size n)); [apply N.size_gt|].
  apply (N.le_trans _ (10 ^ N.size n)); [apply N.pow_le_mono_l; lia|].
  apply N.pow_le_mono_r; lia.
Qed.

Lemma ndigits_pos n : exists j, ndigits n = S j.
Proof. unfold ndigits. destruct (N.to_nat (N.size n)); simpl; [eauto|]. destruct (n <? 10)%N; eauto. Qed.

Lemma str_of_N_nonempty n : str_of_N n <> EmptyString.
Proof. unfold str_of_N. destruct (ndigits_pos n) as [j ->]. apply digits_fixed_nonempty. Qed.

Lemma digits_N_str n : digits_N (str_of_N n) = Some n.
Proof.
  rewrite digits_N_nonempty by apply str_of_N_nonempty. unfold str_of_N.
  rewrite digits_acc_fixed, N.mod_small by apply ndigits_bound. reflexivity.
Qed.

(** A string of digits starts with no sign and holds no dot. *)
Lemma digits_split_sign s t v : digits_N s = Some v -> split_sign (s ++ t)%string = (false, (s ++ t)%string).
Proof.
  destruct s as [|c s]; simpl; [discriminate|].
  destruct (is_digit c) eqn:E; [|discriminate]. intros _.
  destruct (Ascii.eqb_spec c "-"%char) as [->|]; [discriminate|].
  destruct (Ascii.eqb_spec c "+"%char) as [->|]; [discriminate|reflexivity].
Qed.

Lemma digits_split_dot s acc v t :
  digits_acc s acc = Some v -> split_at is_dot (s ++ String "."%char t)%string = (s, Some t).
Proof.
  revert acc. induction s as [|c s IH]; intros acc H; simpl; [reflexivity|].
  simpl in H. destruct (is_digit c) eqn:E; [|discriminate].
  destruct (is_dot c) eqn:D.
  - unfold is_dot in D. apply Ascii.eqb_eq in D. subst c. discriminate.
  - rewrite (IH _ H). reflexivity.
Qed.

Lemma digits_dot_none s acc t : digits_acc (s ++ String "."%char t)%string acc = None.
Proof. rewrite digits_acc_app. destruct (digits_acc s acc); reflexivity. Qed.

(** No missing-value marker is a number. *)
Lemma na_not_number s : is_na s = true -> parse_int s = None /\ parse_dec s = None.
Proof.
  unfold is_na. intros H. apply existsb_exists in H as (s' & Hin & E).
  apply String.eqb_eq in E. subst s'. simpl in Hin.
  repeat (destruct Hin as [<- | Hin]; [split; reflexivity|]). contradiction.
Qed.

Lemma parse_int_str z : parse_int (py_str_int z) = Some z.
Proof.
  unfold py_str_int, parse_int. destruct (Z.ltb_spec z 0) as [Hz|Hz].
  - simpl. rewrite digits_N_str. f_equal. lia.
  - rewrite <- (append_empty_r (str_of_N _)) at 1.
    rewrite (digits_split_sign _ _ _ (digits_N_str _)), append_empty_r, digits_N_str. f_equal. lia.
Qed.

(** The text of an integer reads back as that integer. *)
Lemma classify_int z : classify (py_str_int z) = TInt z.
Proof.
  unfold classify. destruct (is_na (py_str_int z)) eqn:E.
  - apply na_not_number in E as [E _]. rewrite parse_int_str in E. discriminate.
  - rewrite parse_int_str. reflexivity.
Qed.

Lemma dec_scale_spec d k : dec_scale d = Some k -> ((10 ^ Z.of_nat k) mod Z.pos d = 0)%Z.
Proof. unfold dec_scale. intros H. apply find_some in H as [_ H]. apply Z.eqb_eq in H. exact H. Qed.

Lemma pow10_pos k : (0 < 10 ^ Z.of_nat k)%Z.
Proof. apply Z.pow_pos_nonneg; lia. Qed.

(** The numerator [repr] prints over [10^k] is the value of the float. *)
Lemma repr_value q k : dec_scale (Qden q) = Some k ->
  ((Qnum q * (10 ^ Z.of_nat k / Z.pos (Qden q))) # Z.to_pos (10 ^ Z.of_nat k)) == q.
Proof.
  intros Hk. apply dec_scale_spec in Hk. unfold Qeq; simpl.
  rewrite Z2Pos.id by apply pow10_pos.
  pose proof (Z_div_exact_full_2 (10 ^ Z.of_nat k) (Z.pos (Qden q)) ltac:(lia) Hk) as E.
  rewrite E at 2. ring.
Qed.

(** The integer and fraction digits of [a / 10^k] read back as [a / 10^k]
    (for [k = 0] the fraction is the one digit [0]), with either sign. *)
Lemma repr_digits k (a : N) (neg : bool) :
  ((if neg then - (Z.of_N (a / 10 ^ N.of_nat k) * 10 ^ Z.of_nat (if Nat.eqb k 0 then 1%nat else k) +
                    Z.of_N (if Nat.eqb k 0 then 0 else a mod 10 ^ N.of_nat k))
    else Z.of_N (a / 10 ^ N.of_nat k) * 10 ^ Z.of_nat (if Nat.eqb k 0 then 1%nat else k) +
         Z.of_N (if Nat.eqb k 0 then 0 else a mod 10 ^ N.of_nat k))%Z
   # Z.to_pos (10 ^ Z.of_nat (if Nat.eqb k 0 then 1%nat else k)))
  == ((if neg then - Z.of_N a else Z.of_N a)%Z # Z.to_pos (10 ^ Z.of_nat k)).
Proof.
  unfold Qeq; simpl. rewrite !Z2Pos.id by apply pow10_pos.
  destruct (Nat.eqb_spec k 0) as [->|Hk].
  - simpl. rewrite N.div_1_r. destruct neg; lia.
  - pose proof (N.div_mod a (10 ^ N.of_nat k) ltac:(apply N.pow_nonzero; discriminate)) as E.
    apply (f_equal Z.of_N) in E.
    rewrite N2Z.inj_add, N2Z.inj_mul, N2Z.inj_pow, nat_N_Z in E. simpl (Z.of_N 10) in E.
    rewrite E. destruct neg; ring.
Qed.

Lemma split_sign_minus t : split_sign (String "-"%char t) = (true, t).
Proof. reflexivity. Qed.

Lemma opt_digits_nonempty s : s <> EmptyString -> opt_digits s = digits_N s.
Proof. destruct s; [contradiction | reflexivity]. Qed.

Lemma append_string_nonempty s c t : (s ++ String c t)%string <> EmptyString.
Proof. destruct s; discriminate. Qed.

Lemma opt_digits_fixed k n :
  opt_digits (digits_fixed (S k) n) = Some (n mod 10 ^ N.of_nat (S k))%N.
Proof.
  rewrite opt_digits_nonempty, digits_N_nonempty by apply digits_fixed_nonempty.
  rewrite digits_acc_fixed. reflexivity.
Qed.

(** A decimal text [[-]ip.fp] reads as [ip + fp / 10^|fp|]. *)
Lemma parse_dec_text (neg : bool) ip fp a b :
  digits_N ip = Some a -> opt_digits fp = Some b ->
  (String.length ip + String.length fp <= 15)%nat ->
  parse_dec (if neg then String "-"%char (ip ++ String "."%char fp) else (ip ++ String "."%char fp))%string =
  Some (Qred ((if neg then - (Z.of_N a * 10 ^ Z.of_nat (String.length fp) + Z.of_N b)
               else Z.of_N a * 10 ^ Z.of_nat (String.length fp) + Z.of_N b)%Z
              # Z.to_pos (10 ^ Z.of_nat (String.length fp)))).
Proof.
  intros Ha Hb Hl. assert (Hne : ip <> EmptyString) by (intros ->; discriminate).
  assert (Ha0 : digits_acc ip 0 = Some a) by (rewrite <- digits_N_nonempty; assumption).
  assert (Hl1 : (1 <= String.length ip)%nat) by (destruct ip; [contradiction|simpl; lia]).
  assert (Hc : ((1 <=? String.length ip + String.length fp) &&
                (String.length ip + String.length fp <=? 15))%nat = true)
    by (apply andb_true_intro; split; apply Nat.leb_le; lia).
  unfold parse_dec. destruct neg; [rewrite split_sign_minus | rewrite (digits_split_sign _ _ _ Ha)];
    cbv beta iota; rewrite (digits_split_dot _ _ _ _ Ha0), Hc, (opt_digits_nonempty ip Hne), Ha, Hb;
    reflexivity.
Qed.

(** The text [repr] writes reads back as the same float, and not as an
    integer. *)
Lemma parse_repr q s : py_repr_float q = Some s -> parse_dec s = Some (Qred q) /\ parse_int s = None.
Proof.
  unfold py_repr_float. set (r := Qred q).
  destruct (dec_scale (Qden r)) as [k|] eqn:Hk; [|discriminate].
  set (m := (Qnum r * (10 ^ Z.of_nat k / Z.pos (Qden r)))%Z).
  set (a := Z.abs_N m). set (ip := str_of_N (a / 10 ^ N.of_nat k)).
  set (fp := if Nat.eqb k 0 then "0"%string else digits_fixed k (a mod 10 ^ N.of_nat k)).
  destruct (_ && _) eqn:Hc; [|discriminate]. intros [= <-].
  apply andb_prop in Hc as [Hlen _]. apply Nat.leb_le in Hlen.
  assert (Hip : digits_N ip = Some (a / 10 ^ N.of_nat k)%N) by apply digits_N_str.
  assert (Hfpv : opt_digits fp = Some (if Nat.eqb k 0 then 0 else a mod 10 ^ N.of_nat k)%N).
  { unfold fp. destruct k as [|k]; [reflexivity|]. cbn [Nat.eqb].
    rewrite opt_digits_fixed, N.Div0.mod_mod; reflexivity. }
  assert (Hfpl : String.length fp = (if Nat.eqb k 0 then 1 else k)%nat).
  { unfold fp. destruct k as [|k]; [reflexivity|apply length_digits_fixed]. }
  assert (Hm : Z.of_N a = Z.abs m) by apply N2Z.inj_abs_N.
  assert (Hint : digits_N (ip ++ String "."%char fp) = None)
    by (rewrite digits_N_nonempty by apply append_string_nonempty; apply digits_dot_none).
  assert (Hval : forall neg : bool, (if neg then - Z.of_N a else Z.of_N a)%Z = m ->
    parse_dec (if neg then String "-"%char (ip ++ String "."%char fp) else (ip ++ String "."%char fp))%string
    = Some r).
  { intros neg Hneg. rewrite (parse_dec_text neg _ _ _ _ Hip Hfpv Hlen). f_equal.
    unfold r. apply Qred_complete. rewrite Hfpl, repr_digits, Hneg.
    unfold m. rewrite repr_value by exact Hk. apply Qred_correct. }
  unfold parse_int. destruct (Z.ltb_spec m 0) as [Hneg|Hpos]; cbn [append].
  - split; [apply (Hval true); lia|]. rewrite split_sign_minus, Hint. reflexivity.
  - split; [apply (Hval false); lia|].
    rewrite (digits_split_sign _ _ _ Hip), Hint. reflexivity.
Qed.

(** The text of a float reads back as that float. *)
Lemma classify_float q s : py_repr_float q = Some s -> classify s = TFloat (Qred q).
Proof.
  intros H. destruct (parse_repr q s H) as [Hd Hi]. unfold classify.
  destruct (is_na s) eqn:E.
  - apply na_not_number in E as [_ E]. congruence.
  - rewrite Hi, Hd. reflexivity.
Qed.

(** ** Bytes *)

Lemma ascii_only_app a b : ascii_only (a ++ b)%string = ascii_only a && ascii_only b.
Proof. induction a as [|c a IH]; simpl; [reflexivity|]. rewrite IH, andb_assoc. reflexivity. Qed.

Lemma ascii_only_utf8 s : ascii_only s = true -> utf8_valid s = true.
Proof.
  induction s as [|c s IH]; simpl; [reflexivity|].
  rewrite andb_true_iff. intros [-> H]. auto.
Qed.

Lemma utf8_valid_app a b : utf8_valid a = true -> utf8_valid b = true -> utf8_valid (a ++ b)%string = true.
Proof.
  intros Ha Hb. remember (String.length a) as n eqn:En. revert a En Ha.
  induction n as [n IH] using (well_founded_induction lt_wf). intros a -> Ha.
  destruct a as [|c s1]; [exact Hb|]. simpl in Ha |- *.
  destruct (byte c <? 128); [apply (IH (String.length s1)); simpl; auto|].
  destruct (byte_in 194 223 c).
  { destruct s1 as [|c1 s2]; [discriminate|]. simpl.
    apply andb_prop in Ha as [-> Ha]. apply (IH (String.length s2)); simpl; auto. }
  destruct (byte_in 224 239 c).
  { destruct s1 as [|c1 [|c2 s3]]; try discriminate. simpl.
    apply andb_prop in Ha as [Hc Ha]. rewrite Hc. apply (IH (String.length s3)); simpl; auto. }
  destruct (byte_in 240 244 c); [|discriminate].
  destruct s1 as [|c1 [|c2 [|c3 s4]]]; try discriminate. simpl.
  apply andb_prop in Ha as [Hc Ha]. rewrite Hc. apply (IH (String.length s4)); simpl; auto.
Qed.

Lemma ascii_only_digits_fixed k n : ascii_only (digits_fixed k n) = true.
Proof.
  revert n. induction k as [|k IH]; intros n; cbn [digits_fixed]; [reflexivity|].
  rewrite ascii_only_app, IH. cbn [ascii_only andb].
  destruct (digit_char_spec (n mod 10)) as [Hd _]; [apply N.mod_lt; discriminate|].
  apply is_digit_byte in Hd. apply Nat.ltb_lt in Hd. rewrite Hd. reflexivity.
Qed.

Lemma ascii_only_str_int z : ascii_only (py_str_int z) = true.
Proof.
  unfold py_str_int, str_of_N. destruct (z <? 0)%Z; simpl; rewrite ?ascii_only_digits_fixed; reflexivity.
Qed.

Lemma ascii_only_repr q s : py_repr_float q = Some s -> ascii_only s = true.
Proof.
  unfold py_repr_float. destruct (dec_scale _) as [k|]; [|discriminate].
  destruct (_ && _); [|discriminate]. intros [= <-].
  rewrite !ascii_only_app. unfold str_of_N. rewrite ascii_only_digits_fixed.
  destruct (_ <? 0)%Z, (Nat.eqb k 0); simpl; rewrite ?ascii_only_digits_fixed; reflexivity.
Qed.

End CsvCell.
