(* ===== verification/CsvHeader.v ===== *)
(** * The column names of [read_csv]

    The header line of the uploaded file gives the column names (line
    91).  pandas' C parser ([TextReader._get_header], [parsers.pyx])
    names an empty field [Unnamed: i], then renames repeated names: it
    visits the named columns first and the unnamed ones after, and gives
    a name already counted the first [old_col.k] ([k] from the count of
    [old_col]) that is not among the header's names, so that [a,a,a.1]
    gives [a,a.2,a.1].  [read] then applies [dedup_names]
    ([pandas.io.common]) to these names.  This file models both loops,
    proves that the parser's loop returns within the fuel given, that
    the names are distinct (so that [dedup_names] changes nothing), and
    that a header of distinct non-empty names is kept. *)

From Stdlib Require Import Arith NArith Bool String Ascii List Lia Permutation.
From S2P Require Import Prelude CsvCell.
Import ListNotations.
Open Scope py_scope.

Module CsvHeader.
Import CsvCell.

Definition unnamed (i : nat) (h : string) : string :=
  if String.eqb h EmptyString then ("Unnamed: " ++ str_of_N (N.of_nat i))%string else h.

(** [counts.get(k, 0)] for the dict [counts], newest binding first. *)
Fixpoint count_of (cs : list (string * nat)) (k : string) : nat :=
  match cs with
  | [] => O
  | (k', v) :: cs' => if String.eqb k k' then v else count_of cs' k
  end.

(** [f"{col}.{k}"]. *)
Definition suffixed (col : string) (k : nat) : string := (col ++ "." ++ str_of_N (N.of_nat k))%string.

(** [while cur_count > 0: counts[col] = cur_count + 1;
    col = f"{col}.{cur_count}"; cur_count = counts[col]]. *)
Fixpoint dedup_loop (fuel : nat) (cs : list (string * nat)) (col : string) (cur_count : nat)
  : option (list (string * nat) * string) :=
  match fuel with
  | O => None
  | S f =>
      if Nat.eqb cur_count 0 then Some (cs, col)
      else
        let cs' := (col, S cur_count) :: cs in
        let col' := suffixed col cur_count in
        dedup_loop f cs' col' (count_of cs' col')
  end.

Fixpoint dedup_go (fuel : nat) (cs : list (string * nat)) (names : list string) : option (list string) :=
  match names with
  | [] => Some []
  | col :: rest =>
      match dedup_loop fuel cs col (count_of cs col) with
      | None => None
      | Some (cs', col') =>
          match dedup_go fuel ((col', 1%nat) :: cs') rest with
          | Some r => Some (col' :: r)
          | None => None
          end
      end
  end.

(** [pandas.io.common.dedup_names], which [read] applies to the names the
    C parser gives; on distinct names, which the parser always gives
    ([header_names_total]), it changes nothing. *)
Definition dedup_names (names : list string) : option (list string) :=
  dedup_go (S (length names)) [] names.

(** [this_header[i] = col]. *)
Fixpoint set_nth (i : nat) (x : string) (l : list string) : list string :=
  match l, i with
  | [], _ => []
  | _ :: l', O => x :: l'
  | y :: l', S i' => y :: set_nth i' x l'
  end.

(** The inner loop of the C parser's renaming of repeated names
    ([TextReader._get_header] in [parsers.pyx]):
    [while cur_count > 0: counts[old_col] = cur_count + 1;
    col = f"{old_col}.{cur_count}";
    if col in this_header: cur_count += 1
    else: cur_count = counts.get(col, 0)]. *)
Fixpoint mangle_loop (fuel : nat) (hdr : list string) (cs : list (string * nat))
    (old_col col : string) (cur_count : nat) : option (list (string * nat) * string * nat) :=
  match fuel with
  | O => None
  | S f =>
      if Nat.eqb cur_count 0 then Some (cs, col, cur_count)
      else
        let cs' := (old_col, S cur_count) :: cs in
        let col' := suffixed old_col cur_count in
        if existsb (String.eqb col') hdr then mangle_loop f hdr cs' old_col col' (S cur_count)
        else mangle_loop f hdr cs' old_col col' (count_of cs' col')
  end.

(** [for i in col_loop_order: col = this_header[i]; old_col = col;
    cur_count = counts.get(col, 0); ...; this_header[i] = col;
    counts[col] = cur_count + 1]. *)
Fixpoint mangle_go (fuel : nat) (order : list nat) (hdr : list string) (cs : list (string * nat))
  : option (list string) :=
  match order with
  | [] => Some hdr
  | i :: order' =>
      let col := nth i hdr EmptyString in
      match mangle_loop fuel hdr cs col col (count_of cs col) with
      | None => None
      | Some (cs', col', cur) => mangle_go fuel order' (set_nth i col' hdr) ((col', S cur) :: cs')
      end
  end.

(** [col_loop_order]: the named columns first, then the unnamed ones. *)
Definition col_loop_order (header : list string) : list nat :=
  filter (fun i => negb (String.eqb (nth i header EmptyString) EmptyString)) (seq 0 (length header)) ++
  filter (fun i => String.eqb (nth i header EmptyString) EmptyString) (seq 0 (length header)).

(** The column names of [read_csv]: [Unnamed: i] for an empty name, the
    C parser's renaming of repeated names, then [dedup_names].  The inner
    loop stops within [2 + length header] steps, the fuel given
    ([header_names_total]). *)
Definition header_names (header : list string) : option (list string) :=
  let this_header := map (fun p => unnamed (fst p) (snd p)) (combine (seq 0 (length header)) header) in
  match mangle_go (S (S (length header))) (col_loop_order header) this_header [] with
  | Some hs => dedup_names hs
  | None => None
  end.

(** The counts are positive exactly on the names given so far. *)
Definition counts_inv (cs : list (string * nat)) (given : list string) : Prop :=
  forall k, count_of cs k <> O <-> In k given.

(** ** Lemmas *)

Lemma counts_inv_bump cs given col v :
  counts_inv cs given -> In col given -> counts_inv ((col, S v) :: cs) given.
Proof.
  intros H Hin k. simpl. destruct (String.eqb_spec k col) as [->|]; [|apply H].
  split; [intros _; exact Hin | discriminate].
Qed.

Lemma counts_inv_add cs given col :
  counts_inv cs given -> counts_inv ((col, 1%nat) :: cs) (given ++ [col]).
Proof.
  intros H k. simpl. rewrite in_app_iff. simpl.
  destruct (String.eqb_spec k col) as [->|Hne].
  - split; [intros _; right; left; reflexivity | discriminate].
  - specialize (H k).
    split; [intros E; left; apply H, E | intros [Hg | [E | []]]; [apply H, Hg | congruence]].
Qed.

Lemma NoDup_snoc {A} (l : list A) x : NoDup l -> ~ In x l -> NoDup (l ++ [x]).
Proof.
  intros Hl Hx. apply NoDup_app; [exact Hl | repeat constructor; intros [] |].
  intros y Hy [<- | []]. contradiction.
Qed.

(** Each iteration of the [while] loop moves to a longer name that was
    given before: the names visited are distinct given names, so the loop
    stops within [length given + 1] iterations, on a name not given. *)
Lemma dedup_go_id names fuel cs given :
  counts_inv cs given -> NoDup names -> (forall x, In x names -> ~ In x given) -> (0 < fuel)%nat ->
  dedup_go fuel cs names = Some names.
Proof.
  revert cs given. induction names as [|col rest IH]; intros cs given Hinv Hnd Hdis Hf; simpl; [reflexivity|].
  assert (Hz : count_of cs col = O).
  { destruct (Nat.eq_dec (count_of cs col) 0) as [E|E]; [exact E|].
    apply Hinv in E. exfalso. exact (Hdis col (or_introl eq_refl) E). }
  destruct fuel as [|f]; [lia|]. rewrite Hz. simpl.
  inversion Hnd as [|? ? Hcol Hrest]; subst.
  rewrite (IH _ (given ++ [col])); [reflexivity | apply counts_inv_add; exact Hinv | exact Hrest | | lia].
  intros x Hx. rewrite in_app_iff. intros [Hg | [<- | []]]; [exact (Hdis x (or_intror Hx) Hg) | contradiction].
Qed.

Lemma counts_inv_nil : counts_inv [] [].
Proof. intros k. simpl. split; [congruence | intros []]. Qed.

Lemma dedup_names_id names : NoDup names -> dedup_names names = Some names.
Proof.
  intros H. apply (dedup_go_id _ _ _ [] counts_inv_nil H); [intros x _ [] | lia].
Qed.

Lemma append_inv_l (a x y : string) : (a ++ x)%string = (a ++ y)%string -> x = y.
Proof. induction a as [|c a IH]; simpl; [auto|]. intros H. injection H. exact IH. Qed.

Lemma suffixed_inj col a b : suffixed col a = suffixed col b -> a = b.
Proof.
  unfold suffixed. intros H. apply append_inv_l in H. injection H as H.
  apply (f_equal digits_N) in H. rewrite !digits_N_str in H. injection H as H. lia.
Qed.

Lemma length_set_nth i x l : length (set_nth i x l) = length l.
Proof. revert i. induction l as [|y l IH]; intros [|i]; simpl; auto. Qed.

Lemma nth_set_nth_same i x l d : (i < length l)%nat -> nth i (set_nth i x l) d = x.
Proof. revert i. induction l as [|y l IH]; intros [|i] H; simpl in *; try lia; auto. apply IH. lia. Qed.

Lemma nth_set_nth_other i j x l d : i <> j -> nth j (set_nth i x l) d = nth j l d.
Proof. revert i j. induction l as [|y l IH]; intros [|i] [|j] H; simpl; auto; try lia. Qed.

Lemma set_nth_nth i l d : set_nth i (nth i l d) l = l.
Proof. revert i. induction l as [|y l IH]; intros [|i]; simpl; f_equal; auto. Qed.

(** [col_loop_order] visits every column once. *)
Lemma Permutation_filter_split {A} (f : A -> bool) l :
  Permutation (filter (fun x => negb (f x)) l ++ filter f l) l.
Proof.
  induction l as [|a l IH]; simpl; [constructor|]. destruct (f a); simpl.
  - symmetry. apply Permutation_cons_app. symmetry. exact IH.
  - constructor. exact IH.
Qed.

Lemma col_loop_order_perm header : Permutation (col_loop_order header) (seq 0 (length header)).
Proof. apply (Permutation_filter_split (fun i => String.eqb (nth i header EmptyString) EmptyString)). Qed.

(** The values the loop gives at the visited columns. *)
Lemma assigned_in hdr (done : list nat) :
  (forall i, In i done -> i < length hdr)%nat ->
  incl (map (fun i => nth i hdr EmptyString) done) hdr.
Proof. intros H x Hx. apply in_map_iff in Hx as (i & <- & Hi). apply nth_In, H, Hi. Qed.

Lemma assigned_set_nth hdr (done : list nat) i x :
  ~ In i done ->
  map (fun j => nth j (set_nth i x hdr) EmptyString) done = map (fun j => nth j hdr EmptyString) done.
Proof. intros H. apply map_ext_in. intros j Hj. apply nth_set_nth_other. intros ->. contradiction. Qed.

(** The inner loop returns within its fuel: while it runs, the names
    [old_col.k] it tries are distinct names of the header, and the first
    one not in the header has no count, so the loop stops there. *)
Lemma mangle_loop_ok fuel hdr cs assigned old col cur (visited : list string) :
  counts_inv cs assigned -> incl assigned hdr -> (cur <> 0%nat -> In old assigned) ->
  NoDup visited -> incl visited hdr ->
  (forall v, In v visited -> exists c, v = suffixed old c /\ (c < cur)%nat) ->
  (length hdr + 1 < length visited + fuel)%nat ->
  exists cs' col', mangle_loop fuel hdr cs old col cur = Some (cs', col', 0%nat) /\
    counts_inv cs' assigned /\ (cur = 0%nat -> col' = col) /\ (cur <> 0%nat -> ~ In col' hdr).
Proof.
  revert cs col cur visited.
  induction fuel as [|f IH]; intros cs col cur visited Hinv Hinc Hold Hnd Hvis Hsuf Hf.
  - pose proof (NoDup_incl_length Hnd Hvis). lia.
  - cbn [mangle_loop]. destruct (Nat.eqb_spec cur 0) as [->|Hc].
    + exists cs, col. split; [reflexivity|]. split; [exact Hinv|]. split; [reflexivity | intros []; reflexivity].
    + assert (Hinv' : counts_inv ((old, S cur) :: cs) assigned) by (apply counts_inv_bump; auto).
      destruct (existsb (String.eqb (suffixed old cur)) hdr) eqn:E.
      * apply existsb_exists in E as (x & Hx & Ex). apply String.eqb_eq in Ex. subst x.
        destruct (IH ((old, S cur) :: cs) (suffixed old cur) (S cur) (suffixed old cur :: visited))
          as (cs' & col' & Hm & Hi & _ & Hn); auto.
        -- constructor; [|exact Hnd]. intros Hv. destruct (Hsuf _ Hv) as (c & Ec & Hlt).
           apply suffixed_inj in Ec. lia.
        -- intros v [<-|Hv]; [exact Hx | apply Hvis, Hv].
        -- intros v [<-|Hv]; [exists cur; split; [reflexivity | lia]|].
           destruct (Hsuf _ Hv) as (c & -> & Hlt). exists c. split; [reflexivity | lia].
        -- simpl. lia.
        -- exists cs', col'. split; [exact Hm|]. split; [exact Hi|]. split; [intros; contradiction | intros _; exact (Hn ltac:(lia))].
      * assert (E' : ~ In (suffixed old cur) hdr).
        { intros Hx. assert (existsb (String.eqb (suffixed old cur)) hdr = true); [|congruence].
          apply existsb_exists. exists (suffixed old cur). split; [exact Hx | apply String.eqb_refl]. }
        clear E. rename E' into E.
        assert (Hz : count_of ((old, S cur) :: cs) (suffixed old cur) = 0%nat).
        { destruct (Nat.eq_dec (count_of ((old, S cur) :: cs) (suffixed old cur)) 0) as [Z|Z]; [exact Z|].
          apply Hinv' in Z. exfalso. exact (E (Hinc _ Z)). }
        rewrite Hz. pose proof (NoDup_incl_length Hnd Hvis).
        destruct f as [|f']; [lia|]. cbn [mangle_loop Nat.eqb].
        exists ((old, S cur) :: cs), (suffixed old cur). split; [reflexivity|]. split; [exact Hinv'|].
        split; [intros; contradiction | intros _; exact E].
Qed.

(** The outer loop: the names given to the visited columns are distinct,
    and the counts are positive exactly on them. *)
Lemma mangle_go_ok fuel order hdr cs (done : list nat) :
  (length hdr + 2 <= fuel)%nat -> NoDup (done ++ order) ->
  (forall i, In i (done ++ order) -> i < length hdr)%nat ->
  counts_inv cs (map (fun i => nth i hdr EmptyString) done) ->
  NoDup (map (fun i => nth i hdr EmptyString) done) ->
  exists hs, mangle_go fuel order hdr cs = Some hs /\ length hs = length hdr /\
    NoDup (map (fun i => nth i hs EmptyString) (done ++ order)).
Proof.
  revert hdr cs done. induction order as [|i order IH]; intros hdr cs done Hf Hnd Hb Hinv Hdis.
  - exists hdr. rewrite app_nil_r in *. auto.
  - assert (Hinc : incl (map (fun j => nth j hdr EmptyString) done) hdr)
      by (apply assigned_in; intros j Hj; apply Hb, in_or_app; left; exact Hj).
    assert (Hi : ~ In i done) by (intros H; apply NoDup_remove_2 in Hnd; apply Hnd, in_or_app; left; exact H).
    assert (Hil : (i < length hdr)%nat) by (apply Hb, in_or_app; right; left; reflexivity).
    set (col := nth i hdr EmptyString).
    destruct (mangle_loop_ok fuel hdr cs _ col col (count_of cs col) [] Hinv Hinc)
      as (cs' & col' & Hm & Hinv' & Hz & Hnz); auto.
    { intros H. apply Hinv, H. }
    { constructor. }
    { intros v []. }
    { intros v []. }
    { simpl. lia. }
    assert (Hnew : ~ In col' (map (fun j => nth j hdr EmptyString) done)).
    { destruct (Nat.eq_dec (count_of cs col) 0) as [Z|Z].
      - rewrite (Hz Z). intros H. apply Hinv in H. contradiction.
      - intros H. exact (Hnz Z (Hinc _ H)). }
    cbn [mangle_go]. fold col. rewrite Hm.
    destruct (IH (set_nth i col' hdr) ((col', 1%nat) :: cs') (done ++ [i])) as (hs & E & Hl & Hhs).
    + rewrite length_set_nth. exact Hf.
    + rewrite <- app_assoc. exact Hnd.
    + intros j Hj. rewrite length_set_nth. apply Hb. rewrite <- app_assoc in Hj. exact Hj.
    + rewrite map_app, assigned_set_nth by exact Hi. simpl. rewrite nth_set_nth_same by exact Hil.
      apply counts_inv_add. exact Hinv'.
    + rewrite map_app, assigned_set_nth by exact Hi. simpl. rewrite nth_set_nth_same by exact Hil.
      apply NoDup_snoc; assumption.
    + exists hs. rewrite <- app_assoc in Hhs. rewrite length_set_nth in Hl. auto.
Qed.

(** A header of distinct names goes through the loop unchanged. *)
Lemma mangle_go_id fuel order hdr cs (done : list nat) :
  (1 <= fuel)%nat -> NoDup hdr -> NoDup (done ++ order) ->
  (forall i, In i (done ++ order) -> i < length hdr)%nat ->
  counts_inv cs (map (fun i => nth i hdr EmptyString) done) ->
  mangle_go fuel order hdr cs = Some hdr.
Proof.
  revert cs done. induction order as [|i order IH]; intros cs done Hf Hh Hnd Hb Hinv; [reflexivity|].
  assert (Hi : ~ In i done) by (intros H; apply NoDup_remove_2 in Hnd; apply Hnd, in_or_app; left; exact H).
  assert (Hil : (i < length hdr)%nat) by (apply Hb, in_or_app; right; left; reflexivity).
  assert (Hz : count_of cs (nth i hdr EmptyString) = 0%nat).
  { destruct (Nat.eq_dec (count_of cs (nth i hdr EmptyString)) 0) as [Z|Z]; [exact Z|].
    apply Hinv, in_map_iff in Z as (j & Ej & Hj). exfalso.
    assert (Hjl : (j < length hdr)%nat) by (apply Hb, in_or_app; left; exact Hj).
    pose proof (proj1 (NoDup_nth hdr EmptyString) Hh j i Hjl Hil Ej). subst j. contradiction. }
  cbn [mangle_go]. rewrite Hz. destruct fuel as [|f]; [lia|]. cbn [mangle_loop Nat.eqb].
  rewrite set_nth_nth. apply (IH _ (done ++ [i])); auto.
  - rewrite <- app_assoc. exact Hnd.
  - intros j Hj. apply Hb. rewrite <- app_assoc in Hj. exact Hj.
  - rewrite map_app. apply counts_inv_add. exact Hinv.
Qed.

Lemma unnamed_id hs k :
  forallb (fun h => negb (String.eqb h EmptyString)) hs = true ->
  map (fun p => unnamed (fst p) (snd p)) (combine (seq k (length hs)) hs) = hs.
Proof.
  revert k. induction hs as [|h hs IH]; intros k H; [reflexivity|]. simpl in H |- *.
  apply andb_prop in H as [Hh H]. apply negb_true_iff in Hh.
  unfold unnamed at 1. simpl. rewrite Hh, IH by exact H. reflexivity.
Qed.

Lemma length_unnamed header :
  length (map (fun p => unnamed (fst p) (snd p)) (combine (seq 0 (length header)) header)) = length header.
Proof. rewrite length_map, length_combine, length_seq. lia. Qed.

Lemma col_loop_order_facts header :
  NoDup ([] ++ col_loop_order header) /\
  (forall i, In i ([] ++ col_loop_order header) -> i < length header)%nat.
Proof.
  split.
  - apply (Permutation_NoDup (Permutation_sym (col_loop_order_perm header))), seq_NoDup.
  - intros i Hi. apply (Permutation_in _ (col_loop_order_perm header)), in_seq in Hi. lia.
Qed.

(** A header of distinct non-empty names is kept. *)
Lemma header_names_id header :
  NoDup header -> forallb (fun h => negb (String.eqb h EmptyString)) header = true ->
  header_names header = Some header.
Proof.
  intros Hnd Hne. unfold header_names. rewrite unnamed_id by exact Hne.
  destruct (col_loop_order_facts header) as [Ho Hb].
  rewrite (mangle_go_id (S (S (length header))) _ header [] [] ltac:(lia) Hnd Ho Hb counts_inv_nil).
  apply dedup_names_id, Hnd.
Qed.

(** ** Termination and distinct names *)

(** C17. The C parser's renaming of repeated column names always returns:
    with the fuel [header_names] gives the inner [while] loop (two steps
    more than the header has names), it never runs out, on any header.
    The names it gives are distinct and as many as the header's, so that
    [dedup_names] keeps them; a header of distinct non-empty names is
    kept as it is. *)
Theorem header_names_total header :
  exists names, header_names header = Some names /\ NoDup names /\ length names = length header /\
    (NoDup header -> forallb (fun h => negb (String.eqb h EmptyString)) header = true -> names = header).
Proof.
  set (h0 := map (fun p => unnamed (fst p) (snd p)) (combine (seq 0 (length header)) header)).
  destruct (col_loop_order_facts header) as [Ho Hb].
  destruct (mangle_go_ok (S (S (length header))) (col_loop_order header) h0 [] [])
    as (hs & E & Hl & Hd).
  - unfold h0. rewrite length_unnamed. lia.
  - exact Ho.
  - unfold h0. rewrite length_unnamed. exact Hb.
  - exact counts_inv_nil.
  - constructor.
  - assert (Hhs : NoDup hs).
    { rewrite <- (map_nth_seq hs EmptyString). simpl in Hd.
      apply (Permutation_NoDup (Permutation_map _ (col_loop_order_perm header))) in Hd.
      unfold h0 in Hl. rewrite length_unnamed in Hl. rewrite Hl. exact Hd. }
    exists hs. unfold header_names. fold h0. rewrite E, dedup_names_id by exact Hhs.
    split; [reflexivity|]. split; [exact Hhs|]. split; [unfold h0 in Hl; rewrite length_unnamed in Hl; exact Hl|].
    intros Hnd Hne. pose proof (header_names_id header Hnd Hne) as Hid.
    unfold header_names in Hid. fold h0 in Hid. rewrite E, dedup_names_id in Hid by exact Hhs.
    congruence.
Qed.

(** The renaming of the parser on a header that already holds [a.1]. *)
Example header_names_skip : header_names ["a"; "a"; "a.1"]%string = Some ["a"; "a.2"; "a.1"]%string.
Proof. reflexivity. Qed.

(** Named columns are renamed first: the unnamed first column of
    [,Unnamed: 0] becomes [Unnamed: 0.1]. *)
Example header_names_unnamed_last :
  header_names [EmptyString; "Unnamed: 0"]%string = Some ["Unnamed: 0.1"; "Unnamed: 0"]%string.
Proof. reflexivity. Qed.

End CsvHeader.
