(* ===== verification/CsvWrite.v ===== *)
(** * [DataFrame.to_csv(index=False)]: the CSV text of a frame

    The downloads tab offers [sample_df.to_csv(index=False)] (line 188).
    pandas writes the header row (the column names) and then one row per
    index entry through Python's [csv.writer] with its defaults:
    delimiter [,], quote character (the double quote), [QUOTE_MINIMAL] (a field is
    quoted when it holds the delimiter, a quote or a line break, and a
    quote inside is doubled), and the line terminator [os.linesep] after
    every row: ["\n"] on Linux, ["\r\n"] on Windows, both modelled.  A
    row made of one empty field is written as two quotes (the writer
    never writes an empty record).  Cells are written by
    [CsvCell.format_cell]; a cell whose float text the model does not
    produce (an exponent, more than 15 digits) makes [to_csv] give
    [None], out of the model. *)

From Stdlib Require Import ZArith QArith String Ascii List Lia.
From S2P Require Import Prelude PyValue Series Frame CsvCell.
Import ListNotations.
Open Scope py_scope.

Module CsvWrite.
Import PyValue Series Frame CsvCell.

(** [os.linesep], the default [lineterminator] of [to_csv]. *)
Inductive line_terminator : Type :=
| LF
| CRLF.

Definition eol (t : line_terminator) : string :=
  match t with
  | LF => String c_lf EmptyString
  | CRLF => String c_cr (String c_lf EmptyString)
  end.

Definition special_char (c : ascii) : bool :=
  Ascii.eqb c c_comma || Ascii.eqb c c_quote || Ascii.eqb c c_lf || Ascii.eqb c c_cr.

Fixpoint needs_quote (s : string) : bool :=
  match s with
  | EmptyString => false
  | String c t => special_char c || needs_quote t
  end.

(** [doublequote=True]: a quote inside a quoted field is written twice. *)
Fixpoint escape_quotes (s : string) : string :=
  match s with
  | EmptyString => EmptyString
  | String c t =>
      if Ascii.eqb c c_quote then String c_quote (String c_quote (escape_quotes t))
      else String c (escape_quotes t)
  end.

Definition quote_field (s : string) : string :=
  String c_quote (escape_quotes s ++ String c_quote EmptyString)%string.

Definition csv_field (s : string) : string :=
  if needs_quote s then quote_field s else s.

Fixpoint join_comma (fs : list string) : string :=
  match fs with
  | [] => EmptyString
  | [f] => f
  | f :: fs' => (f ++ String c_comma (join_comma fs'))%string
  end.

(** [writer.writerow(fields)]. *)
Definition csv_row (t : line_terminator) (fs : list string) : string :=
  (match fs with
   | [f] => if String.eqb f EmptyString then quote_field EmptyString else csv_field f
   | _ => join_comma (map csv_field fs)
   end ++ eol t)%string.

Fixpoint cat (l : list string) : string :=
  match l with
  | [] => EmptyString
  | s :: l' => (s ++ cat l')%string
  end.

(** Row [i] of the formatted columns. *)
Definition rows_of (n : nat) (cols : list (list string)) : list (list string) :=
  map (fun i => map (fun col => nth i col EmptyString) cols) (seq 0 n).

Definition format_column (s : series) : option (list string) := omap format_cell (svalues s).

Definition to_csv (t : line_terminator) (df : frame) : option string :=
  match omap (fun c => format_column (snd c)) df with
  | None => None
  | Some cols => Some (cat (map (csv_row t) (columns df :: rows_of (nrows df) cols)))
  end.

End CsvWrite.
