(* ===== verification/CsvRead.v ===== *)
(** * [pd.read_csv(uploaded_file)]: the frame of an uploaded CSV text

    The bulk tab parses the upload with [pd.read_csv] and its defaults
    (line 91): the C engine, delimiter [,], quote character (the double quote) with
    doubled quotes, header on the first line, blank lines skipped, the
    default missing-value strings, type inference per column.  The model
    follows the stages of pandas:
    - decoding: bytes that are not UTF-8 raise [UnicodeDecodeError]; a
      byte order mark at the start is skipped;
    - [tokenize]: the states of the C tokenizer ([tokenizer.c]:
      [START_RECORD], [START_FIELD], [IN_FIELD], [IN_QUOTED_FIELD],
      [QUOTE_IN_QUOTED_FIELD], [EAT_CRNL], [EAT_CRNL_NOP],
      [WHITESPACE_LINE]) as a step function on characters, with the end
      of input of [parser_handle_eof]: an open quoted field raises
      [ParserError];
    - the header: an empty name becomes ["Unnamed: i"], and repeated names
      are renamed by the C parser's loop ([mangle_go]: named columns
      first, a new name ["a.k"] skipping the names the header already
      holds, so that [a,a,a.1] gives [a,a.2,a.1]);
    - [check_widths]: a data row longer than the rows before it raises
      [ParserError]; shorter rows are padded with missing values; a
      first data row longer than the header makes its first fields the
      index (an implicit index), which the frame of the model, like the
      report written with [index=False], does not hold;
    - [convert_column]: [int64] when every field is an integer, [float64]
      when every field is a number or missing, [object] (the texts, NaN
      for the missing ones) as soon as one field is a string.
    [read_csv] gives [None] on what the model leaves out: fields pandas reads as booleans, infinities or with an
    exponent, integers beyond [int64] (or beyond [2^53] among floats), a
    carriage return that is not followed by a line feed outside quotes
    (old Macintosh line ends), the case where the tokenizer's
    expected width could differ from the header's, files that pandas reads
    in several chunks ([low_memory]: more than [2^20 / (2 w)] rows of [w]
    columns), and a decoding error in a file larger than the first read
    buffer, where the order of the errors depends on the buffer size. *)

From Stdlib Require Import NArith ZArith QArith String Ascii List Lia.
From S2P Require Import Prelude PyValue Series Frame CsvCell CsvHeader.
Import ListNotations.
Open Scope py_scope.

Module CsvRead.
Import PyValue Series Frame CsvCell CsvHeader.

(** ** The tokenizer *)

Inductive tstate : Type :=
| StartRecord
| StartField
| InField
| InQuotedField
| QuoteInQuotedField
| EatCrnl
| EatCrnlNop
| WhitespaceLine
| Unsupported.

(** The parser state: the tokenizer state, the field being read
    (reversed), the fields of the current row (reversed), and the rows
    read so far (reversed). *)
Record tok : Type := mkTok {
  st : tstate;
  cur : list ascii;
  fields : list string;
  rows : list (list string)
}.

Definition tok0 : tok := mkTok StartRecord [] [] [].

Definition set_st (s : tstate) (t : tok) : tok := mkTok s (cur t) (fields t) (rows t).

Definition push (c : ascii) (s : tstate) (t : tok) : tok := mkTok s (c :: cur t) (fields t) (rows t).

(** [END_FIELD] *)
Definition end_field (t : tok) : tok :=
  mkTok (st t) [] (string_of_list_ascii (rev (cur t)) :: fields t) (rows t).

(** [END_LINE] *)
Definition end_line (t : tok) : tok :=
  mkTok (st t) (cur t) [] (rev (fields t) :: rows t).

Definition is_blank (c : ascii) : bool := Ascii.eqb c " "%char || Ascii.eqb c c_tab.

Definition start_field (t : tok) (c : ascii) : tok :=
  if Ascii.eqb c c_lf then set_st StartRecord (end_line (end_field t))
  else if Ascii.eqb c c_cr then set_st EatCrnl (end_field t)
  else if Ascii.eqb c c_quote then set_st InQuotedField t
  else if Ascii.eqb c c_comma then set_st StartField (end_field t)
  else push c InField t.

(** [START_RECORD], [skip_blank_lines=True]: an empty line is skipped, a
    line that starts with blanks may be a blank line. *)
Definition start_record (t : tok) (c : ascii) : tok :=
  if Ascii.eqb c c_lf then t
  else if Ascii.eqb c c_cr then set_st EatCrnlNop t
  else if is_blank c then push c WhitespaceLine t
  else start_field t c.

Definition in_field (t : tok) (c : ascii) : tok :=
  if Ascii.eqb c c_lf then set_st StartRecord (end_line (end_field t))
  else if Ascii.eqb c c_cr then set_st EatCrnl (end_field t)
  else if Ascii.eqb c c_comma then set_st StartField (end_field t)
  else push c InField t.

Definition step (t : tok) (c : ascii) : tok :=
  match st t with
  | StartRecord => start_record t c
  | StartField => start_field t c
  | InField => in_field t c
  | InQuotedField => if Ascii.eqb c c_quote then set_st QuoteInQuotedField t else push c InQuotedField t
  | QuoteInQuotedField =>
      if Ascii.eqb c c_quote then push c InQuotedField t
      else if Ascii.eqb c c_comma then set_st StartField (end_field t)
      else if Ascii.eqb c c_lf then set_st StartRecord (end_line (end_field t))
      else if Ascii.eqb c c_cr then set_st EatCrnl (end_field t)
      else push c InField t
  | EatCrnl => if Ascii.eqb c c_lf then set_st StartRecord (end_line t) else set_st Unsupported t
  | EatCrnlNop => if Ascii.eqb c c_lf then set_st StartRecord t else set_st Unsupported t
  | WhitespaceLine =>
      (* a blank line is dropped; otherwise the blanks read are the start
         of the first field, as the C code's backtracking re-reads them *)
      if Ascii.eqb c c_lf then mkTok StartRecord [] (fields t) (rows t)
      else if Ascii.eqb c c_cr then mkTok EatCrnlNop [] (fields t) (rows t)
      else if is_blank c then push c WhitespaceLine t
      else in_field (set_st InField t) c
  | Unsupported => t
  end.

Fixpoint run (t : tok) (s : string) : tok :=
  match s with
  | EmptyString => t
  | String c s' => run (step t c) s'
  end.

(** [parser_handle_eof]. *)
Definition finish (t : tok) : option (pyresult (list (list string))) :=
  match st t with
  | StartRecord | WhitespaceLine | EatCrnlNop => Some (Ok (rev (rows t)))
  | InQuotedField => Some (Err ParserError)
  | StartField | InField | QuoteInQuotedField => Some (Ok (rev (rows (end_line (end_field t)))))
  | EatCrnl => Some (Ok (rev (rows (end_line t))))
  | Unsupported => None
  end.

Definition tokenize (s : string) : option (pyresult (list (list string))) := finish (run tok0 s).

Definition strip_bom (s : string) : string :=
  if prefix bom s then substring 3 (String.length s - 3) s else s.

(** ** Rows *)

(** The tokenizer's check of the field counts, and the number of index
    columns pandas infers ([leading_cols] of [parsers.pyx]): the fields
    of the first data row beyond the header.  A later row with more
    fields than the first data row and the header raises [ParserError];
    [None] for the rows on which the two possible expected widths
    disagree. *)
Definition check_widths (n : nat) (data : list (list string)) : option (pyresult nat) :=
  match data with
  | [] => Some (Ok O)
  | r1 :: rs =>
      let m := length r1 in
      if Nat.ltb n m then
        if existsb (fun r => Nat.ltb m (length r)) rs then Some (Err ParserError)
        else Some (Ok (m - n)%nat)
      else if existsb (fun r => Nat.ltb n (length r)) rs then Some (Err ParserError)
      else if existsb (fun r => Nat.ltb m (length r)) rs then None
      else Some (Ok O)
  end.

(** Column [j], a missing field being the empty string (a missing value). *)
Definition column_fields (data : list (list string)) (j : nat) : list string :=
  map (fun r => nth j r EmptyString) data.

(** ** Type inference *)

Definition is_tstr (t : token) : bool := match t with TStr => true | _ => false end.
Definition is_tout (t : token) : bool := match t with TOut => true | _ => false end.
Definition tint (t : token) : option Z := match t with TInt z => Some z | _ => None end.

Definition object_cell (f : string) : value := if is_na f then VNaN else VStr f.

(** A field of a [float64] column; an integer beyond [2^53] would be
    rounded. *)
Definition float_cell (t : token) : option value :=
  match t with
  | TNA => Some VNaN
  | TFloat q => Some (VFloat q)
  | TInt z => if (Z.abs z <=? 2 ^ 53)%Z then Some (VFloat (inject_Z z)) else None
  | _ => None
  end.

Definition convert_column (fs : list string) : option series :=
  let ts := map classify fs in
  match fs with
  | [] => Some (mkSeries Object [])
  | _ =>
      if existsb is_tstr ts then Some (mkSeries Object (map object_cell fs))
      else if existsb is_tout ts then None
      else match omap tint ts with
           | Some zs => if forallb in_int64 zs then Some (mkSeries Int64 (map VInt zs)) else None
           | None =>
               match omap float_cell ts with
               | Some vs => Some (mkSeries Float64 vs)
               | None => None
               end
           end
  end.

(** The read buffer of the C parser ([DEFAULT_CHUNKSIZE], 256 KiB). *)
Definition read_chunk : N := 262144.

(** [low_memory]: the rows of a [w]-column file are converted by chunks
    of at least [2^20 / (2 w)] rows; a file within that bound is one
    chunk. *)
Definition one_chunk (n rows : nat) : bool := N.leb (N.of_nat ((2 * rows + 1) * n)) (2 ^ 20).

Definition read_csv (text : string) : option (pyresult frame) :=
  if negb (utf8_valid text) then
    if N.leb (N.of_nat (String.length text)) read_chunk then Some (Err UnicodeDecodeError) else None
  else
    match tokenize (strip_bom text) with
    | None => None
    | Some (Err e) => Some (Err e)
    | Some (Ok []) => Some (Err EmptyDataError)
    | Some (Ok (header :: data)) =>
        let n := length header in
        match check_widths n data with
        | None => None
        | Some (Err e) => Some (Err e)
        | Some (Ok lead) =>
            if one_chunk (lead + n) (length data) then
              match header_names header,
                    omap convert_column (map (fun j => column_fields data (lead + j)) (seq 0 n)) with
              | Some names, Some cols => Some (Ok (combine names cols))
              | _, _ => None
              end
            else None
        end
    end.

(** ** Helpers *)

(** A line whose first character after its leading blanks is neither a
    line feed nor a carriage return: the tokenizer does not take it for a
    blank line. *)
Fixpoint starts_visible (s : string) : bool :=
  match s with
  | EmptyString => false
  | String c t => if is_blank c then starts_visible t else negb (Ascii.eqb c c_lf || Ascii.eqb c c_cr)
  end.

Definition plain_char (c : ascii) : bool :=
  negb (Ascii.eqb c c_lf || Ascii.eqb c c_cr || Ascii.eqb c c_comma).

(** ** The tokenizer on a row *)

Lemma run_app t a b : run t (a ++ b)%string = run (run t a) b.
Proof. revert t. induction a as [|c a IH]; intros t; simpl; auto. Qed.

(** Inside an unquoted field, characters other than a line break and the
    delimiter are kept. *)
Lemma run_in_field s cs F R :
  str_forall plain_char s = true ->
  run (mkTok InField cs F R) s = mkTok InField (rev (list_ascii_of_string s) ++ cs) F R.
Proof.
  revert cs. induction s as [|c s IH]; intros cs H; simpl; [reflexivity|].
  apply andb_prop in H as [Hc H]. unfold plain_char in Hc.
  unfold step, in_field. simpl.
  destruct (Ascii.eqb c c_lf), (Ascii.eqb c c_cr), (Ascii.eqb c c_comma); try discriminate.
  unfold push. simpl. rewrite IH by exact H. rewrite <- app_assoc. reflexivity.
Qed.

Lemma blank_plain c : is_blank c = true -> plain_char c = true /\ Ascii.eqb c c_quote = false.
Proof.
  unfold is_blank, plain_char. intros H.
  apply orb_prop in H as [H|H]; apply Ascii.eqb_eq in H; subst c; split; reflexivity.
Qed.

Lemma whitespace_line_run s cs F R :
  starts_visible s = true -> run (mkTok WhitespaceLine cs F R) s = run (mkTok InField cs F R) s.
Proof.
  revert cs. induction s as [|c s IH]; intros cs H; simpl in H |- *; [discriminate|].
  unfold step. cbn [st]. destruct (is_blank c) eqn:B.
  - destruct (blank_plain c B) as [Hp _]. unfold plain_char in Hp.
    unfold in_field. destruct (Ascii.eqb c c_lf), (Ascii.eqb c c_cr), (Ascii.eqb c c_comma);
      try discriminate. apply IH. exact H.
  - destruct (Ascii.eqb c c_lf), (Ascii.eqb c c_cr); try discriminate. reflexivity.
Qed.

(** A visible line is read from [START_RECORD] as from [START_FIELD]. *)
Lemma start_record_run s F R :
  starts_visible s = true -> run (mkTok StartRecord [] F R) s = run (mkTok StartField [] F R) s.
Proof.
  destruct s as [|c s]; simpl; intros H; [discriminate|].
  unfold step. cbn [st]. unfold start_record, start_field. destruct (is_blank c) eqn:B.
  - destruct (blank_plain c B) as [Hp Hq]. unfold plain_char in Hp. rewrite Hq.
    destruct (Ascii.eqb c c_lf), (Ascii.eqb c c_cr), (Ascii.eqb c c_comma); try discriminate.
    apply whitespace_line_run. exact H.
  - destruct (Ascii.eqb c c_lf), (Ascii.eqb c c_cr); try discriminate. reflexivity.
Qed.

Lemma strip_bom_first c x : Nat.eqb (byte c) 239 = false -> strip_bom (String c x) = String c x.
Proof.
  intros H. unfold strip_bom, bom. cbn [prefix].
  destruct (ascii_dec (ascii_of_nat 239) c) as [<-|]; [discriminate H | reflexivity].
Qed.

(** ** What [read_csv] returns *)

Lemma blank_or_lf_ascii s :
  str_forall (fun c => is_blank c || Ascii.eqb c c_lf) s = true -> ascii_only s = true.
Proof.
  induction s as [|c s IH]; simpl; [reflexivity|]. rewrite !andb_true_iff. intros [Hc Hs]. split; [|auto].
  unfold is_blank in Hc. apply Nat.ltb_lt.
  repeat (apply orb_prop in Hc as [Hc|Hc]); apply Ascii.eqb_eq in Hc; subst c; cbv; lia.
Qed.

(** Blanks and line feeds leave the tokenizer at the start of a line
    with no row. *)
Lemma run_blank s t :
  (st t = StartRecord \/ st t = WhitespaceLine) -> rows t = [] ->
  str_forall (fun c => is_blank c || Ascii.eqb c c_lf) s = true ->
  (st (run t s) = StartRecord \/ st (run t s) = WhitespaceLine) /\ rows (run t s) = [].
Proof.
  revert t. induction s as [|c s IH]; intros t Hst Hr H; simpl; [auto|].
  simpl in H. apply andb_prop in H as [Hc H].
  assert (Hstep : (st (step t c) = StartRecord \/ st (step t c) = WhitespaceLine) /\ rows (step t c) = []).
  { unfold is_blank in Hc. repeat (apply orb_prop in Hc as [Hc|Hc]); apply Ascii.eqb_eq in Hc; subst c;
      destruct Hst as [E|E]; unfold step; rewrite E; simpl; auto. }
  destruct Hstep as [Hs1 Hs2]. apply IH; assumption.
Qed.

Lemma run_quoted s cs F R :
  str_forall (fun c => negb (Ascii.eqb c c_quote)) s = true ->
  st (run (mkTok InQuotedField cs F R) s) = InQuotedField.
Proof.
  revert cs. induction s as [|c s IH]; intros cs H; simpl; [reflexivity|].
  simpl in H. apply andb_prop in H as [Hc H]. apply negb_true_iff in Hc.
  unfold step. cbn [st]. rewrite Hc. apply IH, H.
Qed.

(** C20. A file made only of blanks and line feeds, the empty file
    included, has no header line: [read_csv] raises [EmptyDataError]
    ("No columns to parse from file"), which the bulk tab does not
    catch. *)
Theorem read_csv_blank s :
  str_forall (fun c => is_blank c || Ascii.eqb c c_lf) s = true -> read_csv s = Some (Err EmptyDataError).
Proof.
  intros H. unfold read_csv. rewrite (ascii_only_utf8 _ (blank_or_lf_ascii _ H)). cbn [negb].
  replace (strip_bom s) with s.
  2:{ destruct s as [|c x]; [reflexivity|]. symmetry. apply strip_bom_first.
      simpl in H. apply andb_prop in H as [Hc _]. unfold is_blank in Hc.
      repeat (apply orb_prop in Hc as [Hc|Hc]); apply Ascii.eqb_eq in Hc; subst c; reflexivity. }
  unfold tokenize. destruct (run_blank s tok0 (or_introl eq_refl) eq_refl H) as [[E|E] R];
    unfold finish; rewrite E, R; reflexivity.
Qed.

(** C19. A file whose first field opens a quote that is never closed
    raises [ParserError] ("EOF inside string"): the quoted field runs to
    the end of the input, line feeds and delimiters included. *)
Theorem read_csv_open_quote s :
  utf8_valid s = true -> str_forall (fun c => negb (Ascii.eqb c c_quote)) s = true ->
  read_csv (String c_quote s) = Some (Err ParserError).
Proof.
  intros Hu Hq. unfold read_csv.
  change (utf8_valid (String c_quote s)) with (utf8_valid s). rewrite Hu. cbn [negb].
  rewrite strip_bom_first by reflexivity. unfold tokenize.
  change (run tok0 (String c_quote s)) with (run (mkTok InQuotedField [] [] []) s).
  unfold finish. rewrite (run_quoted s [] [] [] Hq). reflexivity.
Qed.

Lemma read_csv_blank_witness :
  str_forall (fun c => is_blank c || Ascii.eqb c c_lf)
    (String " "%char (String c_lf (String c_tab (String c_lf EmptyString)))) = true /\
  read_csv (String " "%char (String c_lf (String c_tab (String c_lf EmptyString)))) = Some (Err EmptyDataError).
Proof.
  assert (H : str_forall (fun c => is_blank c || Ascii.eqb c c_lf)
                (String " "%char (String c_lf (String c_tab (String c_lf EmptyString)))) = true)
    by reflexivity.
  split; [exact H | exact (read_csv_blank _ H)].
Defined.

Lemma read_csv_open_quote_witness :
  utf8_valid (String "a"%char (String c_lf (String "b"%char EmptyString))) = true /\
  str_forall (fun c => negb (Ascii.eqb c c_quote)) (String "a"%char (String c_lf (String "b"%char EmptyString))) = true /\
  read_csv (String c_quote (String "a"%char (String c_lf (String "b"%char EmptyString)))) = Some (Err ParserError).
Proof.
  assert (H1 : utf8_valid (String "a"%char (String c_lf (String "b"%char EmptyString))) = true) by reflexivity.
  assert (H2 : str_forall (fun c => negb (Ascii.eqb c c_quote))
                 (String "a"%char (String c_lf (String "b"%char EmptyString))) = true) by reflexivity.
  split; [exact H1 | split; [exact H2 | exact (read_csv_open_quote _ H1 H2)]].
Defined.

End CsvRead.
