(* ===== verification/CsvRoundtrip.v ===== *)
(** * Writing a frame to CSV and reading it back

    The downloads tab writes its sample frame with [to_csv] (line 188) so
    that users can fill it in and upload it to the bulk tab, which reads
    it with [read_csv] (line 91).  This file proves that the two agree:
    [read_csv_to_csv] states that for every frame that [csv_safe]
    accepts, [to_csv] succeeds (with either line terminator) and
    [read_csv] of its text gives the frame back, column names, dtypes and
    cells.  [csv_safe] collects what a round trip needs, and each
    condition is one way the round trip fails:
    - at least one column and one row, every column with the same number
      of rows, few enough rows for one parsing chunk;
    - names distinct, non-empty (an empty name reads back as
      ["Unnamed: i"]), UTF-8, and the first not starting with the byte
      [0xEF] of a byte order mark;
    - cells that read back in their column's dtype: [int64] cells are
      64-bit integers; [float64] cells are NaN or reduced rationals whose
      [repr] the model writes; [object] cells are NaN or UTF-8 strings
      that the parser reads as strings (not a missing-value marker, not
      a number, not a boolean), and at least one cell is a string (a
      column of NaN reads back as [float64]);
    - in a frame of one column, no name or cell made only of blanks (its
      line would be skipped as blank).
    The proof follows the text through the tokenizer: each field the
    writer emits, quoted or not, is read back as one field, each line as
    one row ([row_run]), and each column's texts convert back to the
    column ([convert_formatted]).  The same simulation gives the two
    ways a written text with the wrong field counts is read: a later
    row longer than the header raises [ParserError]
    ([read_csv_long_row]), and data rows one field longer than the
    header are read without their first field, the implicit index
    ([read_csv_implicit_index]). *)

From Stdlib Require Import NArith ZArith QArith Qreduction String Ascii List Lia.
From S2P Require Import Prelude PyValue Series Frame CsvCell CsvHeader CsvWrite CsvRead.
Import ListNotations.
Open Scope py_scope.

Module CsvRoundtrip.
Import PyValue Series Frame CsvCell CsvHeader CsvWrite CsvRead.

(** ** What a round trip needs *)

Definition all_blank (s : string) : bool := str_forall is_blank s.

(** A field that, alone on its line, is not a blank line. *)
Definition visible_field (s : string) : bool := String.eqb s EmptyString || negb (all_blank s).

Definition q_reduced (q : Q) : bool := Z.eqb (Qnum (Qred q)) (Qnum q) && Pos.eqb (Qden (Qred q)) (Qden q).

Definition cell_safe (d : dtype) (v : value) : bool :=
  match d, v with
  | Int64, VInt z => in_int64 z
  | Float64, VFloat q => q_reduced q && match py_repr_float q with Some _ => true | None => false end
  | Float64, VNaN => true
  | Object, VStr s => is_tstr (classify s) && utf8_valid s
  | Object, VNaN => true
  | _, _ => false
  end.

Definition column_safe (s : series) : bool :=
  negb (Nat.eqb (length (svalues s)) 0) && forallb (cell_safe (sdtype s)) (svalues s) &&
  match sdtype s with Object => existsb is_str (svalues s) | _ => true end.

Definition name_safe (k : string) : bool := negb (String.eqb k EmptyString) && utf8_valid k.

(** The first name does not start with the first byte of a byte order
    mark, which the parser would drop. *)
Definition first_name_ok (h : list string) : bool :=
  match h with
  | String c _ :: _ => negb (Nat.eqb (byte c) 239)
  | _ => true
  end.

Definition one_column_visible (df : frame) : bool :=
  match df with
  | [(k, s)] =>
      visible_field k &&
      forallb (fun v => match v with VStr x => visible_field x | _ => true end) (svalues s)
  | _ => true
  end.

Definition csv_safe (df : frame) : bool :=
  negb (Nat.eqb (length df) 0) && nodupb (columns df) && forallb name_safe (columns df) &&
  first_name_ok (columns df) &&
  forallb (fun c => column_safe (snd c) && Nat.eqb (length (svalues (snd c))) (nrows df)) df &&
  one_chunk (length df) (nrows df) && one_column_visible df.

(** A row the tokenizer reads as one row: at least one field, and not a
    lone field of blanks. *)
Definition row_ok (fs : list string) : bool :=
  match fs with
  | [] => false
  | [f] => visible_field f
  | _ => true
  end.

(** The token the parser gives the text of a cell. *)
Definition tok_of (v : value) : token :=
  match v with VInt z => TInt z | VFloat q => TFloat q | VNaN => TNA | VStr _ => TStr end.

(** ** Fields *)

(** The states in which a field has been read and its end is next. *)
Definition field_done (s : tstate) : bool :=
  match s with StartField | InField | QuoteInQuotedField => true | _ => false end.


Lemma needs_quote_false s :
  needs_quote s = false -> str_forall (fun c => plain_char c && negb (Ascii.eqb c c_quote)) s = true.
Proof.
  induction s as [|c s IH]; simpl; [reflexivity|]. rewrite orb_false_iff. intros [Hc Hs].
  unfold special_char in Hc. unfold plain_char.
  destruct (Ascii.eqb c c_comma), (Ascii.eqb c c_quote), (Ascii.eqb c c_lf), (Ascii.eqb c c_cr);
    try discriminate. simpl. auto.
Qed.

Lemma str_forall_impl (p r : ascii -> bool) s :
  (forall c, p c = true -> r c = true) -> str_forall p s = true -> str_forall r s = true.
Proof.
  intros H. induction s as [|c s IH]; simpl; [reflexivity|].
  rewrite !andb_true_iff. intros [Hc Hs]. auto.
Qed.

Lemma run_escaped s cs F R :
  run (mkTok InQuotedField cs F R) (escape_quotes s) =
  mkTok InQuotedField (rev (list_ascii_of_string s) ++ cs) F R.
Proof.
  revert cs. induction s as [|c s IH]; intros cs; simpl; [reflexivity|].
  destruct (Ascii.eqb_spec c c_quote) as [->|Hne]; simpl.
  - change (step (step (mkTok InQuotedField cs F R) c_quote) c_quote)
      with (mkTok InQuotedField (c_quote :: cs) F R).
    rewrite IH, <- app_assoc. reflexivity.
  - unfold step at 1. cbn [st]. apply Ascii.eqb_neq in Hne. rewrite Hne. unfold push. cbn [cur fields rows].
    rewrite IH, <- app_assoc. reflexivity.
Qed.

Lemma string_of_rev_list s : string_of_list_ascii (rev (rev (list_ascii_of_string s) ++ [])) = s.
Proof. rewrite app_nil_r, rev_involutive. apply string_of_list_ascii_of_string. Qed.

(** Reading the text [csv_field] writes, or a quoted field, leaves the
    field's characters in the buffer and a state where the field may
    end. *)
Lemma quoted_body f F R :
  run (mkTok StartField [] F R) (quote_field f) =
  mkTok QuoteInQuotedField (rev (list_ascii_of_string f) ++ []) F R.
Proof.
  unfold quote_field.
  change (run (mkTok StartField [] F R) (String c_quote (escape_quotes f ++ String c_quote EmptyString)))
    with (run (mkTok InQuotedField [] F R) (escape_quotes f ++ String c_quote EmptyString)).
  rewrite run_app, run_escaped. reflexivity.
Qed.

Lemma plain_body f F R :
  needs_quote f = false ->
  exists s, field_done s = true /\
    run (mkTok StartField [] F R) f = mkTok s (rev (list_ascii_of_string f) ++ []) F R.
Proof.
  intros H. apply needs_quote_false in H. destruct f as [|c f]; [exists StartField; split; reflexivity|].
  exists InField. split; [reflexivity|]. simpl in H. apply andb_prop in H as [Hc H].
  apply andb_prop in Hc as [Hp Hq]. simpl. unfold step. cbn [st]. unfold start_field.
  unfold plain_char in Hp. apply negb_true_iff in Hq. rewrite Hq.
  destruct (Ascii.eqb c c_lf), (Ascii.eqb c c_cr), (Ascii.eqb c c_comma); try discriminate.
  unfold push. cbn. rewrite run_in_field.
  - rewrite <- app_assoc. reflexivity.
  - eapply str_forall_impl; [|exact H]. intros x Hx. apply andb_prop in Hx. tauto.
Qed.

Lemma field_body f F R :
  exists s, field_done s = true /\
    run (mkTok StartField [] F R) (csv_field f) = mkTok s (rev (list_ascii_of_string f) ++ []) F R.
Proof.
  unfold csv_field. destruct (needs_quote f) eqn:H.
  - exists QuoteInQuotedField. split; [reflexivity | apply quoted_body].
  - apply plain_body. exact H.
Qed.

Lemma end_comma s cs F R :
  field_done s = true ->
  step (mkTok s cs F R) c_comma = mkTok StartField [] (string_of_list_ascii (rev cs) :: F) R.
Proof. destruct s; try discriminate; reflexivity. Qed.

Lemma end_eol s cs F R t :
  field_done s = true ->
  run (mkTok s cs F R) (eol t) = mkTok StartRecord [] [] (rev (string_of_list_ascii (rev cs) :: F) :: R).
Proof. destruct s, t; try discriminate; reflexivity. Qed.

(** ** Rows *)

Lemma append_assoc_str a b c : ((a ++ b) ++ c)%string = (a ++ (b ++ c))%string.
Proof. induction a as [|x a IH]; simpl; congruence. Qed.

Lemma field_then_comma f rest F R :
  run (mkTok StartField [] F R) (csv_field f ++ String c_comma rest)%string =
  run (mkTok StartField [] (f :: F) R) rest.
Proof.
  destruct (field_body f F R) as (s & Hs & E). rewrite run_app, E. cbn [run].
  rewrite end_comma, string_of_rev_list by exact Hs. reflexivity.
Qed.

Lemma field_then_eol f F R t :
  run (mkTok StartField [] F R) (csv_field f ++ eol t)%string = mkTok StartRecord [] [] (rev (f :: F) :: R).
Proof.
  destruct (field_body f F R) as (s & Hs & E). rewrite run_app, E, end_eol, string_of_rev_list by exact Hs.
  reflexivity.
Qed.

(** The fields of a line, separated by commas, read back as a row. *)
Lemma fields_run fs F R t :
  fs <> [] ->
  run (mkTok StartField [] F R) (join_comma (map csv_field fs) ++ eol t)%string =
  mkTok StartRecord [] [] (rev (rev fs ++ F) :: R).
Proof.
  revert F. induction fs as [|f [|g rest] IH]; intros F H; [contradiction| |].
  - apply field_then_eol.
  - change (join_comma (map csv_field (f :: g :: rest)))
      with (csv_field f ++ String c_comma (join_comma (map csv_field (g :: rest))))%string.
    rewrite append_assoc_str. cbn [append]. rewrite field_then_comma, IH by discriminate.
    simpl. rewrite <- !app_assoc. reflexivity.
Qed.

Lemma starts_visible_plain s u :
  str_forall plain_char s = true -> starts_visible (s ++ u)%string = if all_blank s then starts_visible u else true.
Proof.
  unfold all_blank. induction s as [|c s IH]; simpl; [reflexivity|]. rewrite andb_true_iff.
  intros [Hc Hs]. destruct (is_blank c); simpl; [auto|].
  unfold plain_char in Hc. destruct (Ascii.eqb c c_lf), (Ascii.eqb c c_cr); try discriminate. reflexivity.
Qed.

Lemma starts_visible_field f u :
  all_blank f = false \/ starts_visible u = true -> starts_visible (csv_field f ++ u)%string = true.
Proof.
  intros H. unfold csv_field. destruct (needs_quote f) eqn:Hq; [reflexivity|].
  rewrite starts_visible_plain.
  - destruct H as [-> | ->]; [reflexivity|]. destruct (all_blank f); reflexivity.
  - eapply str_forall_impl; [|exact (needs_quote_false f Hq)]. intros x Hx. apply andb_prop in Hx. tauto.
Qed.

Lemma starts_visible_comma rest : starts_visible (String c_comma rest) = true.
Proof. reflexivity. Qed.

(** A line [csv_row] writes is read back as its row. *)
Lemma row_run fs R t :
  row_ok fs = true ->
  run (mkTok StartRecord [] [] R) (csv_row t fs) = mkTok StartRecord [] [] (fs :: R).
Proof.
  intros Hok. unfold csv_row. destruct fs as [|f [|g rest]]; [discriminate| |].
  - simpl in Hok. unfold visible_field in Hok. destruct (String.eqb_spec f EmptyString) as [->|Hne].
    + rewrite start_record_run by reflexivity. rewrite run_app, quoted_body, end_eol by reflexivity.
      reflexivity.
    + rewrite start_record_run.
      * exact (fields_run [f] [] R t ltac:(discriminate)).
      * apply starts_visible_field. left. apply negb_true_iff. exact Hok.
  - rewrite start_record_run.
    + rewrite fields_run by discriminate. rewrite app_nil_r, rev_involutive. reflexivity.
    + change (join_comma (map csv_field (f :: g :: rest)))
        with (csv_field f ++ String c_comma (join_comma (map csv_field (g :: rest))))%string.
      rewrite append_assoc_str. apply starts_visible_field. right. apply starts_visible_comma.
Qed.

(** The lines of a text read back as its rows. *)
Lemma rows_run rs R t :
  forallb row_ok rs = true ->
  run (mkTok StartRecord [] [] R) (cat (map (csv_row t) rs)) = mkTok StartRecord [] [] (rev rs ++ R).
Proof.
  revert R. induction rs as [|r rs IH]; intros R H; simpl; [reflexivity|].
  apply andb_prop in H as [Hr H]. rewrite run_app, row_run, IH by assumption.
  rewrite <- app_assoc. reflexivity.
Qed.

Lemma tokenize_cat rs t : forallb row_ok rs = true -> tokenize (cat (map (csv_row t) rs)) = Some (Ok rs).
Proof.
  intros H. unfold tokenize, tok0. rewrite rows_run by exact H. unfold finish. simpl.
  rewrite app_nil_r, rev_involutive. reflexivity.
Qed.

(** ** Cells *)

Lemma q_reduced_eq q : q_reduced q = true -> Qred q = q.
Proof.
  unfold q_reduced. rewrite andb_true_iff, Z.eqb_eq, Pos.eqb_eq. intros [E1 E2].
  destruct (Qred q) as [n d], q as [n' d']. simpl in *. congruence.
Qed.

Lemma blank_split_sign s : all_blank s = true -> split_sign s = (false, s).
Proof.
  destruct s as [|c s]; [reflexivity|]. unfold all_blank. simpl. rewrite andb_true_iff.
  intros [Hc _]. unfold is_blank in Hc. apply orb_prop in Hc as [Hc|Hc]; apply Ascii.eqb_eq in Hc; subst c;
    reflexivity.
Qed.

Lemma blank_split_dot s : all_blank s = true -> split_at is_dot s = (s, None).
Proof.
  unfold all_blank. induction s as [|c s IH]; simpl; [reflexivity|]. rewrite andb_true_iff.
  intros [Hc Hs]. unfold is_blank in Hc.
  replace (is_dot c) with false
    by (apply orb_prop in Hc as [Hc|Hc]; apply Ascii.eqb_eq in Hc; subst c; reflexivity).
  rewrite IH by exact Hs. reflexivity.
Qed.

Lemma blank_digits s acc : s <> EmptyString -> all_blank s = true -> digits_acc s acc = None.
Proof.
  destruct s as [|c s]; [contradiction|]. unfold all_blank. simpl. rewrite andb_true_iff.
  intros _ [Hc _]. unfold is_blank in Hc.
  replace (is_digit c) with false
    by (apply orb_prop in Hc as [Hc|Hc]; apply Ascii.eqb_eq in Hc; subst c; reflexivity).
  reflexivity.
Qed.

(** A text of blanks is no number. *)
Lemma blank_no_number s : all_blank s = true -> parse_int s = None /\ parse_dec s = None.
Proof.
  intros H. unfold parse_int, parse_dec. rewrite (blank_split_sign s H), (blank_split_dot s H).
  split; [|reflexivity]. destruct s as [|c t]; [reflexivity|].
  cbv beta iota. unfold digits_N. rewrite blank_digits by (discriminate || exact H). reflexivity.
Qed.

(** What the writer writes for a cell [csv_safe] accepts, and how the
    parser reads it back. *)
Lemma format_safe d v :
  cell_safe d v = true ->
  exists f, format_cell v = Some f /\ classify f = tok_of v /\ utf8_valid f = true /\
    visible_field f = match v with VStr x => visible_field x | _ => true end /\
    (d = Object -> object_cell f = v).
Proof.
  intros H. destruct d, v as [z|q| |x]; try discriminate; simpl in H.
  - exists (py_str_int z). split; [reflexivity|]. split; [apply classify_int|].
    split; [apply ascii_only_utf8, ascii_only_str_int|]. split; [|discriminate].
    unfold visible_field. destruct (all_blank (py_str_int z)) eqn:B; [|apply orb_true_r].
    apply blank_no_number in B as [B _]. rewrite parse_int_str in B. discriminate.
  - apply andb_prop in H as [Hr Hp]. destruct (py_repr_float q) as [f|] eqn:E; [|discriminate].
    exists f. split; [exact E|]. split; [rewrite (classify_float q f E), q_reduced_eq by exact Hr; reflexivity|].
    split; [apply ascii_only_utf8, (ascii_only_repr q f E)|]. split; [|discriminate].
    unfold visible_field. destruct (all_blank f) eqn:B; [|apply orb_true_r].
    apply blank_no_number in B as [_ B]. rewrite (proj1 (parse_repr q f E)) in B. discriminate.
  - exists EmptyString. repeat split; reflexivity.
  - exists EmptyString. repeat split; reflexivity.
  - apply andb_prop in H as [Hc Hu]. exists x. split; [reflexivity|].
    split; [destruct (classify x); try discriminate; reflexivity|]. split; [exact Hu|]. split; [reflexivity|].
    intros _. unfold object_cell, classify in *. destruct (is_na x); [discriminate | reflexivity].
Qed.

(** ** Columns *)

Lemma existsb_const_false {A} (l : list A) : existsb (fun _ => false) l = false.
Proof. induction l; auto. Qed.

Lemma omap_Some_id {A} (f : A -> option A) l : (forall x, In x l -> f x = Some x) -> omap f l = Some l.
Proof. intros H. rewrite (omap_Some_map f (fun x => x) l H), map_id. reflexivity. Qed.

Lemma int_cells vs : forallb (cell_safe Int64) vs = true -> exists zs, vs = map VInt zs /\ forallb in_int64 zs = true.
Proof.
  induction vs as [|v vs IH]; simpl; [exists []; auto|]. rewrite andb_true_iff. intros [Hv Hs].
  destruct v as [z| | |]; try discriminate. destruct (IH Hs) as (zs & -> & Hz).
  exists (z :: zs). simpl. rewrite Hv, Hz. auto.
Qed.

Lemma float_cells vs :
  forallb (cell_safe Float64) vs = true -> forall v, In v vs -> float_cell (tok_of v) = Some v /\ tint (tok_of v) = None.
Proof.
  intros H v Hin. rewrite forallb_forall in H. specialize (H v Hin).
  destruct v; try discriminate; split; reflexivity.
Qed.

Lemma classify_formatted d vs fs :
  forallb (cell_safe d) vs = true -> omap format_cell vs = Some fs -> map classify fs = map tok_of vs.
Proof.
  intros Hs Hf. apply omap_Some_iff in Hf. revert Hs.
  induction Hf as [|v f vs fs Hvf _ IH]; simpl; [reflexivity|]. rewrite andb_true_iff. intros [Hv Hs].
  destruct (format_safe d v Hv) as (f' & Ef & Cf & _). rewrite Hvf in Ef. injection Ef as <-.
  rewrite Cf, IH by exact Hs. reflexivity.
Qed.

Lemma object_formatted vs fs :
  forallb (cell_safe Object) vs = true -> omap format_cell vs = Some fs -> map object_cell fs = vs.
Proof.
  intros Hs Hf. apply omap_Some_iff in Hf. revert Hs.
  induction Hf as [|v f vs fs Hvf _ IH]; simpl; [reflexivity|]. rewrite andb_true_iff. intros [Hv Hs].
  destruct (format_safe Object v Hv) as (f' & Ef & _ & _ & _ & Ob). rewrite Hvf in Ef. injection Ef as <-.
  rewrite Ob, IH by (exact Hs || reflexivity). reflexivity.
Qed.

Lemma no_str_out vs d :
  forallb (cell_safe d) vs = true -> d <> Object ->
  existsb is_tstr (map tok_of vs) = false /\ existsb is_tout (map tok_of vs) = false.
Proof.
  intros H Hd. rewrite forallb_forall in H. split; apply existsb_false_Forall, Forall_map, Forall_forall;
    intros x Hx; specialize (H x Hx); destruct d, x; try discriminate; try reflexivity; contradiction.
Qed.

(** The texts of a column [csv_safe] accepts convert back to the column. *)
Lemma convert_formatted s fs :
  column_safe s = true -> format_column s = Some fs -> convert_column fs = Some s.
Proof.
  unfold column_safe, format_column. destruct s as [d vs]. simpl.
  intros H Hf. apply andb_prop in H as [H Hobj]. apply andb_prop in H as [Hne Hsafe].
  pose proof (classify_formatted d vs fs Hsafe Hf) as Htok.
  destruct fs as [|f0 fs0].
  { apply omap_Some_iff in Hf. inversion Hf; subst. discriminate. }
  unfold convert_column. rewrite Htok. destruct d.
  - destruct (no_str_out vs Int64 Hsafe ltac:(discriminate)) as [-> ->].
    destruct (int_cells vs Hsafe) as (zs & -> & Hz).
    rewrite map_map, omap_map. cbn [tok_of tint]. rewrite (omap_Some_id (fun x => Some x) zs) by reflexivity.
    rewrite Hz. reflexivity.
  - destruct (no_str_out vs Float64 Hsafe ltac:(discriminate)) as [-> ->].
    destruct vs as [|v vs']; [discriminate|]. assert (Hall := float_cells _ Hsafe).
    cbn [map omap]. rewrite (proj2 (Hall v (or_introl eq_refl))), (proj1 (Hall v (or_introl eq_refl))).
    rewrite omap_map, omap_Some_id by (intros x Hx; apply Hall; right; exact Hx). reflexivity.
  - replace (existsb is_tstr (map tok_of vs)) with true.
    + rewrite (object_formatted vs (f0 :: fs0) Hsafe Hf). reflexivity.
    + symmetry. apply existsb_exists in Hobj as (x & Hx & Hs). apply existsb_exists. exists (tok_of x).
      split; [apply in_map, Hx|]. destruct x; try discriminate; reflexivity.
Qed.

(** ** The text *)


(** Transposing the rows back gives the columns. *)
Lemma columns_of_rows nr cols :
  Forall (fun c => length c = nr) cols -> map (column_fields (rows_of nr cols)) (seq 0 (length cols)) = cols.
Proof.
  intros H. transitivity (map (fun j => nth j cols []) (seq 0 (length cols))); [|apply map_nth_seq].
  apply map_ext_in. intros j Hj. apply in_seq in Hj. unfold column_fields, rows_of. rewrite map_map.
  transitivity (map (fun i => nth i (nth j cols []) EmptyString) (seq 0 nr)).
  - apply map_ext. intros i.
    rewrite (nth_indep _ EmptyString (nth i [] EmptyString)) by (rewrite length_map; lia).
    apply (map_nth (fun col => nth i col EmptyString)).
  - assert (Hl : length (nth j cols []) = nr) by (rewrite Forall_forall in H; apply H, nth_In; lia).
    rewrite <- Hl. apply map_nth_seq.
Qed.

Lemma rows_of_fields (P : string -> Prop) nr cols :
  Forall (fun c => Forall P c /\ length c = nr) cols ->
  Forall (fun r => Forall P r /\ length r = length cols) (rows_of nr cols).
Proof.
  intros H. unfold rows_of. apply Forall_map, Forall_forall. intros i Hi. apply in_seq in Hi.
  rewrite length_map. split; [|reflexivity]. apply Forall_map. eapply Forall_impl; [|exact H].
  intros c [Hc Hl]. rewrite Forall_forall in Hc. apply Hc, nth_In. lia.
Qed.

Lemma check_widths_ok n data : Forall (fun r => length r = n) data -> check_widths n data = Some (Ok O).
Proof.
  intros H. destruct data as [|r1 rs]; [reflexivity|]. inversion H as [|? ? H1 Hrs]; subst.
  assert (E : forall m, m = length r1 -> existsb (fun r => Nat.ltb m (length r)) rs = false).
  { intros m ->. apply existsb_false_Forall. eapply Forall_impl; [|exact Hrs].
    intros r Hr. simpl. rewrite Hr. apply Nat.ltb_irrefl. }
  unfold check_widths. cbv zeta. rewrite Nat.ltb_irrefl, !E by reflexivity. reflexivity.
Qed.

Lemma header_names_safe hs : forallb name_safe hs = true -> nodupb hs = true -> header_names hs = Some hs.
Proof.
  intros H1 H2. apply header_names_id; [apply nodupb_NoDup, H2|].
  rewrite forallb_forall in H1 |- *. intros h Hh. destruct (andb_prop _ _ (H1 h Hh)). assumption.
Qed.

Lemma cont_not_quote lo hi c : (128 <= lo)%nat -> byte_in lo hi c = true -> Ascii.eqb c c_quote = false.
Proof.
  intros Hlo H. destruct (Ascii.eqb_spec c c_quote) as [->|]; [|reflexivity].
  unfold byte_in in H. apply andb_prop in H as [H _]. apply Nat.leb_le in H.
  change (byte c_quote) with 34%nat in H. exfalso. lia.
Qed.

Lemma escape_cons c s : Ascii.eqb c c_quote = false -> escape_quotes (String c s) = String c (escape_quotes s).
Proof. intros H. simpl. rewrite H. reflexivity. Qed.

Lemma utf8_escape s : utf8_valid s = true -> utf8_valid (escape_quotes s) = true.
Proof.
  remember (String.length s) as n eqn:En. revert s En.
  induction n as [n IH] using (well_founded_induction lt_wf). intros s -> Hs.
  destruct s as [|c s1]; [reflexivity|].
  destruct (Ascii.eqb c c_quote) eqn:Q.
  { apply Ascii.eqb_eq in Q. subst c. simpl in Hs |- *. apply (IH (String.length s1)); simpl; auto. }
  rewrite escape_cons by exact Q. simpl in Hs |- *.
  destruct (byte c <? 128); [apply (IH (String.length s1)); simpl; auto|].
  destruct (byte_in 194 223 c).
  { destruct s1 as [|c1 s2]; [discriminate|]. apply andb_prop in Hs as [Hc1 Hs].
    rewrite escape_cons by (apply (cont_not_quote 128 191); [lia | exact Hc1]). simpl. rewrite Hc1.
    apply (IH (String.length s2)); simpl; auto. }
  destruct (byte_in 224 239 c).
  { destruct s1 as [|c1 [|c2 s3]]; try discriminate. apply andb_prop in Hs as [Hc Hs].
    apply andb_prop in Hc as [Hc1 Hc2].
    rewrite escape_cons by (eapply cont_not_quote; [|exact Hc1]; destruct (byte c =? 224); lia).
    rewrite escape_cons by (apply (cont_not_quote 128 191); [lia | exact Hc2]). simpl. rewrite Hc1, Hc2.
    apply (IH (String.length s3)); simpl; auto. }
  destruct (byte_in 240 244 c); [|discriminate].
  destruct s1 as [|c1 [|c2 [|c3 s4]]]; try discriminate. apply andb_prop in Hs as [Hc Hs].
  apply andb_prop in Hc as [Hc Hc3]. apply andb_prop in Hc as [Hc1 Hc2].
  rewrite escape_cons by (eapply cont_not_quote; [|exact Hc1]; destruct (byte c =? 240); lia).
  rewrite escape_cons by (apply (cont_not_quote 128 191); [lia | exact Hc2]).
  rewrite escape_cons by (apply (cont_not_quote 128 191); [lia | exact Hc3]). simpl. rewrite Hc1, Hc2, Hc3.
  apply (IH (String.length s4)); simpl; auto.
Qed.

Lemma utf8_csv_field f : utf8_valid f = true -> utf8_valid (csv_field f) = true.
Proof.
  intros H. unfold csv_field. destruct (needs_quote f); [|exact H]. unfold quote_field.
  change (utf8_valid (String c_quote EmptyString ++ (escape_quotes f ++ String c_quote EmptyString))%string = true).
  apply utf8_valid_app; [reflexivity|]. apply utf8_valid_app; [apply utf8_escape, H | reflexivity].
Qed.

Lemma utf8_join fs : Forall (fun f => utf8_valid f = true) fs -> utf8_valid (join_comma (map csv_field fs)) = true.
Proof.
  induction 1 as [|f fs Hf Hfs IH]; [reflexivity|]. destruct fs as [|g fs]; [apply utf8_csv_field, Hf|].
  change (join_comma (map csv_field (f :: g :: fs)))
    with (csv_field f ++ String c_comma (join_comma (map csv_field (g :: fs))))%string.
  apply utf8_valid_app; [apply utf8_csv_field, Hf | exact IH].
Qed.

Lemma utf8_row t fs : Forall (fun f => utf8_valid f = true) fs -> utf8_valid (csv_row t fs) = true.
Proof.
  intros H. unfold csv_row. apply utf8_valid_app; [|destruct t; reflexivity].
  destruct fs as [|f [|g rest]]; [reflexivity| |apply utf8_join, H].
  destruct (String.eqb f EmptyString); [reflexivity|]. inversion H. apply utf8_csv_field. assumption.
Qed.

Lemma utf8_cat t rs :
  Forall (fun r => Forall (fun f => utf8_valid f = true) r) rs -> utf8_valid (cat (map (csv_row t) rs)) = true.
Proof. induction 1; [reflexivity|]. simpl. apply utf8_valid_app; [apply utf8_row|]; assumption. Qed.

(** The text starts with the first byte of the first name, or with a
    quote. *)
Lemma csv_row_first t k ks :
  k <> EmptyString -> (match k with String c _ => Nat.eqb (byte c) 239 = false | _ => True end) ->
  exists c x, csv_row t (k :: ks) = String c x /\ Nat.eqb (byte c) 239 = false.
Proof.
  intros Hne Hk.
  assert (Hf : exists c x, csv_field k = String c x /\ Nat.eqb (byte c) 239 = false).
  { unfold csv_field. destruct (needs_quote k); [exists c_quote; eexists; split; reflexivity|].
    destruct k as [|c x]; [contradiction|]. exists c, x. auto. }
  destruct Hf as (c & x & E & Hc). unfold csv_row. destruct ks as [|g rest].
  - rewrite (proj2 (String.eqb_neq _ _) Hne), E. exists c, (x ++ eol t)%string. auto.
  - change (join_comma (map csv_field (k :: g :: rest)))
      with (csv_field k ++ String c_comma (join_comma (map csv_field (g :: rest))))%string.
    rewrite E. eexists c, _. split; [reflexivity | exact Hc].
Qed.

Lemma row_ok_of r : r <> [] -> (length r = 1%nat -> Forall (fun f => visible_field f = true) r) -> row_ok r = true.
Proof.
  destruct r as [|f [|g rest]]; intros Hne Hv; [contradiction| |reflexivity].
  specialize (Hv eq_refl). inversion Hv. assumption.
Qed.

Lemma omap_total {A B} (f : A -> option B) l :
  (forall x, In x l -> exists y, f x = Some y) -> exists l', omap f l = Some l'.
Proof.
  induction l as [|x l IH]; intros H; simpl; [eauto|].
  destruct (H x (or_introl eq_refl)) as [y ->].
  destruct IH as [l' ->]; [intros z Hz; apply H; right; exact Hz|]. eauto.
Qed.

Lemma formatted_cells d vs fs :
  forallb (cell_safe d) vs = true -> omap format_cell vs = Some fs ->
  length fs = length vs /\ Forall (fun f => utf8_valid f = true) fs /\
  (forallb (fun v => match v with VStr x => visible_field x | _ => true end) vs = true ->
   Forall (fun f => visible_field f = true) fs).
Proof.
  intros Hs Hf. apply omap_Some_iff in Hf. revert Hs.
  induction Hf as [|v f vs fs Hvf _ IH]; intros Hs; simpl in *; [repeat split; constructor|].
  apply andb_prop in Hs as [Hv Hs]. destruct (IH Hs) as (Hl & Hu & Hvis).
  destruct (format_safe d v Hv) as (f' & Ef & _ & Uf & Vf & _). rewrite Hvf in Ef. injection Ef as <-.
  split; [f_equal; exact Hl|]. split; [constructor; assumption|].
  intros H. apply andb_prop in H as [H1 H2]. constructor; [rewrite Vf; exact H1 | apply Hvis, H2].
Qed.

Lemma combine_columns (df : frame) : combine (columns df) (map snd df) = df.
Proof. induction df as [|[k s] df IH]; simpl; [reflexivity|]. rewrite IH. reflexivity. Qed.

(** The columns of a frame [csv_safe] accepts are written, and their texts
    are UTF-8, as long as the frame, and visible in a frame of one
    column. *)
Lemma format_frame df :
  forallb (fun c => column_safe (snd c) && Nat.eqb (length (svalues (snd c))) (nrows df)) df = true ->
  one_column_visible df = true ->
  exists cols, omap (fun c => format_column (snd c)) df = Some cols /\
    Forall2 (fun c fs => format_column (snd c) = Some fs) df cols /\
    Forall (fun fs => Forall (fun f => utf8_valid f = true /\ (length df = 1%nat -> visible_field f = true)) fs /\
                      length fs = nrows df) cols.
Proof.
  intros H Hvis. rewrite forallb_forall in H.
  destruct (omap_total (fun c => format_column (snd c)) df) as [cols Hc].
  { intros c Hin. destruct (andb_prop _ _ (H c Hin)) as [Hs _]. unfold column_safe in Hs.
    apply andb_prop in Hs as [Hs _]. apply andb_prop in Hs as [_ Hs]. unfold format_column.
    apply omap_total. intros v Hv. rewrite forallb_forall in Hs.
    destruct (format_safe _ v (Hs v Hv)) as (f & Ef & _). eauto. }
  exists cols. split; [exact Hc|]. apply omap_Some_iff in Hc. split; [exact Hc|].
  assert (Hall : forall c fs, In c df -> format_column (snd c) = Some fs ->
            Forall (fun f => utf8_valid f = true /\ (length df = 1%nat -> visible_field f = true)) fs /\
            length fs = nrows df).
  { intros c fs Hin Hf. destruct (andb_prop _ _ (H c Hin)) as [Hs Hl]. apply Nat.eqb_eq in Hl.
    unfold column_safe in Hs. apply andb_prop in Hs as [Hs _]. apply andb_prop in Hs as [_ Hs].
    destruct (formatted_cells _ _ _ Hs Hf) as (Hlen & Hu & Hv). split; [|congruence].
    apply Forall_forall. intros f Hfin. split; [rewrite Forall_forall in Hu; apply Hu, Hfin|].
    intros H1. destruct df as [|[k s] [|c' rest]]; try discriminate. destruct Hin as [<- | []].
    simpl in Hvis. apply andb_prop in Hvis as [_ Hvis]. specialize (Hv Hvis).
    rewrite Forall_forall in Hv. apply Hv, Hfin. }
  apply (Forall2_Forall_snd _ df). eapply Forall2_impl_in; [|exact Hc]. exact Hall.
Qed.

Lemma convert_columns df cols :
  forallb (fun c => column_safe (snd c) && Nat.eqb (length (svalues (snd c))) (nrows df)) df = true ->
  Forall2 (fun c fs => format_column (snd c) = Some fs) df cols ->
  omap convert_column cols = Some (map snd df).
Proof.
  intros H HF. rewrite forallb_forall in H.
  assert (H' : forall c, In c df -> column_safe (snd c) = true)
    by (intros c Hc; destruct (andb_prop _ _ (H c Hc)); assumption).
  clear H. induction HF as [|c fs df' cols' Hcf _ IH]; [reflexivity|]. simpl.
  rewrite (convert_formatted _ _ (H' c (or_introl eq_refl)) Hcf), IH; [reflexivity|].
  intros c' Hc'. apply H'. right. exact Hc'.
Qed.

Lemma header_facts df :
  negb (Nat.eqb (length df) 0) = true -> forallb name_safe (columns df) = true -> one_column_visible df = true ->
  Forall (fun f => utf8_valid f = true) (columns df) /\ row_ok (columns df) = true.
Proof.
  intros Hne Hn Hv. split.
  - apply Forall_forall. intros k Hk. rewrite forallb_forall in Hn. destruct (andb_prop _ _ (Hn k Hk)) as [_ H]. exact H.
  - apply row_ok_of.
    + destruct df; [discriminate | discriminate].
    + intros H1. destruct df as [|[k s] [|c rest]]; try discriminate. simpl in Hv |- *.
      apply andb_prop in Hv as [Hv _]. constructor; [exact Hv | constructor].
Qed.

Lemma first_text t h rs :
  h <> [] -> forallb name_safe h = true -> first_name_ok h = true ->
  strip_bom (cat (map (csv_row t) (h :: rs))) = cat (map (csv_row t) (h :: rs)).
Proof.
  intros Hne Hn Hf. destruct h as [|k ks]; [contradiction|].
  cbn [map cat]. simpl in Hn. apply andb_prop in Hn as [Hk _].
  apply andb_prop in Hk as [Hk _]. apply negb_true_iff, String.eqb_neq in Hk.
  destruct (csv_row_first t k ks) as (c & x & -> & Hc); [exact Hk| |].
  - destruct k as [|c0 k]; [exact I|]. simpl in Hf. apply negb_true_iff. exact Hf.
  - cbn [append]. apply strip_bom_first, Hc.
Qed.

(** ** An implicit index *)

Lemma one_chunk_mono a b r : (a <= b)%nat -> one_chunk b r = true -> one_chunk a r = true.
Proof.
  unfold one_chunk. rewrite !N.leb_le. intros Hab H.
  assert (((2 * r + 1) * a <= (2 * r + 1) * b)%nat) by (apply Nat.mul_le_mono_l; exact Hab). lia.
Qed.

Lemma column_fields_tl (data : list (list string)) (j : nat) :
  column_fields (map (@tl string) data) j = column_fields data (S j).
Proof.
  unfold column_fields. rewrite map_map. apply map_ext. intros [|x r]; [destruct j|]; reflexivity.
Qed.

(** A first data row one field longer than the header: one index column. *)
Lemma check_widths_lead n rs :
  rs <> [] -> Forall (fun r => length r = S n) rs -> check_widths n rs = Some (Ok 1%nat).
Proof.
  intros Hne Hl. destruct rs as [|r1 rs']; [contradiction|].
  inversion Hl as [|? ? H1 Hrs]; subst. unfold check_widths. cbv zeta. rewrite H1.
  rewrite (proj2 (Nat.ltb_lt _ _) (Nat.lt_succ_diag_r n)).
  rewrite existsb_false_Forall.
  - f_equal. f_equal. lia.
  - eapply Forall_impl; [|exact Hrs]. intros r Hr. rewrite Hr. apply Nat.ltb_irrefl.
Qed.

Lemma csv_round_trip (t : line_terminator) (df : frame) :
  csv_safe df = true -> exists text, to_csv t df = Some text /\ read_csv text = Some (Ok df).
Proof.
  intros H. unfold csv_safe in H. rewrite !andb_true_iff in H.
  destruct H as ((((((Hne & Hnd) & Hnames) & Hfirst) & Hcols) & Hchunk) & Hvis).
  destruct (format_frame df Hcols Hvis) as (cols & Hfmt & H2 & Hprops).
  unfold to_csv. rewrite Hfmt. eexists. split; [reflexivity|].
  assert (Hlen : length cols = length df) by (symmetry; eapply Forall2_length; exact H2).
  assert (Hcn : length (columns df) = length df) by apply length_map.
  set (rs := rows_of (nrows df) cols).
  assert (Hrl : length rs = nrows df) by (unfold rs, rows_of; rewrite length_map; apply length_seq).
  pose proof (rows_of_fields _ (nrows df) cols Hprops) as Hrows. fold rs in Hrows.
  destruct (header_facts df Hne Hnames Hvis) as (Hhu & Hho).
  assert (Hrok : forallb row_ok rs = true).
  { apply forallb_forall. intros r Hr. rewrite Forall_forall in Hrows. destruct (Hrows r Hr) as (Hf & Hl).
    apply row_ok_of; [intros ->; simpl in Hl; rewrite Hlen in Hl; rewrite <- Hl in Hne; discriminate|].
    intros H1. eapply Forall_impl; [|exact Hf]. intros f [_ Hv]. apply Hv. congruence. }
  set (T := cat (map (csv_row t) (columns df :: rs))).
  assert (Hu : utf8_valid T = true).
  { apply utf8_cat. constructor; [exact Hhu|]. eapply Forall_impl; [|exact Hrows].
    intros r [Hf _]. eapply Forall_impl; [|exact Hf]. intros f [Hf' _]. exact Hf'. }
  assert (Htok : tokenize (strip_bom T) = Some (Ok (columns df :: rs))).
  { unfold T. rewrite first_text; [| intros E; destruct df; [discriminate Hne | discriminate E] | assumption
                                    | assumption].
    apply tokenize_cat. simpl. rewrite Hho. exact Hrok. }
  unfold read_csv. rewrite Hu. cbn [negb]. rewrite Htok. cbv beta iota zeta.
  rewrite check_widths_ok.
  2:{ eapply Forall_impl; [|exact Hrows]. intros r [_ Hl]. congruence. }
  cbn [Nat.add]. rewrite Hcn, Hrl, Hchunk, header_names_safe by assumption.
  rewrite <- Hlen. unfold rs. rewrite columns_of_rows.
  2:{ eapply Forall_impl; [|exact Hprops]. intros c [_ Hc]. exact Hc. }
  rewrite (convert_columns df cols Hcols H2), combine_columns. reflexivity.
Qed.

(** C14. Writing a frame with [to_csv] and reading the text back with
    [read_csv] gives the frame back, with its column names, dtypes and
    cells, for every frame [csv_safe] accepts and either line terminator;
    [to_csv] does not fail on such a frame. *)
Theorem read_csv_to_csv (t : line_terminator) (df : frame) :
  csv_safe df = true -> exists text, to_csv t df = Some text /\ read_csv text = Some (Ok df).
Proof. exact (csv_round_trip t df). Qed.

(** C18. A data line with more fields than the header, after a first data
    line that is not longer than the header, makes [read_csv] raise
    [ParserError] ("Expected n fields in line k, saw m"), whatever the
    fields hold: the check is on the number of fields alone. *)
Theorem read_csv_long_row t h r1 rs :
  forallb name_safe h = true -> first_name_ok h = true ->
  Forall (fun r => Forall (fun f => utf8_valid f = true) r) (r1 :: rs) ->
  forallb row_ok (h :: r1 :: rs) = true ->
  (length r1 <= length h)%nat -> existsb (fun r => Nat.ltb (length h) (length r)) rs = true ->
  read_csv (cat (map (csv_row t) (h :: r1 :: rs))) = Some (Err ParserError).
Proof.
  intros Hn Hf Hu Hok Hl Hlong.
  assert (Hne : h <> []) by (intros ->; discriminate).
  assert (Hhu : Forall (fun f => utf8_valid f = true) h).
  { apply Forall_forall. intros k Hk. rewrite forallb_forall in Hn. destruct (andb_prop _ _ (Hn k Hk)). assumption. }
  unfold read_csv. rewrite utf8_cat by (constructor; assumption). cbn [negb].
  rewrite first_text, tokenize_cat by assumption. cbv beta iota zeta. unfold check_widths.
  replace (Nat.ltb (length h) (length r1)) with false by (symmetry; apply Nat.ltb_ge; exact Hl).
  rewrite Hlong. reflexivity.
Qed.

(** C22. A delimiter at the end of every data line but not of the header
    (each data line one field longer than the header, as a spreadsheet
    export with an empty last column writes it) makes pandas take the
    first field of each line as the index: [read_csv] reads the file as
    it reads the same file without its first column, so every name
    labels the field after its own and the last column is empty. *)
Theorem read_csv_implicit_index t h rs :
  forallb name_safe h = true -> first_name_ok h = true ->
  Forall (fun r => Forall (fun f => utf8_valid f = true) r) rs ->
  rs <> [] -> Forall (fun r => length r = S (length h)) rs ->
  forallb row_ok (h :: map (@tl string) rs) = true -> one_chunk (S (length h)) (length rs) = true ->
  read_csv (cat (map (csv_row t) (h :: rs))) = read_csv (cat (map (csv_row t) (h :: map (@tl string) rs))).
Proof.
  intros Hn Hf Hu Hne Hl Hok Hc.
  assert (Hh : h <> []) by (intros ->; discriminate Hok).
  assert (Hhu : Forall (fun f => utf8_valid f = true) h).
  { apply Forall_forall. intros k Hk. rewrite forallb_forall in Hn. destruct (andb_prop _ _ (Hn k Hk)). assumption. }
  assert (Hrok : forallb row_ok (h :: rs) = true).
  { simpl in Hok |- *. apply andb_prop in Hok as [Hh' _]. rewrite Hh'. apply forallb_forall.
    intros r Hr. rewrite Forall_forall in Hl. specialize (Hl r Hr).
    destruct r as [|x [|y r']]; [discriminate| |reflexivity].
    destruct h; [contradiction | discriminate]. }
  assert (Htl : Forall (fun r => length r = length h) (map (@tl string) rs)).
  { rewrite Forall_map. eapply Forall_impl; [|exact Hl]. intros [|x r] E; simpl in *; lia. }
  assert (Hutl : Forall (fun r => Forall (fun f => utf8_valid f = true) r) (map (@tl string) rs)).
  { rewrite Forall_map. eapply Forall_impl; [|exact Hu]. intros [|x r] H; [constructor | inversion H; assumption]. }
  unfold read_csv. rewrite !utf8_cat by (constructor; assumption). cbn [negb].
  rewrite !first_text, !tokenize_cat by assumption. cbv beta iota zeta.
  rewrite (check_widths_ok (length h) (map (@tl string) rs) Htl), (check_widths_lead _ _ Hne Hl), length_map.
  cbn [Nat.add]. rewrite Hc, (one_chunk_mono _ _ _ (le_S _ _ (le_n _)) Hc).
  rewrite (map_ext (fun j => column_fields (map (@tl string) rs) j) (fun j => column_fields rs (S j)))
    by apply column_fields_tl.
  reflexivity.
Qed.

Lemma read_csv_long_row_witness :
  forallb name_safe ["a"; "b"]%string = true /\ first_name_ok ["a"; "b"]%string = true /\
  Forall (fun r => Forall (fun f => utf8_valid f = true) r) [["1"; "2"]; ["3"; "4"; "5"]]%string /\
  forallb row_ok [["a"; "b"]; ["1"; "2"]; ["3"; "4"; "5"]]%string = true /\
  (length ["1"; "2"]%string <= length ["a"; "b"]%string)%nat /\
  existsb (fun r => Nat.ltb (length ["a"; "b"]%string) (length r)) [["3"; "4"; "5"]]%string = true /\
  read_csv (cat (map (csv_row LF) [["a"; "b"]; ["1"; "2"]; ["3"; "4"; "5"]]%string)) = Some (Err ParserError).
Proof.
  assert (H1 : forallb name_safe ["a"; "b"]%string = true) by reflexivity.
  assert (H2 : first_name_ok ["a"; "b"]%string = true) by reflexivity.
  assert (H3 : Forall (fun r => Forall (fun f => utf8_valid f = true) r) [["1"; "2"]; ["3"; "4"; "5"]]%string)
    by repeat constructor.
  assert (H4 : forallb row_ok [["a"; "b"]; ["1"; "2"]; ["3"; "4"; "5"]]%string = true) by reflexivity.
  assert (H5 : (length ["1"; "2"]%string <= length ["a"; "b"]%string)%nat) by (simpl; lia).
  assert (H6 : existsb (fun r => Nat.ltb (length ["a"; "b"]%string) (length r)) [["3"; "4"; "5"]]%string = true)
    by reflexivity.
  repeat (split; [assumption|]). exact (read_csv_long_row LF _ _ _ H1 H2 H3 H4 H5 H6).
Defined.

Lemma read_csv_implicit_index_witness :
  forallb name_safe ["a"; "b"]%string = true /\ first_name_ok ["a"; "b"]%string = true /\
  Forall (fun r => Forall (fun f => utf8_valid f = true) r) [["x"; "1"; EmptyString]]%string /\
  [["x"; "1"; EmptyString]]%string <> [] /\
  Forall (fun r => length r = S (length ["a"; "b"]%string)) [["x"; "1"; EmptyString]]%string /\
  forallb row_ok (["a"; "b"] :: map (@tl string) [["x"; "1"; EmptyString]])%string = true /\
  one_chunk (S (length ["a"; "b"]%string)) (length [["x"; "1"; EmptyString]]%string) = true /\
  read_csv (cat (map (csv_row LF) (["a"; "b"] :: [["x"; "1"; EmptyString]])%string)) =
  read_csv (cat (map (csv_row LF) (["a"; "b"] :: map (@tl string) [["x"; "1"; EmptyString]])%string)).
Proof.
  assert (H1 : forallb name_safe ["a"; "b"]%string = true) by (vm_compute; reflexivity).
  assert (H2 : first_name_ok ["a"; "b"]%string = true) by (vm_compute; reflexivity).
  assert (H3 : Forall (fun r => Forall (fun f => utf8_valid f = true) r) [["x"; "1"; EmptyString]]%string)
    by (repeat constructor).
  assert (H4 : [["x"; "1"; EmptyString]]%string <> []) by discriminate.
  assert (H5 : Forall (fun r => length r = S (length ["a"; "b"]%string)) [["x"; "1"; EmptyString]]%string)
    by (repeat constructor).
  assert (H6 : forallb row_ok (["a"; "b"] :: map (@tl string) [["x"; "1"; EmptyString]])%string = true)
    by (vm_compute; reflexivity).
  assert (H7 : one_chunk (S (length ["a"; "b"]%string)) (length [["x"; "1"; EmptyString]]%string) = true)
    by (vm_compute; reflexivity).
  do 7 (split; [assumption|]).
  exact (read_csv_implicit_index LF _ _ H1 H2 H3 H4 H5 H6 H7).
Defined.

End CsvRoundtrip.
