(* ===== verification/Excel.v ===== *)
(** * [DataFrame.to_excel]: the Excel reports

    The three tabs write a frame to an Excel workbook with
    [pd.ExcelWriter(buffer, engine="openpyxl")] and
    [df.to_excel(writer, index=False, sheet_name=...)] (lines 96-98,
    159-161, 217-219).  pandas writes the header row (the column names)
    and then every cell of the frame, after its [_format_value] (NaN
    becomes the [na_rep] text [''], numbers stay numbers); openpyxl's
    [Cell.value] setter stores each one: a number as a number, a text
    through [check_string] (cut to 32767 characters, and
    [IllegalCharacterError] for a control character other than tab, line
    feed and carriage return) and then as a formula when it has two
    characters or more and starts with [=], as an error value when it is
    one of Excel's error codes, and as a text otherwise.  A sheet title
    holding one of the characters [\ * ? : / [ ]] raises [ValueError].
    The workbook holds the one sheet written (pandas removes the default
    sheet of a new workbook).  pandas writes the body column by column;
    the model writes it row by row, which gives the same sheet, and the
    same exception since every cell fails with [IllegalCharacterError].
    Styles (the bold header) and the bytes of the [.xlsx] file are not
    modelled.  The sheet written for a frame of legal texts, cell by
    cell, is [to_excel_layout], which the theorems of [App.v] use; the
    theorem [to_excel_illegal] gives [IllegalCharacterError] for a
    control character in any name or text cell. *)

From Stdlib Require Import NArith ZArith QArith String Ascii List Lia.
From S2P Require Import Prelude PyValue Series Frame Wellformed CsvCell.
Import ListNotations.
Open Scope py_scope.

Module Excel.
Import PyValue Series Frame Wellformed CsvCell.

(** An openpyxl cell by its [data_type]: ['n'], ['s'], ['f'], ['e']. *)
Inductive xcell : Type :=
| XNum (q : Q)
| XStr (s : string)
| XFormula (s : string)
| XError (s : string).

Record sheet : Type := mkSheet {
  title : string;
  cells : list (list xcell)
}.

Definition workbook : Type := list sheet.

(** [ILLEGAL_CHARACTERS_RE = [\000-\010]|[\013-\014]|[\016-\037]]. *)
Definition illegal_char (c : ascii) : bool := byte_in 0 8 c || byte_in 11 12 c || byte_in 14 31 c.

Fixpoint str_exists (p : ascii -> bool) (s : string) : bool :=
  match s with
  | EmptyString => false
  | String c t => p c || str_exists p t
  end.

(** The number of characters of a UTF-8 text: its bytes that are not
    continuation bytes. *)
Fixpoint nchars (s : string) : nat :=
  match s with
  | EmptyString => O
  | String c t => ((if cont c then 0 else 1) + nchars t)%nat
  end.

(** [value[:n]]: the first [n] characters of a UTF-8 text. *)
Fixpoint take_chars (n : N) (s : string) : string :=
  match s with
  | EmptyString => EmptyString
  | String c t =>
      if cont c then String c (take_chars n t)
      else if (n =? 0)%N then EmptyString else String c (take_chars (N.pred n) t)
  end.

Definition error_codes : list string :=
  ["#NULL!"; "#DIV/0!"; "#VALUE!"; "#REF!"; "#NAME?"; "#NUM!"; "#N/A"]%string.

Definition starts_with_eq (s : string) : bool :=
  match s with String c _ => Ascii.eqb c "="%char | EmptyString => false end.

(** [Cell.value = s] for a text. *)
Definition bind_string (s : string) : pyresult xcell :=
  let v := take_chars 32767 s in
  if str_exists illegal_char v then Err IllegalCharacterError
  else if Nat.ltb 1 (nchars v) && starts_with_eq v then Ok (XFormula v)
  else if existsb (String.eqb v) error_codes then Ok (XError v)
  else Ok (XStr v).

(** [_format_value] then [Cell.value] for a cell of the frame. *)
Definition excel_value (v : value) : pyresult xcell :=
  match v with
  | VInt z => Ok (XNum (inject_Z z))
  | VFloat q => Ok (XNum q)
  | VNaN => bind_string EmptyString
  | VStr s => bind_string s
  end.

(** [INVALID_TITLE_REGEX = [\\*?:/\[\]]]. *)
Definition title_forbidden : list ascii := ["\"; "*"; "?"; ":"; "/"; "["; "]"]%char.

Definition valid_title (t : string) : bool :=
  negb (str_exists (fun c => existsb (Ascii.eqb c) title_forbidden) t).

(** The rows of a frame, cell [j] of row [i] being cell [i] of column [j]. *)
Definition frame_rows (df : frame) : list (list value) :=
  map (fun i => map (fun c => nth i (svalues (snd c)) VNaN) df) (seq 0 (nrows df)).

(** [df.to_excel(writer, index=False, sheet_name=name)]. *)
Definition to_excel (name : string) (df : frame) : pyresult sheet :=
  if valid_title name then
    let* header := mapM bind_string (columns df) in
    let* body := mapM (mapM excel_value) (frame_rows df) in
    Ok (mkSheet name (header :: body))
  else Err ValueError.

(** A text [check_string] accepts. *)
Definition text_ok (s : string) : bool := negb (str_exists illegal_char (take_chars 32767 s)).

Definition value_ok (v : value) : bool := match v with VStr s => text_ok s | _ => true end.

(** ** Lemmas *)

Lemma bind_string_err s e : bind_string s = Err e -> e = IllegalCharacterError.
Proof.
  unfold bind_string. destruct (str_exists _ _); [congruence|].
  destruct (_ && _); [discriminate|]. destruct (existsb _ _); discriminate.
Qed.

Lemma bind_string_ok s : text_ok s = true -> exists c, bind_string s = Ok c.
Proof.
  unfold text_ok, bind_string. destruct (str_exists _ _); [discriminate|]. intros _.
  destruct (_ && _); [eauto|]. destruct (existsb _ _); eauto.
Qed.

Lemma bind_string_illegal s : text_ok s = false -> bind_string s = Err IllegalCharacterError.
Proof. unfold text_ok, bind_string. destruct (str_exists _ _); [reflexivity|discriminate]. Qed.

Lemma excel_value_err v e : excel_value v = Err e -> e = IllegalCharacterError.
Proof. destruct v; simpl; try discriminate; apply bind_string_err. Qed.

Lemma excel_value_ok v : value_ok v = true -> exists c, excel_value v = Ok c.
Proof. destruct v; simpl; intros H; eauto; apply bind_string_ok; [reflexivity | exact H]. Qed.

(** A [mapM] of a function that only raises [IllegalCharacterError]
    only raises it. *)
Lemma mapM_excel_err {A B} (f : A -> pyresult B) l e :
  (forall x e', f x = Err e' -> e' = IllegalCharacterError) ->
  mapM f l = Err e -> e = IllegalCharacterError.
Proof. intros Hf Hm. destruct (mapM_Err_In _ _ _ Hm) as (x & _ & Ex). exact (Hf _ _ Ex). Qed.

Lemma length_frame_rows df : length (frame_rows df) = nrows df.
Proof. unfold frame_rows. rewrite length_map, length_seq. reflexivity. Qed.

(** A cell of a row is a cell of a column, or the [NaN] of a column
    shorter than the first. *)
Lemma frame_rows_cell df r v :
  In r (frame_rows df) -> In v r ->
  v = VNaN \/ exists c, In c df /\ In v (svalues (snd c)).
Proof.
  unfold frame_rows. rewrite in_map_iff. intros (i & <- & _) Hv.
  apply in_map_iff in Hv as (c & <- & Hc).
  destruct (Nat.lt_ge_cases i (length (svalues (snd c)))) as [Hi|Hi].
  - right. exists c. split; [exact Hc | apply nth_In, Hi].
  - left. apply nth_overflow, Hi.
Qed.

(** Cell [i] of a column is in row [i]. *)
Lemma frame_rows_nth df c i :
  In c df -> (i < nrows df)%nat ->
  exists r, In r (frame_rows df) /\ In (nth i (svalues (snd c)) VNaN) r.
Proof.
  intros Hc Hi. exists (map (fun c' => nth i (svalues (snd c')) VNaN) df). split.
  - unfold frame_rows. apply in_map_iff. exists i. split; [reflexivity|]. apply in_seq. lia.
  - apply in_map_iff. exists c. split; [reflexivity | exact Hc].
Qed.

(** In a frame of [n] rows, every cell of a column is in a row. *)
Lemma frame_rows_In n df c v :
  frame_wf n df -> In c df -> In v (svalues (snd c)) ->
  exists r, In r (frame_rows df) /\ In v r.
Proof.
  intros [_ Hall] Hc Hv. rewrite Forall_forall in Hall.
  destruct (In_nth _ _ VNaN Hv) as (i & Hi & <-). apply frame_rows_nth; [exact Hc|].
  destruct df as [|[k0 s0] df']; [contradiction|].
  pose proof (proj2 (Hall _ (or_introl eq_refl))) as H0. simpl in H0 |- *.
  rewrite H0, <- (proj2 (Hall c Hc)). exact Hi.
Qed.

(** A refused text among the names or in a row makes [to_excel] raise
    [IllegalCharacterError]. *)
Lemma to_excel_refused name df s :
  valid_title name = true -> text_ok s = false ->
  In s (columns df) \/ (exists r, In r (frame_rows df) /\ In (VStr s) r) ->
  to_excel name df = Err IllegalCharacterError.
Proof.
  intros Ht Hs Hin. unfold to_excel. rewrite Ht.
  destruct (mapM bind_string (columns df)) as [header|e] eqn:Eh; rewrite ?bind_Ok, ?bind_Err.
  - destruct Hin as [Hk | (r & Hr & Hvr)].
    + destruct (mapM_Err_of_In _ _ _ _ Hk (bind_string_illegal s Hs)) as (e & Ee). congruence.
    + destruct (mapM_Err_of_In excel_value r _ _ Hvr (bind_string_illegal s Hs)) as (e1 & E1).
      destruct (mapM_Err_of_In _ _ _ _ Hr E1) as (e2 & E2). rewrite E2, bind_Err. f_equal.
      exact (mapM_excel_err _ _ _ (fun r' e' => mapM_excel_err _ r' e' excel_value_err) E2).
  - f_equal. exact (mapM_excel_err _ _ _ bind_string_err Eh).
Qed.

(** The sheet [to_excel] writes, cell by cell. *)
Lemma to_excel_layout name df :
  valid_title name = true ->
  forallb text_ok (columns df) = true ->
  forallb (fun c => forallb value_ok (svalues (snd c))) df = true ->
  exists header body,
    to_excel name df = Ok (mkSheet name (header :: body)) /\
    length body = nrows df /\
    Forall2 (fun k x => bind_string k = Ok x) (columns df) header /\
    Forall2 (fun r row => Forall2 (fun v x => excel_value v = Ok x) r row) (frame_rows df) body.
Proof.
  intros Ht Hn Hc. rewrite forallb_forall in Hn, Hc.
  assert (Hv : forall r v, In r (frame_rows df) -> In v r -> value_ok v = true).
  { intros r v Hr Hvr. destruct (frame_rows_cell df r v Hr Hvr) as [->|(c & Hc' & Hv')]; [reflexivity|].
    specialize (Hc c Hc'). rewrite forallb_forall in Hc. auto. }
  destruct (mapM_total bind_string (fun k x => bind_string k = Ok x) (columns df)) as (header & Eh & Fh).
  { intros k Hk. destruct (bind_string_ok k (Hn k Hk)) as (x & Ex). eauto. }
  destruct (mapM_total (mapM excel_value) (fun r row => Forall2 (fun v x => excel_value v = Ok x) r row)
              (frame_rows df)) as (body & Eb & Fb).
  { intros r Hr. apply mapM_total. intros v Hvr.
    destruct (excel_value_ok v (Hv r v Hr Hvr)) as (x & Ex). eauto. }
  exists header, body. unfold to_excel. rewrite Ht, Eh, bind_Ok, Eb, bind_Ok.
  split; [reflexivity|]. split; [|split; assumption].
  rewrite <- (Forall2_length Fb). apply length_frame_rows.
Qed.

(** C16. A text openpyxl refuses anywhere in the frame, a column name or
    a text cell, makes [to_excel] raise [IllegalCharacterError] (for a
    valid title): one control character in one uploaded name stops the
    whole report. *)
Theorem to_excel_illegal name n df s :
  valid_title name = true -> frame_wf n df -> text_ok s = false ->
  In s (columns df) \/ (exists c, In c df /\ In (VStr s) (svalues (snd c))) ->
  to_excel name df = Err IllegalCharacterError.
Proof.
  intros Ht Hwf Hs Hin. apply (to_excel_refused name df s Ht Hs).
  destruct Hin as [Hk | (c & Hc & Hvc)]; [left; exact Hk | right].
  exact (frame_rows_In n df c _ Hwf Hc Hvc).
Qed.

End Excel.
