(* ===== verification/Spec.v ===== *)
(** * The specification of the scoring engine, and its refinement

    The specification's contract for the engine: a species record (its
    eight fields), the seven sub-scores of the rule table, their sum, and
    the four-level label given by the descending threshold cascade, written
    from the specification's table on typed records, with no pandas in
    sight ([spec_*_score], [spec_total], [spec_priority], [priority_range]).

    [frame_of_species rs] is the frame the program scores: the
    [pd.DataFrame([{...}])] of the single-entry tab (lines 144-153), one
    column per field, each with the dtype pandas infers from its cells
    (strings give [object], integers [int64]).

    Theorems:
    - [score_species_refines] (refinement): [Scoring.score_species] on such
      a frame succeeds and each computed column holds, row by row, what the
      specification gives for that row, for threat levels of at most
      [2^50] in absolute value ([threat_bounded]; the internal lemma
      [score_frame_of_species] needs [2^60], so that the [int64] product
      and sum do not wrap, and [2^50] makes the model's exact rationals the
      binary64 floats the program computes);
    - [score_species_batch_independent]: under the same bound row [i] of
      a batch equals the row of record [i] scored alone;
    - [priority_lambda_cascade]: the label lambda on every kind of cell,
      with the specification's boundary values as its witness. *)

From Stdlib Require Import ZArith QArith Qabs Qreduction Lqa String List Lia.
From Stdlib Require Import Morphisms.
From S2P Require Import Prelude PyValue Series Frame Scoring.
Import ListNotations.
Open Scope py_scope.
Open Scope string_scope.

Module Spec.
Import PyValue Series Frame Scoring.

(** ** Species records *)

Record species : Type := mkSpecies {
  species_name : string;
  iucn_status : string;
  endemism : string;
  threat_level : Z;
  altitudinal_range : string;
  exploitation : string;
  habitat_specificity : Z;
  use_value : Z
}.

(** ** The rule table *)

Definition iucn_code (s : string) : Z :=
  if s =? "Critically Endangered" then 5
  else if s =? "Endangered" then 4
  else if s =? "Vulnerable" then 3
  else if s =? "Near Threatened" then 2
  else if s =? "Least Concern" then 1
  else 0.

Definition endemism_code (s : string) : Z :=
  if s =? "Yes" then 2 else if s =? "No" then 1 else 0.

Definition altitude_code (s : string) : Z :=
  if s =? "<500" then 4
  else if s =? "501-1000" then 3
  else if s =? "1001-1500" then 2
  else if s =? ">1500" then 1
  else 0.

Definition exploitation_code (s : string) : Z :=
  if s =? "Not exploited" then 1
  else if s =? "Local use" then 2
  else if s =? "Commercial use" then 3
  else 0.

Definition habitat_rule (h : Z) : Z :=
  if (h =? 1)%Z then 4 else if (h =? 2)%Z then 3 else if (h =? 3)%Z then 2 else 1.

Definition use_rule (u : Z) : Z :=
  if (u =? 0)%Z then 1 else if (u =? 1)%Z then 2 else if (u =? 2)%Z then 3
  else if (u =? 3)%Z then 4 else 5.

Definition spec_iucn_score (r : species) : Q := inject_Z (iucn_code (iucn_status r)) * 3.
Definition spec_endemism_score (r : species) : Q := inject_Z (endemism_code (endemism r)) * 2.
Definition spec_threat_score (r : species) : Q := inject_Z (threat_level r) * 3.
Definition spec_altitude_score (r : species) : Q :=
  inject_Z (altitude_code (altitudinal_range r)) * 1.
Definition spec_exploitation_score (r : species) : Q :=
  inject_Z (exploitation_code (exploitation r)) * 2.
Definition spec_habitat_score (r : species) : Q :=
  inject_Z (habitat_rule (habitat_specificity r)) * (3 # 2).
Definition spec_use_score (r : species) : Q := inject_Z (use_rule (use_value r)) * (3 # 2).

(** The sub-scores in the order of [Scoring.score_columns]. *)
Definition spec_score_fns : list (species -> Q) :=
  [spec_iucn_score; spec_endemism_score; spec_threat_score; spec_altitude_score;
   spec_exploitation_score; spec_habitat_score; spec_use_score].

Definition spec_total (r : species) : Q :=
  spec_iucn_score r + spec_endemism_score r + spec_threat_score r + spec_altitude_score r
  + spec_exploitation_score r + spec_habitat_score r + spec_use_score r.

Inductive priority : Type :=
| Critical
| High
| Medium
| Low.

Definition priority_name (p : priority) : string :=
  match p with
  | Critical => "Critical"
  | High => "High"
  | Medium => "Medium"
  | Low => "Low"
  end.

(** The cascade: the first threshold that the total reaches wins. *)
Definition spec_priority (t : Q) : priority :=
  if Qle_bool 39 t then Critical
  else if Qle_bool 32 t then High
  else if Qle_bool 24 t then Medium
  else Low.

(** The same labels as four disjoint ranges. *)
Definition priority_range (t : Q) (p : priority) : Prop :=
  match p with
  | Critical => 39 <= t
  | High => 32 <= t /\ t < 39
  | Medium => 24 <= t /\ t < 32
  | Low => t < 24
  end.

(** ** The frame of a list of records *)

Definition column_of {A} (f : A -> value) (rs : list A) : series :=
  series_of_values (map f rs).

(** [pd.DataFrame(records)] for a non-empty list of records with the
    eight keys of lines 144-153, each column's dtype inferred from its
    values.  The code builds it from one record (the single-entry tab);
    the theorems use it for any list.  For the empty list the frame here
    has the eight columns and no row, as a CSV with only the header line
    is read, whereas [pd.DataFrame([])] has no columns at all. *)
Definition frame_of_species (rs : list species) : frame :=
  [("Species_Name", column_of (fun r => VStr (species_name r)) rs);
   ("IUCN_Status", column_of (fun r => VStr (iucn_status r)) rs);
   ("Endemism", column_of (fun r => VStr (endemism r)) rs);
   ("Threat_Level", column_of (fun r => VInt (threat_level r)) rs);
   ("Altitudinal_Range", column_of (fun r => VStr (altitudinal_range r)) rs);
   ("Exploitation", column_of (fun r => VStr (exploitation r)) rs);
   ("Habitat_Specificity", column_of (fun r => VInt (habitat_specificity r)) rs);
   ("Use_Value", column_of (fun r => VInt (use_value r)) rs)].

(** ** Lemmas: the code's tables are the rule table *)

Lemma iucn_dict_code s : dict_code IUCN_map (VStr s) = iucn_code s.
Proof. unfold dict_code, map_cell, iucn_code; simpl. destruct_ifs; reflexivity. Qed.

Lemma endemism_dict_code s : dict_code Endemism_map (VStr s) = endemism_code s.
Proof. unfold dict_code, map_cell, endemism_code; simpl. destruct_ifs; reflexivity. Qed.

Lemma altitude_dict_code s : dict_code Altitude_map (VStr s) = altitude_code s.
Proof. unfold dict_code, map_cell, altitude_code; simpl. destruct_ifs; reflexivity. Qed.

Lemma exploitation_dict_code s : dict_code Exploitation_map (VStr s) = exploitation_code s.
Proof. unfold dict_code, map_cell, exploitation_code; simpl. destruct_ifs; reflexivity. Qed.

Lemma Qeq_bool_inject_Z a b : Qeq_bool (inject_Z a) (inject_Z b) = (a =? b)%Z.
Proof.
  apply eq_true_iff_eq. rewrite Qeq_bool_iff, Z.eqb_eq.
  split; [apply inject_Z_injective | intros ->; reflexivity].
Qed.

Lemma habitat_code_inject h : habitat_code (inject_Z h) = habitat_rule h.
Proof. unfold habitat_code, habitat_rule. rewrite !Qeq_bool_inject_Z. reflexivity. Qed.

Lemma use_code_inject u : use_code (inject_Z u) = use_rule u.
Proof. unfold use_code, use_rule. rewrite !Qeq_bool_inject_Z. reflexivity. Qed.

Lemma priority_label_spec q : priority_label q = priority_name (spec_priority q).
Proof. unfold priority_label, spec_priority, inject_Z. destruct_ifs; reflexivity. Qed.

#[export] Instance spec_priority_Proper : Proper (Qeq ==> eq) spec_priority.
Proof.
  intros q q' Hq. unfold spec_priority.
  assert (forall c, Qle_bool c q = Qle_bool c q') as Hc.
  { intros c. apply eq_true_iff_eq. rewrite !Qle_bool_iff, Hq. tauto. }
  rewrite !Hc. reflexivity.
Qed.

(** ** Lemmas: the frame of a list of records *)

Lemma coerce_num d v q : num_rel v q -> num_rel (coerce d v) q.
Proof. destruct d, v; simpl; tauto. Qed.

Lemma column_of_num {A} (f : A -> value) (g : A -> Q) rs :
  (forall r, num_rel (f r) (g r)) -> num_series (column_of f rs) (map g rs).
Proof.
  intros H. unfold num_series, column_of, series_of_values; simpl.
  rewrite map_map. apply Forall2_map_l, Forall2_refl_map. intros r _. apply coerce_num, H.
Qed.

Lemma column_of_str {A} (f : A -> string) rs :
  svalues (column_of (fun r => VStr (f r)) rs) = map (fun r => VStr (f r)) rs.
Proof.
  unfold column_of, series_of_values; simpl. rewrite map_map.
  apply map_ext. intros r. destruct infer_dtype; reflexivity.
Qed.

(** Two descriptions of a numeric column that agree up to [==]. *)
Lemma num_series_ext {A} s (f g : A -> Q) l :
  num_series s (map f l) -> (forall x, In x l -> f x == g x) -> num_series s (map g l).
Proof.
  unfold num_series. intros Hs Hfg. revert Hs. generalize (svalues s) as vs.
  induction l as [|x l IH]; intros vs Hs; inversion Hs as [|v ? vs' ? Hv Hvs]; subst;
    simpl; constructor.
  - rewrite <- (Hfg x (or_introl eq_refl)). exact Hv.
  - apply IH; [intros y Hy; apply Hfg; right; exact Hy | exact Hvs].
Qed.

(** ** Bounds *)

Lemma Qabs_scaled z c (B : Z) : (Z.abs z <= B)%Z -> 0 <= c -> Qabs (inject_Z z * c) <= inject_Z B * c.
Proof.
  intros Hz Hc. apply Qabs_Qle_condition.
  assert (H1 : inject_Z (- B) <= inject_Z z) by (rewrite <- Zle_Qle; lia).
  assert (H2 : inject_Z z <= inject_Z B) by (rewrite <- Zle_Qle; lia).
  rewrite inject_Z_opp in H1. split; nra.
Qed.

Lemma code_ranges s :
  (0 <= iucn_code s <= 5 /\ 0 <= endemism_code s <= 2 /\
   0 <= altitude_code s <= 4 /\ 0 <= exploitation_code s <= 3)%Z.
Proof.
  unfold iucn_code, endemism_code, altitude_code, exploitation_code.
  repeat split; destruct_ifs; lia.
Qed.

Lemma rule_ranges h u : (1 <= habitat_rule h <= 4 /\ 1 <= use_rule u <= 5)%Z.
Proof. unfold habitat_rule, use_rule. split; destruct_ifs; lia. Qed.

(** With [|threat_level| <= 2^60], the sum of the absolute values of the
    seven sub-scores, and so every partial sum the code computes, is
    below [2^63]. *)
Lemma spec_sum_abs_bound r :
  (Z.abs (threat_level r) <= 2 ^ 60)%Z ->
  Qabs (spec_iucn_score r) + sum_abs (tl spec_score_fns) r < inject_Z (2 ^ 63).
Proof.
  intros Ht. unfold sum_abs, spec_score_fns; cbn [tl fold_right].
  destruct (code_ranges (iucn_status r)) as (Hi & _).
  destruct (code_ranges (endemism r)) as (_ & He & _).
  destruct (code_ranges (altitudinal_range r)) as (_ & _ & Ha & _).
  destruct (code_ranges (exploitation r)) as (_ & _ & _ & Hx).
  destruct (rule_ranges (habitat_specificity r) (use_value r)) as (Hh & Hu).
  unfold spec_iucn_score, spec_endemism_score, spec_threat_score, spec_altitude_score,
    spec_exploitation_score, spec_habitat_score, spec_use_score.
  pose proof (Qabs_scaled (iucn_code (iucn_status r)) 3 5 ltac:(lia) ltac:(lra)).
  pose proof (Qabs_scaled (endemism_code (endemism r)) 2 2 ltac:(lia) ltac:(lra)).
  pose proof (Qabs_scaled _ 3 _ Ht ltac:(lra)).
  pose proof (Qabs_scaled (altitude_code (altitudinal_range r)) 1 4 ltac:(lia) ltac:(lra)).
  pose proof (Qabs_scaled (exploitation_code (exploitation r)) 2 3 ltac:(lia) ltac:(lra)).
  pose proof (Qabs_scaled (habitat_rule (habitat_specificity r)) (3 # 2) 4 ltac:(lia) ltac:(lra)).
  pose proof (Qabs_scaled (use_rule (use_value r)) (3 # 2) 5 ltac:(lia) ltac:(lra)).
  replace (inject_Z (2 ^ 60)) with (1152921504606846976 # 1) in * by reflexivity.
  replace (inject_Z (2 ^ 63)) with (9223372036854775808 # 1) by reflexivity.
  unfold inject_Z in *. lra.
Qed.

Lemma dict_scaled_in_int64 d m k v :
  Forall (fun p => (0 <= snd p <= m)%Z) d -> (0 <= m <= 15)%Z -> (0 <= k <= 3)%Z ->
  q_in_int64 (inject_Z (dict_code d v) * inject_Z k).
Proof.
  intros Hd Hm Hk. pose proof (dict_code_range d m v Hd ltac:(lia)).
  apply small_q_in_int64; [lia|].
  split; [change 0 with (inject_Z 0) | change 3 with (inject_Z 3)]; rewrite <- Zle_Qle; lia.
Qed.

Lemma threat_in_int64 t : (Z.abs t <= 2 ^ 60)%Z -> q_in_int64 (inject_Z t * inject_Z 3).
Proof.
  intros Ht. apply Qabs_q_in_int64. eapply Qle_lt_trans; [apply (Qabs_scaled t _ _ Ht)|].
  - unfold inject_Z; lra.
  - reflexivity.
Qed.

Ltac rw_cols := repeat (rewrite get_set_same || (rewrite get_set_other by discriminate)).
Ltac read_col := rw_cols; try reflexivity.

Ltac run_step E := rewrite E, bind_Ok; cbv beta.

(** ** Each step on the frame of a list of records *)

Lemma map_score_spec d k code fld (f : species -> Q) rs :
  Forall (fun p => (0 <= snd p <= 5)%Z) d -> (0 <= k <= 3)%Z ->
  (forall s, dict_code d (VStr s) = code s) ->
  (forall r, f r == inject_Z (code (fld r)) * inject_Z k) ->
  exists c, map_score d k (column_of (fun r => VStr (fld r)) rs) = Ok c /\ num_series c (map f rs).
Proof.
  intros Hd Hk Hcode Hf.
  destruct (map_score_num d k (column_of (fun r => VStr (fld r)) rs)) as (c & Ec & Nc).
  { intros v. apply (dict_scaled_in_int64 _ 5); [exact Hd | lia | exact Hk]. }
  exists c. split; [exact Ec|].
  rewrite column_of_str, map_map in Nc. apply (num_series_ext _ _ _ _ Nc).
  intros r _. rewrite Hf, Hcode. reflexivity.
Qed.

Lemma threat_score_spec rs :
  (forall r, In r rs -> (Z.abs (threat_level r) <= 2 ^ 60)%Z) ->
  exists c, threat_score (column_of (fun r => VInt (threat_level r)) rs) = Ok c /\
            num_series c (map spec_threat_score rs).
Proof.
  intros Hb.
  destruct (threat_score_num (column_of (fun r => VInt (threat_level r)) rs)
              (map (fun r => inject_Z (threat_level r)) rs)) as (c & Ec & Nc).
  - apply column_of_num. intros r. reflexivity.
  - rewrite Forall_forall. intros q Hq. apply in_map_iff in Hq as (r & <- & Hr).
    apply threat_in_int64, Hb, Hr.
  - exists c. split; [exact Ec|]. rewrite map_map in Nc.
    apply (num_series_ext _ _ _ _ Nc). intros r _. reflexivity.
Qed.

Lemma apply_score_spec lam g rule fld (f : species -> Q) rs :
  (forall v q, num_rel v q -> lam v = Ok (VInt (g q))) ->
  (forall q, (1 <= g q <= 5)%Z) ->
  (forall z, g (inject_Z z) = rule z) ->
  (forall r, f r == inject_Z (rule (fld r)) * (3 # 2)) ->
  exists c, apply_score lam (column_of (fun r => VInt (fld r)) rs) = Ok c /\
            num_series c (map f rs).
Proof.
  intros Hlam Hg Hrule Hf.
  destruct (apply_score_num lam g (column_of (fun r => VInt (fld r)) rs)
              (map (fun r => inject_Z (fld r)) rs))
    as (c & Ec & Nc); [apply column_of_num; intros r; reflexivity | exact Hlam | exact Hg |].
  exists c. split; [exact Ec|]. rewrite map_map in Nc.
  apply (num_series_ext _ _ _ _ Nc). intros r _. rewrite Hf, Hrule. reflexivity.
Qed.

Ltac run_asg E := erewrite read_assign_ok; [rewrite bind_Ok | read_col | exact E].

(** What the scored frame holds: each sub-score column, the total and the
    label agree, row by row, with the specification. *)
Definition scored_as (out : frame) (rs : list species) : Prop :=
  Forall2 (fun k f => exists s, get_col out k = Ok s /\ num_series s (map f rs))
    score_columns spec_score_fns /\
  (exists t, get_col out "Total_Score" = Ok t /\ num_series t (map spec_total rs)) /\
  (exists p, get_col out "Priority" = Ok p /\
     svalues p = map (fun r => VStr (priority_name (spec_priority (spec_total r)))) rs).

(** The threat levels for which the theorems on frames of records are
    stated: [|t| <= 2^50].  Then [3 t] fits in [int64] (no wrap-around),
    and every total, a multiple of [1/2] of absolute value below [2^52], is
    a binary64 number, so that the exact rationals of the model are the
    floats the program computes. *)
Definition threat_bounded (r : species) : Prop := (Z.abs (threat_level r) <= 2 ^ 50)%Z.

(** The two records of the sample file of the downloads tab (lines 175-184). *)
Definition species_A : species :=
  mkSpecies "Species A" "Endangered" "Yes" 3 "501-1000" "Local use" 2 2.
Definition species_B : species :=
  mkSpecies "Species B" "Vulnerable" "No" 2 "1001-1500" "Not exploited" 1 1.

(** ** Refinement *)

(** The run of [score_species] on the frame of a list of records. *)
Lemma score_frame_of_species rs :
  Forall (fun r => (Z.abs (threat_level r) <= 2 ^ 60)%Z) rs ->
  exists out, score_species (frame_of_species rs) = Ok out /\ scored_as out rs.
Proof.
  intros Hb. rewrite Forall_forall in Hb.
  destruct (map_score_spec IUCN_map 3 iucn_code iucn_status spec_iucn_score rs
              ltac:(forall_lia) ltac:(lia) iucn_dict_code ltac:(reflexivity)) as (c1 & E1 & N1).
  destruct (map_score_spec Endemism_map 2 endemism_code endemism spec_endemism_score rs
              ltac:(forall_lia) ltac:(lia) endemism_dict_code ltac:(reflexivity)) as (c2 & E2 & N2).
  destruct (threat_score_spec rs Hb) as (c3 & E3 & N3).
  destruct (map_score_spec Altitude_map 1 altitude_code altitudinal_range spec_altitude_score rs
              ltac:(forall_lia) ltac:(lia) altitude_dict_code ltac:(reflexivity)) as (c4 & E4 & N4).
  destruct (map_score_spec Exploitation_map 2 exploitation_code exploitation
              spec_exploitation_score rs ltac:(forall_lia) ltac:(lia) exploitation_dict_code
              ltac:(reflexivity)) as (c5 & E5 & N5).
  destruct (apply_score_spec habitat_lambda habitat_code habitat_rule habitat_specificity
              spec_habitat_score rs habitat_lambda_num
              ltac:(intros q; pose proof (habitat_code_range q); lia)
              habitat_code_inject ltac:(reflexivity)) as (c6 & E6 & N6).
  destruct (apply_score_spec use_lambda use_code use_rule use_value spec_use_score rs
              use_lambda_num use_code_range use_code_inject ltac:(reflexivity)) as (c7 & E7 & N7).
  set (df7 := set_col (set_col (set_col (set_col (set_col (set_col (set_col
                (frame_of_species rs) "IUCN_Score" c1) "Endemism_Score" c2) "Threat_Score" c3)
                "Altitude_Score" c4) "Exploitation_Score" c5) "Habitat_Score" c6) "Use_Score" c7).
  assert (R : run_assignments subscore_assignments (frame_of_species rs) = Ok df7).
  { cbn [run_assignments subscore_assignments].
    run_asg E1. run_asg E2. run_asg E3. run_asg E4. run_asg E5. run_asg E6. run_asg E7.
    reflexivity. }
  destruct (sum_cols_rows rs df7 (tl score_columns) (tl spec_score_fns) c1 spec_iucn_score N1)
    as (t & Et & Nt).
  { cbn [tl score_columns spec_score_fns].
    repeat (apply Forall2_cons; [eexists; split; [read_col | eassumption] |]).
    apply Forall2_nil. }
  { intros r Hr. apply spec_sum_abs_bound, Hb, Hr. }
  set (df8 := set_col df7 "Total_Score" t).
  assert (Nt' : num_series t (map spec_total rs))
    by (apply (num_series_ext _ _ _ _ Nt); intros r _; reflexivity).
  destruct (priority_step_num df8 t _ ltac:(read_col) Nt') as (p & Ep & Np).
  exists (set_col df8 "Priority" p). split.
  - unfold score_species, copy. rewrite R, bind_Ok.
    unfold total_step. subst df8 df7. rw_cols. rewrite bind_Ok, Et, bind_Ok. exact Ep.
  - unfold scored_as. split; [|split].
    + unfold score_columns, spec_score_fns.
      repeat (apply Forall2_cons; [eexists; split; [read_col | eassumption] |]).
      apply Forall2_nil.
    + exists t. split; [read_col | exact Nt'].
    + exists p. split; [read_col|]. rewrite Np, map_map.
      apply map_ext. intros r. rewrite priority_label_spec. reflexivity.
Qed.

Lemma threat_bounded_60 rs :
  Forall threat_bounded rs -> Forall (fun r => (Z.abs (threat_level r) <= 2 ^ 60)%Z) rs.
Proof. apply Forall_impl. unfold threat_bounded. intros r H. lia. Qed.

(** C1. Refinement of the rule table by [score_species]: on the frame of
    any list of species records whose threat levels are at most [2^50] in
    absolute value ([threat_bounded]), [score_species] succeeds, and row [i] of each of the
    seven sub-score columns, of [Total_Score] and of [Priority] is what the
    specification's rule table, sum and cascade give for record [i]. *)
Theorem score_species_refines rs :
  Forall threat_bounded rs ->
  exists out, score_species (frame_of_species rs) = Ok out /\ scored_as out rs.
Proof. intros Hb. apply score_frame_of_species, threat_bounded_60, Hb. Qed.

Lemma num_series_nth s (f : species -> Q) rs i r :
  num_series s (map f rs) -> nth_error rs i = Some r ->
  exists v, nth_error (svalues s) i = Some v /\ num_rel v (f r).
Proof.
  intros H Hi. apply (Forall2_nth_error_r _ _ _ i (f r) H). rewrite nth_error_map, Hi. reflexivity.
Qed.

(** Row [i] of a scored frame. *)
Lemma scored_as_row out rs i r :
  scored_as out rs -> nth_error rs i = Some r ->
  Forall2 (fun k f => exists s v, get_col out k = Ok s /\ nth_error (svalues s) i = Some v /\
                                  num_rel v (f r))
          (score_columns ++ ["Total_Score"])%list (spec_score_fns ++ [spec_total])%list /\
  exists p, get_col out "Priority" = Ok p /\
            nth_error (svalues p) i = Some (VStr (priority_name (spec_priority (spec_total r)))).
Proof.
  intros (HF & (t & Ht & Nt) & (p & Hp & Ep)) Hi. split.
  - apply Forall2_app; [|constructor; [|constructor]].
    + eapply Forall2_impl; [|exact HF]. intros k f (s & Hs & Ns).
      destruct (num_series_nth s f rs i r Ns Hi) as (v & Hv & Nv). eauto.
    + destruct (num_series_nth t spec_total rs i r Nt Hi) as (v & Hv & Nv). eauto.
  - exists p. split; [exact Hp|]. rewrite Ep, nth_error_map, Hi. reflexivity.
Qed.

(** C2. Records are scored independently: on the frame of any list of
    records whose threat levels are at most [2^50] in absolute value, row
    [i] of each of the nine computed columns is equal (Python [==]) to the
    row of the same column when record [i] is scored alone, as the
    single-entry tab does. *)
Theorem score_species_batch_independent rs i r :
  Forall threat_bounded rs -> nth_error rs i = Some r ->
  exists out out1,
    score_species (frame_of_species rs) = Ok out /\
    score_species (frame_of_species [r]) = Ok out1 /\
    Forall (fun k => exists s s1 v v1,
              get_col out k = Ok s /\ get_col out1 k = Ok s1 /\
              nth_error (svalues s) i = Some v /\ nth_error (svalues s1) 0 = Some v1 /\
              py_eq v v1 = true) computed_columns.
Proof.
  intros Hb Hi. apply threat_bounded_60 in Hb.
  destruct (score_frame_of_species rs Hb) as (out & E & Hs).
  assert (Hb1 : Forall (fun r => (Z.abs (threat_level r) <= 2 ^ 60)%Z) [r]).
  { constructor; [|constructor]. rewrite Forall_forall in Hb. apply Hb.
    eapply nth_error_In. exact Hi. }
  destruct (score_frame_of_species [r] Hb1) as (out1 & E1 & Hs1).
  exists out, out1. split; [exact E|]. split; [exact E1|].
  destruct (scored_as_row _ _ _ _ Hs Hi) as (HF & p & Hp & Hpi).
  destruct (scored_as_row _ _ 0 r Hs1 eq_refl) as (HF1 & p1 & Hp1 & Hpi1).
  change computed_columns with ((score_columns ++ ["Total_Score"]) ++ ["Priority"])%list.
  apply Forall_app. split.
  - apply (Forall2_both _ _ _ _ _ HF HF1).
    intros k f (s & v & Hs' & Hv & Nv) (s1 & v1 & Hs1' & Hv1 & Nv1).
    exists s, s1, v, v1. repeat split; try assumption. eapply py_eq_num; eassumption.
  - constructor; [|constructor]. exists p, p1. eexists _, _. repeat split; try eassumption.
    apply py_eq_str.
Qed.

Lemma score_species_refines_witness :
  Forall threat_bounded [species_A; species_B] /\
  exists out, score_species (frame_of_species [species_A; species_B]) = Ok out /\
              scored_as out [species_A; species_B].
Proof.
  assert (H : Forall threat_bounded [species_A; species_B])
    by (unfold threat_bounded; forall_lia).
  split; [exact H | apply (score_species_refines _ H)].
Defined.

Lemma score_species_batch_independent_witness :
  Forall threat_bounded [species_A; species_B] /\
  nth_error [species_A; species_B] 1 = Some species_B /\
  exists out out1,
    score_species (frame_of_species [species_A; species_B]) = Ok out /\
    score_species (frame_of_species [species_B]) = Ok out1 /\
    Forall (fun k => exists s s1 v v1,
              get_col out k = Ok s /\ get_col out1 k = Ok s1 /\
              nth_error (svalues s) 1 = Some v /\ nth_error (svalues s1) 0 = Some v1 /\
              py_eq v v1 = true) computed_columns.
Proof.
  assert (H : Forall threat_bounded [species_A; species_B])
    by (unfold threat_bounded; forall_lia).
  split; [exact H | split; [reflexivity | apply (score_species_batch_independent _ 1 _ H eq_refl)]].
Defined.

(** ** The label cascade on every cell *)

Lemma spec_priority_range q : priority_range q (spec_priority q).
Proof.
  unfold spec_priority, priority_range.
  destruct (Qle_bool 39 q) eqn:E1; [apply Qle_bool_iff; exact E1|].
  apply not_true_iff_false in E1. rewrite Qle_bool_iff in E1. apply Qnot_le_lt in E1.
  destruct (Qle_bool 32 q) eqn:E2; [split; [apply Qle_bool_iff; exact E2 | exact E1]|].
  apply not_true_iff_false in E2. rewrite Qle_bool_iff in E2. apply Qnot_le_lt in E2.
  destruct (Qle_bool 24 q) eqn:E3; [split; [apply Qle_bool_iff; exact E3 | exact E2]|].
  apply not_true_iff_false in E3. rewrite Qle_bool_iff in E3. apply Qnot_le_lt in E3. exact E3.
Qed.

(** C10. The label cascade on every kind of cell: on a number [q] it is
    the name of the first threshold that [q] reaches ([>= 39] Critical,
    else [>= 32] High, else [>= 24] Medium, else Low), and that label is
    the one whose range holds [q]; on NaN it is ["Low"]; on a string it
    raises [TypeError]. *)
Theorem priority_lambda_cascade v :
  (forall q, num_rel v q ->
     priority_lambda v = Ok (VStr (priority_name (spec_priority q))) /\
     priority_range q (spec_priority q)) /\
  (v = VNaN -> priority_lambda v = Ok (VStr "Low")) /\
  (is_str v = true -> priority_lambda v = Err TypeError).
Proof.
  split; [|split].
  - intros q Hq. split; [|apply spec_priority_range].
    rewrite (priority_lambda_num v q Hq), priority_label_spec. reflexivity.
  - intros ->. reflexivity.
  - destruct v; simpl; try discriminate. reflexivity.
Qed.

(** The boundary values of the specification's tests: exactly [39] is
    Critical, [38.999] High, [32] High, [31.999] Medium, [24] Medium,
    [23.999] Low. *)
Lemma priority_lambda_cascade_witness :
  priority_lambda (VInt 39) = Ok (VStr "Critical") /\
  priority_lambda (VFloat (38999 # 1000)) = Ok (VStr "High") /\
  priority_lambda (VFloat 32) = Ok (VStr "High") /\
  priority_lambda (VFloat (31999 # 1000)) = Ok (VStr "Medium") /\
  priority_lambda (VInt 24) = Ok (VStr "Medium") /\
  priority_lambda (VFloat (23999 # 1000)) = Ok (VStr "Low") /\
  priority_lambda VNaN = Ok (VStr "Low") /\
  priority_lambda (VStr "41") = Err TypeError.
Proof.
  repeat match goal with |- _ /\ _ => split end;
    match goal with
    | |- priority_lambda (VInt ?z) = _ =>
        exact (proj1 (proj1 (priority_lambda_cascade (VInt z)) (inject_Z z) (Qeq_refl _)))
    | |- priority_lambda (VFloat ?q) = _ =>
        exact (proj1 (proj1 (priority_lambda_cascade (VFloat q)) q (Qeq_refl _)))
    | |- priority_lambda VNaN = _ => exact (proj1 (proj2 (priority_lambda_cascade VNaN)) eq_refl)
    | |- priority_lambda (VStr ?s) = _ =>
        exact (proj2 (proj2 (priority_lambda_cascade (VStr s))) eq_refl)
    end.
Defined.

End Spec.
