(* ===== verification/Engine.v ===== *)
(** * [score_species] on arbitrary frames

    The frames the bulk tab scores come from an uploaded CSV: any columns,
    any cells.  This file states what [Scoring.score_species] does on such
    frames, for the parts of its behaviour the specification leaves to the
    caller or does not cover:
    - [required_columns]: the seven input columns, in the order the code
      reads them;
    - which exception it raises, and when: [KeyError] naming the first
      missing required column ([score_species_missing_column]), and
      [TypeError] exactly when the [Threat_Level] column holds a string
      ([score_species_type_error]);
    - how a missing [Threat_Level] cell (NaN) turns the row's label into
      ["Low"] whatever its other scores ([score_species_nan_threat_low]);
    - that only the seven input columns are read
      ([score_species_reads_only_inputs]) and that scoring is idempotent
      ([score_species_idempotent]).
    The generic lemmas on [run_assignments] (a Section whose hypotheses
    are that every expression succeeds and that no assignment writes a
    column a later one reads) come first. *)

From Stdlib Require Import ZArith QArith Qabs Lqa String List Lia.
From S2P Require Import Prelude PyValue Series Frame Scoring Wellformed Spec.
Import ListNotations.
Open Scope py_scope.
Open Scope string_scope.

Module Engine.
Import PyValue Series Frame Scoring Wellformed Spec.

Abbreviation assignment := (string * string * (series -> pyresult series))%type.

(** The input columns [score_species] reads, in the order it reads them. *)
Definition required_columns : list string :=
  ["IUCN_Status"; "Endemism"; "Threat_Level"; "Altitudinal_Range";
   "Exploitation"; "Habitat_Specificity"; "Use_Value"].

Definition asg_srcs (asg : list assignment) : list string := map (fun a => fst (fst a)) asg.
Definition asg_dsts (asg : list assignment) : list string := map (fun a => snd (fst a)) asg.

(** ** Runs of assignments *)

Section Assignments.
Variable asg : list assignment.
Hypothesis total : forall a, In a asg -> forall s, exists r, snd a s = Ok r.
Hypothesis disjoint : forall x, In x (asg_srcs asg) -> ~ In x (asg_dsts asg).

Lemma run_assignments_missing df k :
  find (fun k => negb (has_col df k)) (asg_srcs asg) = Some k ->
  run_assignments asg df = Err (KeyError [k]).
Proof.
  revert df total disjoint. induction asg as [|[[src dst] e] rest IH]; intros df Htot Hdis Hfind;
    simpl in *; [discriminate|].
  destruct (has_col df src) eqn:Hsrc; simpl in Hfind.
  - apply has_col_get in Hsrc as (s & Hs).
    destruct (Htot _ (or_introl eq_refl) s) as (r & Hr). simpl in Hr.
    rewrite (read_assign_ok _ _ _ _ _ _ Hs Hr), bind_Ok.
    apply IH.
    + intros a Ha. apply Htot. right. exact Ha.
    + intros x Hx Hx'. apply (Hdis x); right; assumption.
    + rewrite <- Hfind. apply find_ext_in. intros x Hx.
      rewrite has_col_set_col. destruct (String.eqb x dst) eqn:E; [|reflexivity].
      apply String.eqb_eq in E. subst x. exfalso. apply (Hdis dst); [right; exact Hx | left; reflexivity].
  - injection Hfind as <-. rewrite read_assign_missing by exact Hsrc. reflexivity.
Qed.

Lemma run_assignments_ok df :
  Forall (fun x => has_col df x = true) (asg_srcs asg) ->
  exists cs, run_assignments asg df = Ok (set_cols df (combine (asg_dsts asg) cs)) /\
             Forall2 (fun a c => exists s, get_col df (fst (fst a)) = Ok s /\ snd a s = Ok c) asg cs.
Proof.
  revert df total disjoint. induction asg as [|[[src dst] e] rest IH]; intros df Htot Hdis Hhas;
    simpl in *.
  - exists []. split; [reflexivity | constructor].
  - apply Forall_cons_iff in Hhas as [Hsrc Hrest].
    apply has_col_get in Hsrc as (s & Hs).
    destruct (Htot _ (or_introl eq_refl) s) as (r & Hr). simpl in Hr.
    rewrite (read_assign_ok _ _ _ _ _ _ Hs Hr), bind_Ok.
    assert (Hkeep : forall x, In x (asg_srcs rest) -> get_col (set_col df dst r) x = get_col df x).
    { intros x Hx. apply get_set_other. intros Heq. subst x.
      apply (Hdis dst); [right; exact Hx | left; reflexivity]. }
    destruct (IH (set_col df dst r)) as (cs & Hrun & HF).
    + intros a Ha. apply Htot. right. exact Ha.
    + intros x Hx Hx'. apply (Hdis x); right; assumption.
    + rewrite Forall_forall in Hrest |- *. intros x Hx.
      rewrite has_col_set_col, Hrest by exact Hx. apply orb_true_r.
    + exists (r :: cs). split; [exact Hrun|]. constructor; [exists s; split; assumption|].
      eapply Forall2_impl_in; [|exact HF].
      intros a c Ha (s' & Hs' & Hc). exists s'. split; [|exact Hc].
      rewrite <- Hkeep; [exact Hs' | apply (in_map (fun a => fst (fst a))); exact Ha].
Qed.

(** Two frames that agree on the columns the assignments read are
    changed by the same column values. *)
Lemma run_assignments_agree df1 df2 :
  (forall x, In x (asg_srcs asg) -> get_col df1 x = get_col df2 x) ->
  match run_assignments asg df1, run_assignments asg df2 with
  | Ok d1, Ok d2 => exists kcs, d1 = set_cols df1 kcs /\ d2 = set_cols df2 kcs /\
                                map fst kcs = asg_dsts asg
  | Err e1, Err e2 => e1 = e2
  | _, _ => False
  end.
Proof.
  clear total. revert df1 df2 disjoint.
  induction asg as [|[[src dst] e] rest IH]; intros df1 df2 Hdis Hag;
    simpl in *; [exists []; auto|].
  unfold read_assign. rewrite <- (Hag src (or_introl eq_refl)).
  destruct (get_col df1 src) as [s|err]; simpl; [|reflexivity].
  destruct (e s) as [r|err]; simpl; [|reflexivity].
  assert (Hag' : forall x, In x (asg_srcs rest) ->
                 get_col (set_col df1 dst r) x = get_col (set_col df2 dst r) x).
  { intros x Hx. destruct (string_dec dst x) as [<- | Hne].
    - exfalso. apply (Hdis dst); [right; exact Hx | left; reflexivity].
    - rewrite !get_set_other by exact Hne. apply Hag. right. exact Hx. }
  specialize (IH (set_col df1 dst r) (set_col df2 dst r)
                 (fun x Hx Hx' => Hdis x (or_intror Hx) (or_intror Hx')) Hag').
  destruct (run_assignments rest (set_col df1 dst r)),
           (run_assignments rest (set_col df2 dst r)); try contradiction; [|exact IH].
  destruct IH as (kcs & -> & -> & Hk). exists ((dst, r) :: kcs). simpl. rewrite Hk. auto.
Qed.

End Assignments.

(** ** The seven sub-score assignments *)

Lemma map_score_any d k s :
  exists r, map_score d k s = Ok r /\ has_str r = false /\ length (svalues r) = length (svalues s).
Proof.
  unfold map_score.
  destruct (s_mul_nostr _ (SInt k) (s_map_dict_fillna_nostr d s)) as (r & Hr & Hs & Hl).
  exists r. rewrite Hl, s_map_dict_fillna_length. auto.
Qed.

Lemma map_score_all_num d k s r : map_score d k s = Ok r -> all_num r = true.
Proof.
  unfold map_score. intros H.
  destruct (s_mul_all_num _ (SInt k) (s_map_dict_fillna_all_num d s)) as (r' & Hr' & Hn).
  rewrite Hr' in H. inv_ok. exact Hn.
Qed.

Lemma threat_score_any s :
  exists r, threat_score s = Ok r /\ has_str r = has_str s /\ length (svalues r) = length (svalues s).
Proof.
  unfold threat_score. destruct (s_mul_int s 3) as (r & Hr & Hs & Hl).
  exists r. split; [exact Hr|]. split; [apply map_is_str_has_str; exact Hs | exact Hl].
Qed.

Lemma apply_score_any f s :
  (forall v, exists z, f v = Ok (VInt z) /\ in_int64 z = true) ->
  exists r, apply_score f s = Ok r /\ has_str r = false /\ length (svalues r) = length (svalues s).
Proof.
  intros Hf. unfold apply_score. destruct (s_apply_int_any f s Hf) as (a & Ha & Hs & Hl).
  rewrite Ha, bind_Ok. destruct (s_mul_nostr a (SFloat (3 # 2)) Hs) as (r & Hr & Hs' & Hl').
  exists r. rewrite Hl', Hl. auto.
Qed.

Lemma habitat_lambda_int v : exists z, habitat_lambda v = Ok (VInt z) /\ in_int64 z = true.
Proof. unfold habitat_lambda. eexists; split; [reflexivity|]. destruct_ifs; reflexivity. Qed.

Lemma use_lambda_int v : exists z, use_lambda v = Ok (VInt z) /\ in_int64 z = true.
Proof. unfold use_lambda. eexists; split; [reflexivity|]. destruct_ifs; reflexivity. Qed.

Lemma subscore_total a : In a subscore_assignments -> forall s, exists r, snd a s = Ok r.
Proof.
  intros Ha s. simpl in Ha. repeat destruct Ha as [<- | Ha]; try contradiction; simpl;
    match goal with
    | |- exists r, map_score ?d ?k s = Ok r => destruct (map_score_any d k s) as (r & Hr & _)
    | |- exists r, threat_score s = Ok r => destruct (threat_score_any s) as (r & Hr & _)
    | |- exists r, apply_score habitat_lambda s = Ok r =>
        destruct (apply_score_any _ s habitat_lambda_int) as (r & Hr & _)
    | |- exists r, apply_score use_lambda s = Ok r =>
        destruct (apply_score_any _ s use_lambda_int) as (r & Hr & _)
    end; eauto.
Qed.

Lemma subscore_disjoint x :
  In x (asg_srcs subscore_assignments) -> ~ In x (asg_dsts subscore_assignments).
Proof.
  intros Hx. simpl in Hx. repeat destruct Hx as [<- | Hx]; try contradiction;
    apply not_In_eqb; reflexivity.
Qed.

(** Facts about one assignment of a well-formed frame: the column it
    writes has [n] cells, and no string unless it is [Threat_Score] and
    [Threat_Level] has one. *)
Ltac assignment_facts Hwf :=
  repeat match goal with
  | H : exists s, get_col ?df ?src = Ok s /\ ?e s = Ok ?c |- _ =>
      let s := fresh "s" in let Hs := fresh "Hs" in let Hc := fresh "Hc" in
      destruct H as (s & Hs & Hc);
      let Hl := fresh "Hlen" in
      pose proof (proj2 (get_col_wf _ _ _ _ Hwf Hs)) as Hl;
      let r := fresh "r" in let Hr := fresh "Hr" in
      let Hstr := fresh "Hstr" in let Hlr := fresh "Hlr" in
      lazymatch e with
      | map_score ?d ?k => destruct (map_score_any d k s) as (r & Hr & Hstr & Hlr)
      | threat_score => destruct (threat_score_any s) as (r & Hr & Hstr & Hlr)
      | apply_score habitat_lambda =>
          destruct (apply_score_any _ s habitat_lambda_int) as (r & Hr & Hstr & Hlr)
      | apply_score use_lambda =>
          destruct (apply_score_any _ s use_lambda_int) as (r & Hr & Hstr & Hlr)
      end;
      rewrite Hr in Hc; injection Hc as Hc; subst c
  end.

Lemma subscores_run n df s3 :
  frame_wf n df -> Forall (fun k => has_col df k = true) required_columns ->
  get_col df "Threat_Level" = Ok s3 ->
  exists c1 c2 c3 c4 c5 c6 c7,
    run_assignments subscore_assignments df =
      Ok (set_cols df (combine score_columns [c1; c2; c3; c4; c5; c6; c7])) /\
    threat_score s3 = Ok c3 /\ has_str c3 = has_str s3 /\
    all_num c1 = true /\ all_num c2 = true /\
    Forall (fun c => has_str c = false) [c1; c2; c4; c5; c6; c7] /\
    Forall (fun c => length (svalues c) = n) [c1; c2; c3; c4; c5; c6; c7].
Proof.
  intros Hwf Hhas H3.
  destruct (run_assignments_ok _ subscore_total subscore_disjoint df Hhas) as (cs & Hrun & HF).
  unfold subscore_assignments in HF.
  repeat match goal with
         | H : Forall2 _ (_ :: _) _ |- _ => inversion H; subst; clear H
         | H : Forall2 _ [] _ |- _ => inversion H; subst; clear H
         end.
  cbn [fst snd] in *. assignment_facts Hwf.
  rewrite H3 in * |-. inv_ok.
  do 7 eexists. split; [exact Hrun|]. split; [eassumption|]. split; [eassumption|].
  split; [eapply map_score_all_num; eassumption|]. split; [eapply map_score_all_num; eassumption|].
  split; repeat constructor; first [assumption | congruence].
Qed.

(** ** The sum and the label on columns without strings *)

Lemma sum_cols_cons df acc k ks :
  sum_cols df acc (k :: ks) = let* s := get_col df k in let* acc' := s_add acc s in
                              sum_cols df acc' ks.
Proof. reflexivity. Qed.

Lemma sum_cols_nostr df acc ks n :
  has_str acc = false -> length (svalues acc) = n ->
  Forall (fun k => exists s, get_col df k = Ok s /\ has_str s = false /\
                             length (svalues s) = n) ks ->
  exists t, sum_cols df acc ks = Ok t /\ has_str t = false /\ length (svalues t) = n.
Proof.
  intros Ha Hl Hks. revert acc Ha Hl.
  induction Hks as [|k ks (s & Hs & Hss & Hsl) _ IH]; intros acc Ha Hl; simpl.
  - eauto.
  - rewrite Hs, bind_Ok. destruct (s_add_nostr acc s Ha Hss) as (a & Ea & Has & Hal).
    rewrite Ea, bind_Ok. apply IH; [exact Has | rewrite Hal; lia].
Qed.

Lemma sum_cols_str df acc k ks s :
  all_num acc = true -> get_col df k = Ok s -> has_str s = true ->
  length (svalues acc) = length (svalues s) ->
  sum_cols df acc (k :: ks) = Err TypeError.
Proof.
  intros Ha Hs Hss Hl. simpl. rewrite Hs, bind_Ok, s_add_str by assumption. reflexivity.
Qed.

Lemma priority_lambda_nostr v : is_str v = false -> exists u, priority_lambda v = Ok u.
Proof.
  intros Hv. unfold priority_lambda.
  destruct (py_ge_int_ok v 39 Hv) as (b1 & ->). rewrite bind_Ok. destruct b1; [eauto|].
  destruct (py_ge_int_ok v 32 Hv) as (b2 & ->). rewrite bind_Ok. destruct b2; [eauto|].
  destruct (py_ge_int_ok v 24 Hv) as (b3 & ->). rewrite bind_Ok. destruct b3; eauto.
Qed.

Lemma s_apply_priority_ok t : has_str t = false -> exists p, s_apply priority_lambda t = Ok p.
Proof.
  intros Ht. apply has_str_false_iff in Ht. rewrite Forall_forall in Ht. unfold s_apply.
  destruct (svalues t) as [|v vs] eqn:Ev; [eauto|]. rewrite <- Ev.
  destruct (mapM_total priority_lambda (fun _ _ => True) (svalues t)) as (us & Hus & _).
  { intros x Hx. rewrite Ev in Hx. destruct (priority_lambda_nostr x (Ht x Hx)) as (u & Hu). eauto. }
  rewrite Hus. simpl. eauto.
Qed.

Ltac forall_facts :=
  repeat match goal with
         | H : Forall _ (_ :: _) |- _ => apply Forall_cons_iff in H as [? H]
         | H : Forall _ [] |- _ => clear H
         end.

(** C5. Errors on arbitrary frames, the missing-column case: when one of
    the seven input columns the code reads is absent, [score_species]
    raises [KeyError] naming the first absent one in the order the code
    reads them ([IUCN_Status], [Endemism], [Threat_Level],
    [Altitudinal_Range], [Exploitation], [Habitat_Specificity],
    [Use_Value]); the other absent columns are not reported. *)
Theorem score_species_missing_column df k :
  find (fun k => negb (has_col df k)) required_columns = Some k ->
  score_species df = Err (KeyError [k]).
Proof.
  intros H. unfold score_species, copy.
  rewrite (run_assignments_missing subscore_assignments subscore_total subscore_disjoint df k H).
  reflexivity.
Qed.

(** A column assignment of [set_cols df kcs], read back. *)
Ltac in_combine := simpl; repeat first [left; reflexivity | right].

(** The run of [score_species] on a frame whose [Threat_Level] holds no
    string: every step succeeds, and the structure of the result. *)
Lemma score_species_nostr_run n df s :
  frame_wf n df -> Forall (fun k => has_col df k = true) required_columns ->
  get_col df "Threat_Level" = Ok s -> has_str s = false ->
  exists df7 c1 t p,
    score_species df = Ok (set_col (set_col df7 "Total_Score" t) "Priority" p) /\
    get_col df7 "IUCN_Score" = Ok c1 /\ sum_cols df7 c1 (tl score_columns) = Ok t /\
    s_apply priority_lambda t = Ok p /\
    (exists c3, get_col df7 "Threat_Score" = Ok c3 /\ threat_score s = Ok c3) /\
    Forall (fun k => exists c, get_col df7 k = Ok c /\ length (svalues c) = n) score_columns.
Proof.
  intros Hwf Hhas Hs Hstr.
  destruct (subscores_run n df s Hwf Hhas Hs)
    as (c1 & c2 & c3 & c4 & c5 & c6 & c7 & Hrun & Ht3 & H3 & _ & _ & Hns & Hlen).
  forall_facts.
  assert (Hget : forall k c, In (k, c) (combine score_columns [c1; c2; c3; c4; c5; c6; c7]) ->
            get_col (set_cols df (combine score_columns [c1; c2; c3; c4; c5; c6; c7])) k = Ok c)
    by (intros k c Hin; apply get_set_cols_in; [apply nodupb_NoDup; reflexivity | exact Hin]).
  destruct (sum_cols_nostr (set_cols df (combine score_columns [c1; c2; c3; c4; c5; c6; c7]))
              c1 (tl score_columns) n ltac:(assumption) ltac:(assumption)) as (t & Et & Nt & Lt).
  { cbn [tl score_columns]. repeat constructor; eexists;
      (split; [apply Hget; in_combine|]); split; first [congruence | eassumption]. }
  destruct (s_apply_priority_ok t Nt) as (p & Ep).
  assert (E1 : get_col (set_cols df (combine score_columns [c1; c2; c3; c4; c5; c6; c7]))
                 "IUCN_Score" = Ok c1) by (apply Hget; in_combine).
  eexists _, c1, t, p. split; [|split; [exact E1 | split; [exact Et | split; [exact Ep | split]]]].
  - unfold score_species, copy. rewrite Hrun, bind_Ok. unfold total_step.
    rewrite E1, bind_Ok, Et, !bind_Ok. unfold priority_step, read_assign.
    rewrite get_set_same, bind_Ok, Ep, bind_Ok. reflexivity.
  - exists c3. split; [apply Hget; in_combine | exact Ht3].
  - cbn [score_columns]. repeat constructor; eexists; (split; [apply Hget; in_combine | eassumption]).
Qed.

(** A NaN cell of any summand, or of the first column, makes the row's
    total NaN. *)
Lemma sum_cols_nan df acc ks t i :
  (nth_error (svalues acc) i = Some VNaN \/
   exists k c, In k ks /\ get_col df k = Ok c /\ nth_error (svalues c) i = Some VNaN) ->
  (i < length (svalues acc))%nat ->
  Forall (fun k => exists c, get_col df k = Ok c /\ (i < length (svalues c))%nat) ks ->
  sum_cols df acc ks = Ok t -> nth_error (svalues t) i = Some VNaN.
Proof.
  intros Hn Hl Hks. revert acc Hn Hl.
  induction Hks as [|k ks (c & Hc & Hcl) _ IH]; intros acc Hn Hl H; simpl in H.
  - inv_ok. destruct Hn as [Hn | (k & c & [] & _)]. exact Hn.
  - rewrite Hc, bind_Ok in H. apply bind_eq_Ok in H as (a & Ha & H).
    apply (IH a); [| rewrite (s_add_length _ _ _ Ha); lia | exact H].
    destruct Hn as [Hn | (k' & c' & [<- | Hin] & Hc' & Hn)].
    + left. refine (s_add_nan_at _ _ _ _ _ Ha). left. split; assumption.
    + left. rewrite Hc in Hc'. inv_ok. refine (s_add_nan_at _ _ _ _ _ Ha). right. split; assumption.
    + right. exists k', c'. auto.
Qed.

(** [priority_lambda] labels a NaN total ["Low"]: the three comparisons
    with NaN are false. *)
Lemma s_apply_priority_nan t p i :
  nth_error (svalues t) i = Some VNaN -> s_apply priority_lambda t = Ok p ->
  nth_error (svalues p) i = Some (VStr "Low").
Proof.
  intros Hi H. rewrite s_apply_nonempty in H
    by (intros E; rewrite E in Hi; destruct i; discriminate).
  invert_binds. destruct (mapM_nth_error _ _ _ _ _ H Hi) as (y & Hy & Ey).
  cbv in Ey. inv_ok. unfold series_of_values. simpl. rewrite nth_error_map, Hy.
  destruct (infer_dtype _); reflexivity.
Qed.

(** C4. Errors on arbitrary frames, the type case: on a well-formed frame
    that has the seven input columns, [score_species] raises [TypeError]
    exactly when the [Threat_Level] column holds a string (a non-numeric
    CSV cell makes the whole column strings), and succeeds otherwise.
    Strings in the categorical columns, NaN anywhere, and out-of-range
    numbers never raise. *)
Theorem score_species_type_error n df s :
  frame_wf n df -> Forall (fun k => has_col df k = true) required_columns ->
  get_col df "Threat_Level" = Ok s ->
  (has_str s = true -> score_species df = Err TypeError) /\
  (has_str s = false -> exists out, score_species df = Ok out).
Proof.
  intros Hwf Hhas Hs. split; intros Hstr.
  - destruct (subscores_run n df s Hwf Hhas Hs)
      as (c1 & c2 & c3 & c4 & c5 & c6 & c7 & Hrun & _ & H3 & A1 & A2 & Hns & Hlen).
    forall_facts.
    unfold score_species, copy. rewrite Hrun, bind_Ok. unfold total_step.
    cbn [set_cols combine fold_left score_columns fst snd tl]. rw_cols. rewrite bind_Ok.
    rewrite sum_cols_cons. rw_cols. rewrite bind_Ok.
    destruct (s_add_nostr c1 c2 ltac:(assumption) ltac:(assumption)) as (a2 & E2 & _ & L2).
    destruct (s_add_all_num c1 c2 A1 A2) as (a2' & E2' & N2). rewrite E2 in E2'. inv_ok.
    rewrite E2, bind_Ok.
    erewrite sum_cols_str; [reflexivity | exact N2 | read_col | congruence |].
    rewrite L2. lia.
  - destruct (score_species_nostr_run n df s Hwf Hhas Hs Hstr) as (df7 & c1 & t & p & E & _).
    eauto.
Qed.

(** C6. A missing threat level gives the label ["Low"]: on a well-formed
    frame with the seven input columns whose [Threat_Level] column holds no
    string, a NaN in row [i] of [Threat_Level] (an empty CSV cell) makes
    [score_species] succeed with ["Low"] in row [i] of [Priority], whatever
    the other six criteria of that row are. *)
Theorem score_species_nan_threat_low n df s i :
  frame_wf n df -> Forall (fun k => has_col df k = true) required_columns ->
  get_col df "Threat_Level" = Ok s -> has_str s = false ->
  nth_error (svalues s) i = Some VNaN ->
  exists out p, score_species df = Ok out /\ get_col out "Priority" = Ok p /\
                nth_error (svalues p) i = Some (VStr "Low").
Proof.
  intros Hwf Hhas Hs Hstr Hi.
  destruct (score_species_nostr_run n df s Hwf Hhas Hs Hstr)
    as (df7 & c1 & t & p & E & E1 & Et & Ep & (c3 & E3 & Ht3) & Hcols).
  assert (Hn : (i < n)%nat).
  { rewrite <- (proj2 (get_col_wf _ _ _ _ Hwf Hs)). apply nth_error_Some. congruence. }
  cbn [score_columns] in Hcols.
  assert (L1 : length (svalues c1) = n)
    by (destruct (Forall_inv Hcols) as (c & Ec & Lc); rewrite E1 in Ec; inv_ok; exact Lc).
  eexists _, p. split; [exact E|]. split; [apply get_set_same|].
  apply (s_apply_priority_nan t p i); [|exact Ep].
  apply (sum_cols_nan df7 c1 (tl score_columns) t i); [| lia | | exact Et].
  - right. exists "Threat_Score", c3. split; [simpl; tauto|]. split; [exact E3|].
    exact (s_mul_nan_at _ _ _ _ Hi Ht3).
  - eapply Forall_impl; [|exact (Forall_inv_tail Hcols)].
    intros k (c & Hc & Hl). exists c. split; [exact Hc | lia].
Qed.

(** ** Locality: only the seven input columns are read *)

Lemma sum_cols_ext df1 df2 acc ks :
  (forall k, In k ks -> get_col df1 k = get_col df2 k) -> sum_cols df1 acc ks = sum_cols df2 acc ks.
Proof.
  revert acc. induction ks as [|k ks IH]; intros acc H; simpl; [reflexivity|].
  rewrite (H k (or_introl eq_refl)). destruct (get_col df2 k) as [s|e]; simpl; [|reflexivity].
  destruct (s_add acc s); simpl; [|reflexivity]. apply IH. intros k' Hk'. apply H. right. exact Hk'.
Qed.

(** Two frames that agree on the seven input columns give the same
    outcome: the same exception, or the same nine column values assigned
    to each. *)
Lemma score_species_local df1 df2 :
  (forall k, In k required_columns -> get_col df1 k = get_col df2 k) ->
  match score_species df1, score_species df2 with
  | Ok o1, Ok o2 => exists kcs, o1 = set_cols df1 kcs /\ o2 = set_cols df2 kcs /\
                                map fst kcs = computed_columns
  | Err e1, Err e2 => e1 = e2
  | _, _ => False
  end.
Proof.
  intros Hag. unfold score_species, copy.
  pose proof (run_assignments_agree _ subscore_disjoint df1 df2 Hag) as H.
  destruct (run_assignments subscore_assignments df1) as [d1|e1],
           (run_assignments subscore_assignments df2) as [d2|e2];
    try contradiction; cbn [bind]; [|exact H].
  destruct H as (kcs & -> & -> & Hk).
  assert (Hw : forall k, In k score_columns ->
               get_col (set_cols df1 kcs) k = get_col (set_cols df2 kcs) k)
    by (intros k Hin; apply get_set_cols_agree; right; rewrite Hk; exact Hin).
  unfold total_step. rewrite (Hw "IUCN_Score") by (left; reflexivity).
  destruct (get_col (set_cols df2 kcs) "IUCN_Score") as [c|e]; cbn [bind]; [|reflexivity].
  rewrite (sum_cols_ext _ (set_cols df2 kcs)) by (intros k Hin; apply Hw; right; exact Hin).
  destruct sum_cols as [t|e]; cbn [bind]; [|reflexivity].
  unfold priority_step, read_assign. rewrite !get_set_same. cbn [bind].
  destruct (s_apply priority_lambda t) as [p|e]; cbn [bind]; [|reflexivity].
  exists (kcs ++ [("Total_Score", t); ("Priority", p)])%list.
  unfold set_cols. rewrite !fold_left_app. split; [reflexivity | split; [reflexivity|]].
  rewrite map_app, Hk. reflexivity.
Qed.

Lemma required_not_computed k : In k required_columns -> ~ In k computed_columns.
Proof.
  intros Hk. simpl in Hk. repeat destruct Hk as [<- | Hk]; try contradiction;
    apply not_In_eqb; reflexivity.
Qed.

(** C7. Only the seven input columns matter: two frames with the same
    seven input columns (whatever their other columns, their order, or
    extra columns of the uploaded file) make [score_species] raise the same
    exception, or succeed with the same nine computed columns. *)
Theorem score_species_reads_only_inputs df1 df2 :
  (forall k, In k required_columns -> get_col df1 k = get_col df2 k) ->
  match score_species df1, score_species df2 with
  | Ok o1, Ok o2 => forall k, In k computed_columns -> get_col o1 k = get_col o2 k
  | Err e1, Err e2 => e1 = e2
  | _, _ => False
  end.
Proof.
  intros Hag. pose proof (score_species_local df1 df2 Hag) as H.
  destruct (score_species df1), (score_species df2); try exact H.
  destruct H as (kcs & -> & -> & Hk). intros k Hin.
  apply get_set_cols_agree. right. rewrite Hk. exact Hin.
Qed.

(** C8. Scoring is idempotent: the result of [score_species] has the
    input's seven input columns, and scoring it again gives the same frame;
    the nine computed columns already present are overwritten in place
    with the values they hold. *)
Theorem score_species_idempotent df out :
  score_species df = Ok out ->
  (forall k, In k required_columns -> get_col df k = get_col out k) /\
  score_species out = Ok out.
Proof.
  intros E. destruct (score_species_shape df out E) as (cs & Hlen & Eout).
  assert (Hag : forall k, In k required_columns -> get_col df k = get_col out k).
  { intros k Hk. rewrite Eout, get_set_cols_other; [reflexivity|].
    rewrite map_fst_combine by (symmetry; exact Hlen). apply required_not_computed, Hk. }
  split; [exact Hag|].
  pose proof (score_species_local df out Hag) as H. rewrite E in H.
  destruct (score_species out) as [o2|e]; [|contradiction].
  destruct H as (kcs & E1 & -> & Hk). rewrite E1.
  rewrite set_cols_twice; [reflexivity|]. rewrite Hk. apply nodupb_NoDup. reflexivity.
Qed.


(** ** Witnesses on concrete frames *)

Lemma score_species_missing_column_witness :
  find (fun k => negb (has_col (filter (fun kc => negb (String.eqb (fst kc) "Endemism"))
                                       (frame_of_species [species_A])) k))
       required_columns = Some "Endemism" /\
  score_species (filter (fun kc => negb (String.eqb (fst kc) "Endemism"))
                        (frame_of_species [species_A])) = Err (KeyError ["Endemism"]).
Proof.
  assert (H : find (fun k => negb (has_col (filter (fun kc => negb (String.eqb (fst kc) "Endemism"))
                                                   (frame_of_species [species_A])) k))
                   required_columns = Some "Endemism") by (vm_compute; reflexivity).
  split; [exact H | apply (score_species_missing_column _ _ H)].
Defined.

Lemma score_species_type_error_witness :
  score_species (set_col (frame_of_species [species_A]) "Threat_Level"
                         (series_of_values [VStr "high"])) = Err TypeError /\
  exists out, score_species (frame_of_species [species_A]) = Ok out.
Proof.
  split.
  - set (df := set_col (frame_of_species [species_A]) "Threat_Level"
                       (series_of_values [VStr "high"])).
    assert (H1 : frame_wf 1 df) by (apply frame_wfb_sound; vm_compute; reflexivity).
    assert (H2 : Forall (fun k => has_col df k = true) required_columns)
      by (apply forallb_Forall_iff; vm_compute; reflexivity).
    assert (H3 : get_col df "Threat_Level" = Ok (series_of_values [VStr "high"]))
      by (vm_compute; reflexivity).
    apply (proj1 (score_species_type_error 1 df _ H1 H2 H3)). reflexivity.
  - set (df := frame_of_species [species_A]).
    assert (H1 : frame_wf 1 df) by (apply frame_wfb_sound; vm_compute; reflexivity).
    assert (H2 : Forall (fun k => has_col df k = true) required_columns)
      by (apply forallb_Forall_iff; vm_compute; reflexivity).
    assert (H3 : get_col df "Threat_Level" = Ok (column_of (fun r => VInt (threat_level r)) [species_A]))
      by reflexivity.
    apply (proj2 (score_species_type_error 1 df _ H1 H2 H3)). reflexivity.
Defined.

Lemma score_species_nan_threat_low_witness :
  exists out p,
    score_species (set_col (frame_of_species [species_A; species_A]) "Threat_Level"
                           (series_of_values [VInt 3; VNaN])) = Ok out /\
    get_col out "Priority" = Ok p /\ nth_error (svalues p) 1 = Some (VStr "Low").
Proof.
  set (df := set_col (frame_of_species [species_A; species_A]) "Threat_Level"
                     (series_of_values [VInt 3; VNaN])).
  assert (H1 : frame_wf 2 df) by (apply frame_wfb_sound; vm_compute; reflexivity).
  assert (H2 : Forall (fun k => has_col df k = true) required_columns)
    by (apply forallb_Forall_iff; vm_compute; reflexivity).
  assert (H3 : get_col df "Threat_Level" = Ok (series_of_values [VInt 3; VNaN]))
    by (vm_compute; reflexivity).
  exact (score_species_nan_threat_low 2 df _ 1 H1 H2 H3 eq_refl eq_refl).
Defined.

Lemma score_species_reads_only_inputs_witness :
  match score_species (frame_of_species [species_A]),
        score_species (set_col (set_col (frame_of_species [species_A]) "Species_Name"
                                        (series_of_values [VStr "Renamed"]))
                               "Notes" (series_of_values [VInt 7])) with
  | Ok o1, Ok o2 => forall k, In k computed_columns -> get_col o1 k = get_col o2 k
  | Err e1, Err e2 => e1 = e2
  | _, _ => False
  end.
Proof.
  set (df1 := frame_of_species [species_A]).
  set (df2 := set_col (set_col (frame_of_species [species_A]) "Species_Name"
                               (series_of_values [VStr "Renamed"]))
                      "Notes" (series_of_values [VInt 7])).
  assert (H : forall k, In k required_columns -> get_col df1 k = get_col df2 k).
  { intros k Hk. simpl in Hk. repeat destruct Hk as [<- | Hk]; try contradiction;
      vm_compute; reflexivity. }
  exact (score_species_reads_only_inputs df1 df2 H).
Defined.

Lemma score_species_idempotent_witness :
  exists out, score_species (frame_of_species [species_A; species_B]) = Ok out /\
              (forall k, In k required_columns ->
                 get_col (frame_of_species [species_A; species_B]) k = get_col out k) /\
              score_species out = Ok out.
Proof.
  exists (match score_species (frame_of_species [species_A; species_B]) with
          | Ok o => o | Err _ => [] end).
  assert (E : score_species (frame_of_species [species_A; species_B]) =
              Ok (match score_species (frame_of_species [species_A; species_B]) with
                  | Ok o => o | Err _ => [] end)) by (vm_compute; reflexivity).
  split; [exact E | exact (score_species_idempotent _ _ E)].
Defined.

End Engine.
