(* ===== verification/Rules.v ===== *)
(** * The rule table on arbitrary cells

    The refinement of [Spec.v] is stated for the frame of typed records.
    An uploaded CSV can hold anything in a cell.  This file extends the
    rule table of the specification to every cell, and proves that the
    sub-score expressions of [score_species] compute it in every row of
    any column:
    - [cell_code code v]: a categorical cell, looked up with the table's
      function [code] ([Spec.iucn_code], ...) when it is a string, [0] for
      any other cell (a number, NaN); [map_score] (lines 19-45) computes
      [cell_code code v * k];
    - [cell_rule rule dflt v]: a count cell, the rule ([Spec.habitat_rule],
      [Spec.use_rule]) on its integer value, the fallback branch [dflt]
      on a cell that is not an integer (a fraction, NaN, a string);
      [apply_score] with [habitat_lambda] / [use_lambda] (lines 47-53)
      computes [cell_rule rule dflt v * 1.5].  A missing use value (NaN)
      thus scores [5 * 1.5 = 7.5], the highest use score. *)

From Stdlib Require Import ZArith QArith Qabs Qreduction Qround Lqa String List Lia.
From S2P Require Import Prelude PyValue Series Frame Scoring Spec Engine.
Import ListNotations.
Open Scope py_scope.
Open Scope string_scope.

Module Rules.
Import PyValue Series Frame Scoring Spec Engine.

(** ** The rule table on cells *)

(** A categorical cell: the table's code of a string, [0] for anything
    else. *)
Definition cell_code (code : string -> Z) (v : value) : Z :=
  match v with VStr s => code s | _ => 0 end.

(** A count cell: the rule on its integer value, [dflt] on a cell that is
    not an integer. *)
Definition cell_rule (rule : Z -> Z) (dflt : Z) (v : value) : Z :=
  match v with
  | VInt z => rule z
  | VFloat q => if Qeq_bool q (inject_Z (Qfloor q)) then rule (Qfloor q) else dflt
  | _ => dflt
  end.

(** ** Cells of [Series.apply] and of [* k] *)

Lemma s_apply_nth f s i v r :
  nth_error (svalues s) i = Some v -> s_apply f s = Ok r ->
  exists u, f v = Ok u /\ nth_error (svalues r) i = Some (coerce (sdtype r) u).
Proof.
  intros Hi H. rewrite s_apply_nonempty in H by (intros E; rewrite E in Hi; destruct i; discriminate).
  invert_binds. destruct (mapM_nth_error _ _ _ _ _ H Hi) as (u & Hu & Eu).
  exists u. split; [exact Eu|]. unfold series_of_values. simpl. rewrite nth_error_map, Hu.
  reflexivity.
Qed.

Lemma s_mul_float_nth s q i v r :
  nth_error (svalues s) i = Some v -> s_mul s (SFloat q) = Ok r ->
  exists u, py_mul v (VFloat q) = Ok u /\ nth_error (svalues r) i = Some u.
Proof.
  intros Hi H. unfold s_mul in H. invert_binds.
  destruct (mapM_nth_error _ _ _ _ _ H Hi) as (u & Hu & Eu).
  exists u. split; [exact Eu|]. destruct (sdtype s); exact Hu.
Qed.

(** Row [i] of [df[src].apply(f) * 1.5], for a lambda returning integers. *)
Lemma apply_score_nth f s i v z :
  (forall x, exists z, f x = Ok (VInt z) /\ in_int64 z = true) ->
  nth_error (svalues s) i = Some v -> f v = Ok (VInt z) ->
  exists r w, apply_score f s = Ok r /\ nth_error (svalues r) i = Some w /\
              num_rel w (inject_Z z * (3 # 2)).
Proof.
  intros Hf Hi Hv. destruct (apply_score_any f s Hf) as (r & Hr & _).
  pose proof Hr as Hr0. exists r. unfold apply_score in Hr. invert_binds.
  destruct (s_apply_nth f s i v _ Hi ltac:(eassumption)) as (u & Eu & Hu).
  rewrite Hv in Eu. inv_ok.
  destruct (s_mul_float_nth _ _ _ _ _ Hu ltac:(eassumption)) as (w & Ew & Hw).
  destruct (py_mul_num _ (VFloat (3 # 2)) (inject_Z z) (3 # 2)
              (coerce_num (sdtype x) (VInt z) _ (Qeq_refl _)) (Qeq_refl _)) as (w' & Ew' & Nw' & _).
  rewrite Ew in Ew'. inv_ok. eexists. split; [exact Hr0 | split; eassumption].
Qed.


(** ** The lambdas on cells *)

Lemma dict_code_cell d code :
  (forall s, dict_code d (VStr s) = code s) -> forall v, dict_code d v = cell_code code v.
Proof. intros H [z|q| |s]; [reflexivity | reflexivity | reflexivity | apply H]. Qed.

Lemma Qeq_bool_compat q q' c : q == q' -> Qeq_bool q c = Qeq_bool q' c.
Proof. intros E. apply eq_true_iff_eq. rewrite !Qeq_bool_iff, E. reflexivity. Qed.

(** A number that equals an integer is its own floor. *)
Lemma Qeq_bool_not_integer q k :
  Qeq_bool q (inject_Z (Qfloor q)) = false -> Qeq_bool q (inject_Z k) = false.
Proof.
  intros H. destruct (Qeq_bool q (inject_Z k)) eqn:E; [|reflexivity].
  apply Qeq_bool_iff in E. rewrite <- H. symmetry. apply Qeq_bool_iff.
  rewrite (Qfloor_comp _ _ E), Qfloor_Z. exact E.
Qed.

Lemma habitat_lambda_cell v : habitat_lambda v = Ok (VInt (cell_rule habitat_rule 1 v)).
Proof.
  destruct v as [z|q| |s]; unfold cell_rule; [| |reflexivity..].
  - rewrite (habitat_lambda_num (VInt z) (inject_Z z) (Qeq_refl _)), habitat_code_inject. reflexivity.
  - rewrite (habitat_lambda_num (VFloat q) q (Qeq_refl _)).
    destruct (Qeq_bool q (inject_Z (Qfloor q))) eqn:E.
    + apply Qeq_bool_iff in E. rewrite <- habitat_code_inject. unfold habitat_code.
      rewrite !(Qeq_bool_compat _ _ _ E). reflexivity.
    + unfold habitat_code. rewrite !(Qeq_bool_not_integer q) by exact E. reflexivity.
Qed.

Lemma use_lambda_cell v : use_lambda v = Ok (VInt (cell_rule use_rule 5 v)).
Proof.
  destruct v as [z|q| |s]; unfold cell_rule; [| |reflexivity..].
  - rewrite (use_lambda_num (VInt z) (inject_Z z) (Qeq_refl _)), use_code_inject. reflexivity.
  - rewrite (use_lambda_num (VFloat q) q (Qeq_refl _)).
    destruct (Qeq_bool q (inject_Z (Qfloor q))) eqn:E.
    + apply Qeq_bool_iff in E. rewrite <- use_code_inject. unfold use_code.
      rewrite !(Qeq_bool_compat _ _ _ E). reflexivity.
    + unfold use_code. rewrite !(Qeq_bool_not_integer q) by exact E. reflexivity.
Qed.

(** C11. The four dict lookups implement the rule table on every cell: in
    row [i] of any column, [df[src].map(d).fillna(0) * k] for [IUCN_Status]
    (x3), [Endemism] (x2), [Altitudinal_Range] (x1) and [Exploitation] (x2)
    succeeds and gives [cell_code code v * k] for the specification's table
    [code]: the code of a listed category, and [0] for an unknown category,
    a number or NaN. *)
Theorem category_scores s i v :
  nth_error (svalues s) i = Some v ->
  Forall (fun t => exists r w,
            map_score (fst (fst t)) (snd (fst t)) s = Ok r /\
            nth_error (svalues r) i = Some w /\
            num_rel w (inject_Z (cell_code (snd t) v * snd (fst t))))
    [(IUCN_map, 3%Z, iucn_code); (Endemism_map, 2%Z, endemism_code);
     (Altitude_map, 1%Z, altitude_code); (Exploitation_map, 2%Z, exploitation_code)].
Proof.
  intros Hi. apply Forall_forall. intros [[d k] code] Hin. simpl in Hin.
  repeat destruct Hin as [Hin | Hin]; try contradiction; injection Hin as <- <- <-; cbn [fst snd];
    (match goal with
     | |- exists r w, map_score ?d ?k s = Ok r /\ _ =>
         destruct (map_score_num d k s (fun x => dict_scaled_in_int64 d 5 k x
                     ltac:(forall_lia) ltac:(lia) ltac:(lia))) as (r & Hr & Nr)
     end;
     destruct (Forall2_nth_error_r _ _ _ i _ Nr ltac:(rewrite nth_error_map, Hi; reflexivity))
       as (w & Hw & Nw);
     exists r, w; split; [exact Hr|]; split; [exact Hw|];
     rewrite inject_Z_mult; erewrite <- dict_code_cell; [exact Nw|];
     first [exact iucn_dict_code | exact endemism_dict_code | exact altitude_dict_code
           | exact exploitation_dict_code]).
Qed.

(** C12. The habitat and use expressions implement the rule table on
    every cell: in row [i] of any column, [df[src].apply(lambda) * 1.5]
    succeeds and gives [cell_rule habitat_rule 1 v * 1.5] for habitats and
    [cell_rule use_rule 5 v * 1.5] for uses: the rule on an integer value
    (so habitat [5] gives [1.5] and use [10] gives [7.5]), and the fallback
    branch on a fraction, an empty cell (NaN) or a string, so that a
    missing use value gets the highest use score [7.5]. *)
Theorem habitat_use_cells s i v :
  nth_error (svalues s) i = Some v ->
  (exists r w, apply_score habitat_lambda s = Ok r /\ nth_error (svalues r) i = Some w /\
               num_rel w (inject_Z (cell_rule habitat_rule 1 v) * (3 # 2))) /\
  (exists r w, apply_score use_lambda s = Ok r /\ nth_error (svalues r) i = Some w /\
               num_rel w (inject_Z (cell_rule use_rule 5 v) * (3 # 2))).
Proof.
  intros Hi. split.
  - exact (apply_score_nth _ s i v _ habitat_lambda_int Hi (habitat_lambda_cell v)).
  - exact (apply_score_nth _ s i v _ use_lambda_int Hi (use_lambda_cell v)).
Qed.

(** The unknown category of the specification's test: ["Unknown"] scores
    [0] in each of the four lookups. *)
Lemma category_scores_witness :
  Forall (fun t => exists r w,
            map_score (fst (fst t)) (snd (fst t))
                      (series_of_values [VStr "Endangered"; VStr "Unknown"; VNaN]) = Ok r /\
            nth_error (svalues r) 1 = Some w /\
            num_rel w (inject_Z (cell_code (snd t) (VStr "Unknown") * snd (fst t))))
    [(IUCN_map, 3%Z, iucn_code); (Endemism_map, 2%Z, endemism_code);
     (Altitude_map, 1%Z, altitude_code); (Exploitation_map, 2%Z, exploitation_code)] /\
  Forall (fun t => cell_code (snd t) (VStr "Unknown") = 0%Z)
    [(IUCN_map, 3%Z, iucn_code); (Endemism_map, 2%Z, endemism_code);
     (Altitude_map, 1%Z, altitude_code); (Exploitation_map, 2%Z, exploitation_code)].
Proof.
  split; [apply (category_scores (series_of_values [VStr "Endangered"; VStr "Unknown"; VNaN]) 1 _
                   eq_refl) | repeat constructor].
Defined.

(** The edge values of the specification's tests and an empty cell:
    habitat [5] scores [1.5], use [10] scores [7.5], and an empty cell
    scores [1.5] and [7.5]. *)
Lemma habitat_use_cells_witness :
  ((exists r w, apply_score habitat_lambda (series_of_values [VInt 5; VNaN]) = Ok r /\
                nth_error (svalues r) 0 = Some w /\
                num_rel w (inject_Z (cell_rule habitat_rule 1 (VFloat 5)) * (3 # 2))) /\
   (exists r w, apply_score use_lambda (series_of_values [VInt 5; VNaN]) = Ok r /\
                nth_error (svalues r) 0 = Some w /\
                num_rel w (inject_Z (cell_rule use_rule 5 (VFloat 5)) * (3 # 2)))) /\
  ((exists r w, apply_score habitat_lambda (series_of_values [VInt 10; VNaN]) = Ok r /\
                nth_error (svalues r) 1 = Some w /\
                num_rel w (inject_Z (cell_rule habitat_rule 1 VNaN) * (3 # 2))) /\
   (exists r w, apply_score use_lambda (series_of_values [VInt 10; VNaN]) = Ok r /\
                nth_error (svalues r) 1 = Some w /\
                num_rel w (inject_Z (cell_rule use_rule 5 VNaN) * (3 # 2)))) /\
  cell_rule habitat_rule 1 (VFloat 5) = 1%Z /\ cell_rule use_rule 5 VNaN = 5%Z.
Proof.
  split; [exact (habitat_use_cells (series_of_values [VInt 5; VNaN]) 0 _ eq_refl)|].
  split; [exact (habitat_use_cells (series_of_values [VInt 10; VNaN]) 1 _ eq_refl)|].
  split; reflexivity.
Defined.

End Rules.
