(* ===== verification/App.v ===== *)
(** * The three tabs of the Streamlit app and the page (lines 77-225)

    - [bulk_prioritize] (lines 92-94): a parsed table is scored and
      [result[["Species_Name", "Priority"]]] selected; the pair returned
      is (shown table, report table).  [bulk_prioritize_csv] (lines
      88-94) first reads the uploaded text with [CsvRead.read_csv].
      No exception is caught.
    - [single_entry] (lines 143-157): the form's values, constrained by
      the widgets ([form_valid], lines 115-138), become the one-row frame
      [frame_of_species [r]] (lines 144-153), which is scored.
    - [sample_df], [sample_csv] and [criteria_df] (lines 175-215): the
      constant frames of the downloads tab and the sample CSV text.
    - The page: [bulk_tab], [single_tab] and [downloads_tab] list the
      elements each tab draws ([Dataframe], [Table], [DownloadButton]
      with a workbook or a text) and the exception that ends it;
      [excel_download] is the [ExcelWriter]/[to_excel]/[download_button]
      sequence the three tabs repeat; [page] runs the tabs in the order of
      the script and stops at the first exception, as Streamlit does.
    Theorems: the single-entry tab scores every allowed form (C9) and
    offers its report exactly when the name is a legal Excel text (C15);
    the bulk tab scores a frame without [Species_Name] and then raises
    [KeyError] (C13); the downloads tab never fails
    ([downloads_tab_total], used by [Session.v]); and the bulk tab on
    the CSV of any list of records shows the specification's labels and
    offers the report of the scored frame (C21).  The file also holds
    the witnesses of claims stated in earlier files on the sample
    frames. *)

From Stdlib Require Import ZArith QArith Qabs Lqa String Ascii List Lia.
From S2P Require Import Prelude PyValue Series Frame Scoring Wellformed Spec Engine.
From S2P Require Import CsvCell CsvWrite CsvRead CsvRoundtrip Excel.
Import ListNotations.
Open Scope py_scope.
Open Scope string_scope.

Module App.
Import PyValue Series Frame Scoring Wellformed Spec Engine CsvCell CsvWrite CsvRead CsvRoundtrip Excel.

(** ** Bulk prioritization *)

Definition display_columns : list string := ["Species_Name"; "Priority"].

Definition bulk_prioritize (uploaded : option frame) : pyresult (option (frame * frame)) :=
  match uploaded with
  | None => Ok None
  | Some df =>
      let* result := score_species df in
      let* shown := select_cols result display_columns in
      Ok (Some (shown, result))
  end.

(** Lines 88-94 from the uploaded bytes: [if uploaded_file:] (a file
    object is always true), [pd.read_csv(uploaded_file)], then the tab.
    [None] when the file is outside the model of [read_csv]; an error of
    [read_csv] ends the tab like one of [score_species]. *)
Definition bulk_prioritize_csv (uploaded : option string) : option (pyresult (option (frame * frame))) :=
  match uploaded with
  | None => Some (Ok None)
  | Some text =>
      match read_csv text with
      | None => None
      | Some (Err e) => Some (Err e)
      | Some (Ok df) => Some (bulk_prioritize (Some df))
      end
  end.

(** ** Single species entry *)

Definition iucn_options : list string :=
  ["Critically Endangered"; "Endangered"; "Vulnerable"; "Near Threatened"; "Least Concern"].
Definition endemism_options : list string := ["Yes"; "No"].
Definition altitude_options : list string := ["<500"; "501-1000"; "1001-1500"; ">1500"].
Definition exploitation_options : list string :=
  ["Not exploited"; "Local use"; "Commercial use"].

Definition one_of (s : string) (opts : list string) : bool := existsb (String.eqb s) opts.

(** The values the widgets can produce: a select box returns one of its
    options, the slider an integer in [1, 5], the number inputs an integer
    in [1, 10] (habitats) and in [0, 10] (uses). *)
Definition form_valid (r : species) : bool :=
  one_of (iucn_status r) iucn_options && one_of (endemism r) endemism_options &&
  (1 <=? threat_level r)%Z && (threat_level r <=? 5)%Z &&
  one_of (altitudinal_range r) altitude_options &&
  one_of (exploitation r) exploitation_options &&
  (1 <=? habitat_specificity r)%Z && (habitat_specificity r <=? 10)%Z &&
  (0 <=? use_value r)%Z && (use_value r <=? 10)%Z.

Definition single_entry (run : bool) (r : species) : pyresult (option (frame * frame)) :=
  if run then
    let single_df := frame_of_species [r] in
    let* single_result := score_species single_df in
    let* shown := select_cols single_result display_columns in
    Ok (Some (shown, single_result))
  else Ok None.

(** ** Downloads *)

Definition sample_df : frame :=
  [("Species_Name", series_of_values [VStr "Species A"; VStr "Species B"]);
   ("IUCN_Status", series_of_values [VStr "Endangered"; VStr "Vulnerable"]);
   ("Endemism", series_of_values [VStr "Yes"; VStr "No"]);
   ("Threat_Level", series_of_values [VInt 3; VInt 2]);
   ("Altitudinal_Range", series_of_values [VStr "501-1000"; VStr "1001-1500"]);
   ("Exploitation", series_of_values [VStr "Local use"; VStr "Not exploited"]);
   ("Habitat_Specificity", series_of_values [VInt 2; VInt 1]);
   ("Use_Value", series_of_values [VInt 2; VInt 1])].

(** The text of the [Download Sample CSV] button (lines 186-190), with the
    line terminator of the server's system. *)
Definition sample_csv (t : line_terminator) : option string := to_csv t sample_df.

Definition criteria_df : frame :=
  [("Criterion", series_of_values (map VStr
      ["IUCN Status"; "Endemism"; "Threat Level"; "Altitudinal Range";
       "Exploitation"; "Habitat Specificity"; "Use Value"]));
   ("Description", series_of_values (map VStr
      ["Conservation status of the species";
       "Whether the species is endemic to the region";
       "Intensity of threats faced (scale 1–5)";
       "Altitude where species occurs";
       "Level of exploitation or use";
       "Number of habitats the species occupies";
       "Number of uses by people"]));
   ("Scoring", series_of_values (map VStr
      ["CR=5, EN=4, VU=3, NT=2, LC=1 (×3)";
       "Yes=2, No=1 (×2)";
       "Score 1–5 (×3)";
       "<500=4, 501-1000=3, 1001-1500=2, >1500=1 (×1)";
       "Not=1, Local=2, Commercial=3 (×2)";
       "1=4, 2=3, 3=2, >3=1 (×1.5)";
       "0=1, 1=2, 2=3, 3=4, >3=5 (×1.5)"]))].

(** The lines of a text, each ended by a line feed. *)
Definition lines (ls : list string) : string := cat (map (fun l => (l ++ String c_lf EmptyString)%string) ls).

(** ** The page *)

(** What a download button offers: a workbook or a text. *)
Inductive payload : Type :=
| Xlsx (wb : workbook)
| CsvText (text : string).

(** The elements a tab draws that depend on the data, in the order it
    draws them; subheaders and input widgets are not listed. *)
Inductive element : Type :=
| Dataframe (df : frame)
| Table (df : frame)
| DownloadButton (label : string) (data : payload) (file_name : string).

(** A run of the script: what each tab drew, and the exception that
    stopped the script, if one did. *)
Record page_view : Type := mkPage {
  bulk_view : list element;
  single_view : list element;
  downloads_view : list element;
  raised : option exn
}.

(** [buffer = BytesIO()], [with pd.ExcelWriter(buffer) as writer:
    df.to_excel(writer, index=False, sheet_name=sheet_name)], then
    [st.download_button(label, data=buffer.getvalue(), file_name=...)]:
    the button is drawn only when the sheet was written. *)
Definition excel_download (label sheet_name file_name : string) (df : frame)
  : list element * option exn :=
  match to_excel sheet_name df with
  | Ok sh => ([DownloadButton label (Xlsx [sh]) file_name], None)
  | Err e => ([], Some e)
  end.

(** The bulk tab, lines 85-104. *)
Definition bulk_tab (uploaded : option string) : option (list element * option exn) :=
  match bulk_prioritize_csv uploaded with
  | None => None
  | Some (Err e) => Some ([], Some e)
  | Some (Ok None) => Some ([], None)
  | Some (Ok (Some (shown, result))) =>
      let (els, err) := excel_download "Download Prioritization Report (Excel)"
                          "Species Prioritization" "species_prioritization_report.xlsx" result in
      Some (Dataframe shown :: els, err)
  end.

(** The single-entry tab, lines 109-167. *)
Definition single_tab (run : bool) (r : species) : list element * option exn :=
  match single_entry run r with
  | Err e => ([], Some e)
  | Ok None => ([], None)
  | Ok (Some (shown, result)) =>
      let (els, err) := excel_download "Download Single Report (Excel)"
                          "Single Species" "single_species_report.xlsx" result in
      (Table shown :: els, err)
  end.

(** The downloads tab, lines 172-225. *)
Definition downloads_tab (t : line_terminator) : option (list element * option exn) :=
  match sample_csv t with
  | None => None
  | Some text =>
      let (els, err) := excel_download "Download Criteria Guide (Excel)"
                          "Criteria" "criteria_species_priority.xlsx" criteria_df in
      Some (DownloadButton "Download Sample CSV" (CsvText text) "sample_species_data.csv" :: els, err)
  end.

(** One run of the script, lines 77-225: the three [with tabs[i]:]
    blocks run in order, and an uncaught exception stops the script where
    it is raised, so the tabs after it draw nothing. *)
Definition page (uploaded : option string) (run : bool) (r : species) (t : line_terminator)
  : option page_view :=
  match bulk_tab uploaded with
  | None => None
  | Some (b, Some e) => Some (mkPage b [] [] (Some e))
  | Some (b, None) =>
      match single_tab run r with
      | (s1, Some e) => Some (mkPage b s1 [] (Some e))
      | (s1, None) =>
          match downloads_tab t with
          | None => None
          | Some (d, err) => Some (mkPage b s1 d err)
          end
      end
  end.

(** The texts of a list of records that openpyxl accepts. *)
Definition records_text_ok (rs : list species) : bool :=
  forallb (fun r => text_ok (species_name r) && text_ok (iucn_status r) && text_ok (endemism r) &&
                    text_ok (altitudinal_range r) && text_ok (exploitation r)) rs.

(** ** Lemmas *)

Lemma one_of_In s opts : one_of s opts = true -> In s opts.
Proof.
  unfold one_of. intros H. apply existsb_exists in H as (s' & Hin & E).
  apply String.eqb_eq in E. subst s'. exact Hin.
Qed.

Ltac option_cases H :=
  apply one_of_In in H; simpl in H; repeat destruct H as [<- | H]; try contradiction;
  unfold iucn_code, endemism_code, altitude_code, exploitation_code; simpl; lia.

(** The totals a valid form can produce lie in [[14, 57.5]]. *)
Lemma form_valid_total_bounds r : form_valid r = true -> 14 <= spec_total r <= 115 # 2.
Proof.
  intros H. unfold form_valid in H. rewrite !andb_true_iff, !Z.leb_le in H.
  destruct H as (((((((((Hi & He) & Ht1) & Ht2) & Ha) & Hx) & _) & _) & _) & _).
  destruct (rule_ranges (habitat_specificity r) (use_value r)) as (Hh & Hu).
  assert (Ci : (1 <= iucn_code (iucn_status r) <= 5)%Z) by (option_cases Hi).
  assert (Ce : (1 <= endemism_code (endemism r) <= 2)%Z) by (option_cases He).
  assert (Ca : (1 <= altitude_code (altitudinal_range r) <= 4)%Z)
    by (option_cases Ha).
  assert (Cx : (1 <= exploitation_code (exploitation r) <= 3)%Z)
    by (option_cases Hx).
  unfold spec_total, spec_iucn_score, spec_endemism_score, spec_threat_score,
    spec_altitude_score, spec_exploitation_score, spec_habitat_score, spec_use_score.
  repeat match goal with
         | Hz : (?a <= ?z <= ?b)%Z |- _ =>
             assert (inject_Z a <= inject_Z z <= inject_Z b) by (rewrite <- !Zle_Qle; lia);
             clear Hz
         end.
  assert (inject_Z 1 <= inject_Z (threat_level r) <= inject_Z 5) by (rewrite <- !Zle_Qle; lia).
  unfold inject_Z in *. lra.
Qed.

(** The two columns the tabs display are present in the scored frame of
    records. *)
Lemma display_of_scored rs out :
  score_species (frame_of_species rs) = Ok out -> scored_as out rs ->
  exists shown, select_cols out display_columns = Ok shown /\
                map fst shown = display_columns /\
                Forall (fun k => get_col shown k = get_col out k) display_columns.
Proof.
  intros Eout Hsc. apply select_cols_ok.
  destruct (score_species_shape _ _ Eout) as (cs & Hlen & ->).
  constructor; [|constructor; [|constructor]].
  - apply has_col_get. exists (column_of (fun r => VStr (species_name r)) rs).
    rewrite get_set_cols_other; [reflexivity|].
    rewrite map_fst_combine by (symmetry; exact Hlen). apply not_In_eqb. reflexivity.
  - destruct Hsc as (_ & _ & p & Hp & _). apply has_col_get. eauto.
Qed.

Lemma no_str_value_ok s : has_str s = false -> forallb value_ok (svalues s) = true.
Proof.
  rewrite has_str_false_iff, forallb_Forall_iff. apply Forall_impl.
  intros v. destruct v; simpl; try reflexivity; discriminate.
Qed.

Lemma one_of_text_ok s opts : one_of s opts = true -> forallb text_ok opts = true -> text_ok s = true.
Proof. intros H Hall. rewrite forallb_forall in Hall. exact (Hall s (one_of_In s opts H)). Qed.

(** The columns [score_species] computes hold numbers, and labels in
    [Priority]: openpyxl accepts every cell of them. *)
Lemma scored_cells_ok out rs k s :
  scored_as out rs -> In k computed_columns -> get_col out k = Ok s ->
  forallb value_ok (svalues s) = true.
Proof.
  intros (Hsc & (t & Et & Ht) & (p & Ep & Hp)) Hk Ek.
  unfold computed_columns in Hk. apply in_app_or in Hk as [Hk|Hk].
  - destruct (Forall2_In_l _ _ _ k Hsc Hk) as (f & _ & s' & Es' & Hn).
    rewrite Ek in Es'. inv_ok. exact (no_str_value_ok _ (num_series_no_str _ _ Hn)).
  - simpl in Hk. destruct Hk as [<-|[<-|[]]]; rewrite Ek in *; inv_ok.
    + exact (no_str_value_ok _ (num_series_no_str _ _ Ht)).
    + rewrite Hp, forallb_forall. intros v Hv. apply in_map_iff in Hv as (r & <- & _).
      destruct (spec_priority _); reflexivity.
Qed.

(** The scored frame of records starts with its name column. *)
Lemma scored_out_head rs out :
  score_species (frame_of_species rs) = Ok out ->
  exists rest, out = ("Species_Name", column_of (fun r => VStr (species_name r)) rs) :: rest.
Proof.
  intros Eout. destruct (score_species_shape _ _ Eout) as (cs & Hlen & ->).
  unfold frame_of_species at 1. rewrite set_cols_cons_other; [eauto|].
  rewrite map_fst_combine by (symmetry; exact Hlen). apply not_In_eqb. reflexivity.
Qed.

Lemma value_ok_coerce d v : value_ok v = true -> value_ok (coerce d v) = true.
Proof. destruct d, v; simpl; auto. Qed.

Lemma column_of_ok (f : species -> value) rs :
  (forall r, In r rs -> value_ok (f r) = true) -> forallb value_ok (svalues (column_of f rs)) = true.
Proof.
  intros H. apply forallb_forall. intros v Hv. unfold column_of, series_of_values in Hv. simpl in Hv.
  apply in_map_iff in Hv as (w & <- & Hw). apply in_map_iff in Hw as (r & <- & Hr).
  apply value_ok_coerce, H, Hr.
Qed.

(** Every name and cell of the report of records is a text openpyxl
    accepts when the records' texts are. *)
Lemma report_ok rs out :
  records_text_ok rs = true ->
  score_species (frame_of_species rs) = Ok out -> scored_as out rs ->
  forallb text_ok (columns out) = true /\
  forallb (fun c => forallb value_ok (svalues (snd c))) out = true.
Proof.
  intros Ht Eout Hsc. destruct (score_species_shape _ _ Eout) as (cs & Hlen & Eo).
  assert (Hnd : NoDup (map fst (combine computed_columns cs)))
    by (rewrite map_fst_combine by (symmetry; exact Hlen); apply nodupb_NoDup; reflexivity).
  unfold records_text_ok in Ht. rewrite forallb_forall in Ht.
  split.
  - rewrite Eo, columns_set_cols, map_fst_combine by (symmetry; exact Hlen). vm_compute. reflexivity.
  - rewrite forallb_forall. intros [k c] Hc. pose proof Hc as Hc'. rewrite Eo in Hc'.
    destruct (In_set_cols _ _ _ Hc') as [Hdf|Hkc].
    + simpl in Hdf. repeat destruct Hdf as [E|Hdf]; try contradiction; injection E as <- <-;
        apply column_of_ok; intros r Hr; specialize (Ht r Hr); rewrite !andb_true_iff in Ht;
        simpl; tauto.
    + apply (scored_cells_ok out rs k); [exact Hsc | exact (in_combine_l _ _ _ _ Hkc)|].
      rewrite Eo. apply get_set_cols_in; assumption.
Qed.

Lemma form_records_text_ok r :
  form_valid r = true -> text_ok (species_name r) = true -> records_text_ok [r] = true.
Proof.
  intros Hv Hn. unfold form_valid in Hv. rewrite !andb_true_iff in Hv.
  destruct Hv as (((((((((Hi & He) & _) & _) & Ha) & Hx) & _) & _) & _) & _).
  unfold records_text_ok. simpl. rewrite Hn.
  rewrite !(one_of_text_ok _ _ Hi), !(one_of_text_ok _ _ He), !(one_of_text_ok _ _ Ha), !(one_of_text_ok _ _ Hx)
    by reflexivity. reflexivity.
Qed.

Lemma score_species_preserves_inputs_witness :
  exists out, score_species sample_df = Ok out /\
    (forall k, ~ In k computed_columns -> get_col out k = get_col sample_df k) /\
    columns out =
    fold_left (fun ks k => if existsb (String.eqb k) ks then ks else (ks ++ [k])%list)
              computed_columns (columns sample_df).
Proof.
  exists (match score_species sample_df with Ok o => o | Err _ => [] end).
  assert (E : score_species sample_df =
              Ok (match score_species sample_df with Ok o => o | Err _ => [] end))
    by (vm_compute; reflexivity).
  split; [exact E | apply (score_species_preserves_inputs _ _ E)].
Defined.

(** C9. The single-entry tab never fails on the values its widgets allow:
    for every form the widgets can produce, pressing the button scores the
    one-row frame, the result holds the specification's sub-scores, total
    and label for that record, the total lies in [[14, 57.5]], and the tab
    shows exactly the columns [Species_Name] and [Priority] of the result. *)
Theorem single_entry_scores r :
  form_valid r = true ->
  exists shown result,
    single_entry true r = Ok (Some (shown, result)) /\
    scored_as result [r] /\
    14 <= spec_total r <= 115 # 2 /\
    map fst shown = display_columns /\
    Forall (fun k => get_col shown k = get_col result k) display_columns.
Proof.
  intros Hv. pose proof (form_valid_total_bounds r Hv) as Hbounds.
  assert (Ht : Forall (fun r => (Z.abs (threat_level r) <= 2 ^ 60)%Z) [r]).
  { unfold form_valid in Hv. rewrite !andb_true_iff, !Z.leb_le in Hv. constructor; [lia | constructor]. }
  destruct (score_frame_of_species [r] Ht) as (out & Eout & Hsc).
  destruct (display_of_scored [r] out Eout Hsc) as (shown & Esel & Hfst & Hsel).
  exists shown, out. unfold single_entry. rewrite Eout, bind_Ok, Esel. auto.
Qed.

Lemma single_entry_scores_witness :
  form_valid species_A = true /\
  exists shown result,
    single_entry true species_A = Ok (Some (shown, result)) /\
    scored_as result [species_A] /\
    14 <= spec_total species_A <= 115 # 2 /\
    map fst shown = display_columns /\
    Forall (fun k => get_col shown k = get_col result k) display_columns.
Proof.
  assert (H : form_valid species_A = true) by reflexivity.
  split; [exact H | apply (single_entry_scores _ H)].
Defined.

(** C13. A file without a [Species_Name] column is scored and then
    rejected: when [score_species] succeeds on a frame that has no
    [Species_Name] column, the bulk tab raises [KeyError ["Species_Name"]]
    at the display of line 94, after the whole batch was scored; the
    column is not required by the scoring. *)
Theorem bulk_prioritize_missing_name df out :
  score_species df = Ok out -> has_col df "Species_Name" = false ->
  bulk_prioritize (Some df) = Err (KeyError ["Species_Name"]).
Proof.
  intros E Hn. unfold bulk_prioritize. rewrite E, bind_Ok.
  assert (Hno : has_col out "Species_Name" = false).
  { destruct (score_species_shape _ _ E) as (cs & Hlen & ->).
    destruct (has_col (set_cols df (combine computed_columns cs)) "Species_Name") eqn:Hs;
      [|reflexivity].
    apply has_col_get in Hs as (c & Hc). rewrite get_set_cols_other in Hc.
    - rewrite get_col_missing in Hc by exact Hn. discriminate.
    - rewrite map_fst_combine by (symmetry; exact Hlen). apply not_In_eqb. reflexivity. }
  assert (Hp : has_col out "Priority" = true).
  { unfold score_species, copy in E. invert_binds. unfold priority_step in *.
    apply read_assign_inv in H1 as (s & r & _ & _ & ->). apply has_col_get.
    exists r. apply get_set_same. }
  rewrite select_cols_missing; unfold display_columns; simpl; rewrite Hno, Hp;
    [reflexivity | discriminate].
Qed.

Lemma bulk_prioritize_missing_name_witness :
  exists out,
    score_species (filter (fun kc => negb (String.eqb (fst kc) "Species_Name")) sample_df) = Ok out /\
    has_col (filter (fun kc => negb (String.eqb (fst kc) "Species_Name")) sample_df)
            "Species_Name" = false /\
    bulk_prioritize (Some (filter (fun kc => negb (String.eqb (fst kc) "Species_Name")) sample_df)) =
      Err (KeyError ["Species_Name"]).
Proof.
  set (df := filter (fun kc => negb (String.eqb (fst kc) "Species_Name")) sample_df).
  exists (match score_species df with Ok o => o | Err _ => [] end).
  assert (E : score_species df = Ok (match score_species df with Ok o => o | Err _ => [] end))
    by (vm_compute; reflexivity).
  assert (Hn : has_col df "Species_Name" = false) by (vm_compute; reflexivity).
  split; [exact E | split; [exact Hn | exact (bulk_prioritize_missing_name df _ E Hn)]].
Defined.

Lemma read_csv_to_csv_witness :
  csv_safe sample_df = true /\
  exists text, to_csv LF sample_df = Some text /\ read_csv text = Some (Ok sample_df).
Proof.
  assert (H : csv_safe sample_df = true) by (vm_compute; reflexivity).
  split; [exact H | exact (read_csv_to_csv LF sample_df H)].
Defined.

(** The downloads tab draws its two buttons and raises nothing. *)
Lemma downloads_tab_total t :
  exists d, downloads_tab t = Some (d, None) /\
    (exists text, In (DownloadButton "Download Sample CSV" (CsvText text) "sample_species_data.csv") d).
Proof. destruct t; (eexists; split; [reflexivity | eexists; left; reflexivity]). Qed.

(** C21. The bulk tab implements the specification end to end: for
    every list of records with [|Threat_Level| <= 2^50] whose frame
    [csv_safe] accepts and whose texts openpyxl accepts, uploading the
    CSV [to_csv] writes for their frame makes the bulk tab show each
    record's name with its label, and offer, raising nothing, the report
    of a frame scored as the specification says: one sheet [Species
    Prioritization] with a header row and a row per record. *)
Theorem bulk_tab_refines t rs :
  Forall threat_bounded rs -> csv_safe (frame_of_species rs) = true -> records_text_ok rs = true ->
  exists text shown result sh,
    to_csv t (frame_of_species rs) = Some text /\
    bulk_tab (Some text) =
      Some ([Dataframe shown; DownloadButton "Download Prioritization Report (Excel)" (Xlsx [sh])
                                             "species_prioritization_report.xlsx"], None) /\
    scored_as result rs /\
    to_excel "Species Prioritization" result = Ok sh /\ length (cells sh) = S (length rs) /\
    get_col shown "Species_Name" = Ok (column_of (fun r => VStr (species_name r)) rs) /\
    get_col shown "Priority" = get_col result "Priority".
Proof.
  intros Hb Hsafe Ht.
  destruct (csv_round_trip t _ Hsafe) as (text & Et & Er).
  destruct (score_frame_of_species rs (threat_bounded_60 rs Hb)) as (out & Eout & Hsc).
  destruct (display_of_scored rs out Eout Hsc) as (shown & Esel & _ & Hsel).
  destruct (report_ok rs out Ht Eout Hsc) as (Hk & Hc).
  destruct (to_excel_layout "Species Prioritization" out eq_refl Hk Hc) as (h & b & Ex & Hlen & _).
  destruct (scored_out_head rs out Eout) as (rest & Ehd).
  inversion Hsel as [|? ? Hname Hsel']; inversion Hsel' as [|? ? Hprio _].
  exists text, shown, out, (mkSheet "Species Prioritization" (h :: b)).
  split; [exact Et|]. split.
  { unfold bulk_tab, bulk_prioritize_csv, bulk_prioritize. rewrite Er, Eout, bind_Ok, Esel, bind_Ok.
    unfold excel_download. rewrite Ex. reflexivity. }
  split; [exact Hsc|]. split; [exact Ex|]. split.
  - simpl. rewrite Hlen, Ehd. simpl. unfold column_of, series_of_values. simpl.
    rewrite !length_map. reflexivity.
  - split; [|exact Hprio]. rewrite Hname, Ehd. reflexivity.
Qed.

(** The two outcomes of the single-entry tab on an allowed form. *)
Lemma single_tab_cases r :
  form_valid r = true ->
  exists shown result,
    single_entry true r = Ok (Some (shown, result)) /\
    (text_ok (species_name r) = true ->
       exists sh, single_tab true r =
         ([Table shown; DownloadButton "Download Single Report (Excel)" (Xlsx [sh])
                                        "single_species_report.xlsx"], None) /\
         title sh = "Single Species" /\ length (cells sh) = 2%nat) /\
    (text_ok (species_name r) = false ->
       single_tab true r = ([Table shown], Some IllegalCharacterError)).
Proof.
  intros Hv.
  assert (Ht : Forall (fun r => (Z.abs (threat_level r) <= 2 ^ 60)%Z) [r]).
  { unfold form_valid in Hv. rewrite !andb_true_iff, !Z.leb_le in Hv. constructor; [lia | constructor]. }
  destruct (score_frame_of_species [r] Ht) as (out & Eout & Hsc).
  destruct (display_of_scored [r] out Eout Hsc) as (shown & Esel & _).
  assert (Ese : single_entry true r = Ok (Some (shown, out)))
    by (unfold single_entry; rewrite Eout, bind_Ok, Esel; reflexivity).
  destruct (scored_out_head [r] out Eout) as (rest & Ehd).
  exists shown, out. split; [exact Ese|]. unfold single_tab, excel_download. rewrite Ese. split.
  - intros Hn. destruct (report_ok [r] out (form_records_text_ok r Hv Hn) Eout Hsc) as (Hk & Hc).
    destruct (to_excel_layout "Single Species" out eq_refl Hk Hc) as (h & b & Ex & Hb & _).
    rewrite Ex. eexists. split; [reflexivity|]. split; [reflexivity|].
    simpl. rewrite Hb, Ehd. reflexivity.
  - intros Hn. rewrite (to_excel_refused "Single Species" out (species_name r) eq_refl Hn); [reflexivity|].
    right. rewrite Ehd.
    destruct (frame_rows_nth _ _ 0 (in_eq ("Species_Name", column_of (fun r => VStr (species_name r)) [r]) rest))
      as (row & Hr & Hrow); [simpl; lia|].
    exists row. split; [exact Hr|]. simpl in Hrow. exact Hrow.
Qed.

(** C15. The single-entry tab offers its report exactly when openpyxl
    accepts the species name: for every form the widgets allow, pressing
    the button draws the table, and then either the download button of a
    one-sheet workbook [Single Species] of two rows (header and record),
    or, when the name holds a control character, nothing more: the
    [IllegalCharacterError] of the Excel export ends the script. *)
Theorem single_tab_report r :
  form_valid r = true ->
  exists shown result,
    single_entry true r = Ok (Some (shown, result)) /\
    (text_ok (species_name r) = true ->
       exists sh, single_tab true r =
         ([Table shown; DownloadButton "Download Single Report (Excel)" (Xlsx [sh])
                                        "single_species_report.xlsx"], None) /\
         title sh = "Single Species" /\ length (cells sh) = 2%nat) /\
    (text_ok (species_name r) = false ->
       single_tab true r = ([Table shown], Some IllegalCharacterError)).
Proof. exact (single_tab_cases r). Qed.

Lemma to_excel_illegal_witness :
  valid_title "Species Prioritization" = true /\
  frame_wf 1 [("Species_Name", mkSeries Object [VStr (String "001"%char "Species X")])] /\
  text_ok (String "001"%char "Species X") = false /\
  to_excel "Species Prioritization"
    [("Species_Name", mkSeries Object [VStr (String "001"%char "Species X")])] = Err IllegalCharacterError.
Proof.
  assert (H1 : valid_title "Species Prioritization" = true) by (vm_compute; reflexivity).
  assert (H2 : frame_wf 1 [("Species_Name", mkSeries Object [VStr (String "001"%char "Species X")])])
    by (apply frame_wfb_sound; vm_compute; reflexivity).
  assert (H3 : text_ok (String "001"%char "Species X") = false) by (vm_compute; reflexivity).
  split; [exact H1|]. split; [exact H2|]. split; [exact H3|].
  apply (to_excel_illegal _ 1 _ _ H1 H2 H3). right. eexists. split; [left; reflexivity | left; reflexivity].
Defined.

Lemma single_tab_report_witness :
  form_valid species_A = true /\
  exists shown result,
    single_entry true species_A = Ok (Some (shown, result)) /\
    (text_ok (species_name species_A) = true ->
       exists sh, single_tab true species_A =
         ([Table shown; DownloadButton "Download Single Report (Excel)" (Xlsx [sh])
                                        "single_species_report.xlsx"], None) /\
         title sh = "Single Species" /\ length (cells sh) = 2%nat) /\
    (text_ok (species_name species_A) = false ->
       single_tab true species_A = ([Table shown], Some IllegalCharacterError)).
Proof.
  assert (H : form_valid species_A = true) by (vm_compute; reflexivity).
  split; [exact H | exact (single_tab_report species_A H)].
Defined.

Lemma bulk_tab_refines_witness :
  sample_csv LF =
    Some (lines ["Species_Name,IUCN_Status,Endemism,Threat_Level,Altitudinal_Range,Exploitation,Habitat_Specificity,Use_Value";
                 "Species A,Endangered,Yes,3,501-1000,Local use,2,2";
                 "Species B,Vulnerable,No,2,1001-1500,Not exploited,1,1"]) /\
  frame_of_species [species_A; species_B] = sample_df /\
  Forall threat_bounded [species_A; species_B] /\
  csv_safe (frame_of_species [species_A; species_B]) = true /\
  records_text_ok [species_A; species_B] = true /\
  exists text shown result sh,
    to_csv CRLF (frame_of_species [species_A; species_B]) = Some text /\
    bulk_tab (Some text) =
      Some ([Dataframe shown; DownloadButton "Download Prioritization Report (Excel)" (Xlsx [sh])
                                             "species_prioritization_report.xlsx"], None) /\
    scored_as result [species_A; species_B] /\
    to_excel "Species Prioritization" result = Ok sh /\ length (cells sh) = S (length [species_A; species_B]) /\
    get_col shown "Species_Name" = Ok (column_of (fun r => VStr (species_name r)) [species_A; species_B]) /\
    get_col shown "Priority" = get_col result "Priority".
Proof.
  assert (H1 : Forall threat_bounded [species_A; species_B]) by (unfold threat_bounded; forall_lia).
  assert (H2 : csv_safe (frame_of_species [species_A; species_B]) = true) by (vm_compute; reflexivity).
  assert (H3 : records_text_ok [species_A; species_B] = true) by (vm_compute; reflexivity).
  split; [vm_compute; reflexivity|]. split; [vm_compute; reflexivity|].
  split; [exact H1|]. split; [exact H2|]. split; [exact H3|].
  exact (bulk_tab_refines CRLF _ H1 H2 H3).
Defined.

End App.
