(* ===== verification/Session.v ===== *)
(** * The app as a sequence of script runs

    Streamlit runs the whole script (lines 77-225) again after every
    interaction with a widget, with the widgets' current values.  A
    session is the state that survives between runs: the file the
    uploader holds (line 88), the values of the form widgets (lines
    115-138), and the page the last run drew.  Three rules of Streamlit
    decide what the user sees:
    - [st.button] (line 140) is true only during the run its click
      starts; every other interaction, a click on a download button
      included, starts a run in which it is false;
    - a click on an [st.download_button] starts a run, like any other
      widget;
    - a widget that a run does not draw loses its value: when the bulk
      tab raises, the single-entry form (drawn after it) is not drawn,
      and its widgets come back with their defaults ([form0]).
    [rerun] is one run of the script, [handle] the run an event starts
    (with its guard: a widget can be used only when the last run drew
    it), [reachable] the sessions a user can produce from the first
    run, and [eventually] the sessions from which some sequence of
    events leads to a page with a property.  A run outside the CSV model
    of [CsvRead.read_csv] gives [None], as does an event whose widget is
    not on the page.

    Theorems: in a reachable session the only exception a run raises
    after the bulk tab completes is [IllegalCharacterError] (C23); from
    every session the user can reach a page that offers both the sample
    CSV and the report of any legal form (C24).  Several widget changes
    are one [SetForm] event here: each change starts a run of its own,
    and the last of them is the run modelled. *)

From Stdlib Require Import ZArith QArith String Ascii List Lia.
From S2P Require Import Prelude PyValue Series Frame Spec CsvWrite Excel App.
Import ListNotations.
Open Scope py_scope.
Open Scope string_scope.

Module Session.
Import PyValue Frame Spec CsvWrite Excel App.

(** The widgets' defaults, lines 115-138: an empty text input, the first
    option of each select box, the slider at 3, both number inputs at 1. *)
Definition form0 : species :=
  mkSpecies "" "Critically Endangered" "Yes" 3 "<500" "Not exploited" 1 1.

(** What the user does between two runs. *)
Inductive event : Type :=
| Upload (text : string)
| RemoveFile
| SetForm (r : species)
| Press
| Click (label : string).

Record session : Type := mkSession {
  uploaded : option string;
  form : species;
  view : page_view
}.

(** Whether a run on the upload [u] reaches the single-entry tab: the
    bulk tab completes without an exception. *)
Definition widgets_drawn (u : option string) : bool :=
  match bulk_tab u with Some (_, None) => true | _ => false end.

Definition button_labels (els : list element) : list string :=
  flat_map (fun el => match el with DownloadButton l _ _ => [l] | _ => [] end) els.

Definition has_button (label : string) (v : page_view) : bool :=
  existsb (String.eqb label) (button_labels (bulk_view v ++ single_view v ++ downloads_view v)).

Section Runs.
Variable t : line_terminator.

(** One run of the script with the uploader holding [u], the form [r],
    and the [Prioritize] button [clicked] or not. *)
Definition rerun (u : option string) (r : species) (clicked : bool) : option session :=
  match page u clicked r t with
  | None => None
  | Some v => Some (mkSession u (if widgets_drawn u then r else form0) v)
  end.

(** The first run, when the page is opened. *)
Definition init : option session := rerun None form0 false.

(** The run an event starts.  The uploader is drawn first in every run;
    the form and the button only when the bulk tab completed; a download
    button only when the last run drew it; the form holds only values
    the widgets allow. *)
Definition handle (s : session) (e : event) : option session :=
  match e with
  | Upload text => rerun (Some text) (form s) false
  | RemoveFile => rerun None (form s) false
  | SetForm r =>
      if widgets_drawn (uploaded s) && form_valid r then rerun (uploaded s) r false else None
  | Press => if widgets_drawn (uploaded s) then rerun (uploaded s) (form s) true else None
  | Click label => if has_button label (view s) then rerun (uploaded s) (form s) false else None
  end.

Fixpoint replay (s : session) (es : list event) : option session :=
  match es with
  | [] => Some s
  | e :: es' => match handle s e with Some s' => replay s' es' | None => None end
  end.

Inductive reachable : session -> Prop :=
| reachable_init s : init = Some s -> reachable s
| reachable_step s e s' : reachable s -> handle s e = Some s' -> reachable s'.

(** Some sequence of events leads from the session to one where [P]
    holds. *)
Inductive eventually (P : session -> Prop) : session -> Prop :=
| eventually_now s : P s -> eventually P s
| eventually_later s e s' : handle s e = Some s' -> eventually P s' -> eventually P s.

End Runs.

(** ** Lemmas *)

Create HintDb session.
#[export] Hint Constructors reachable eventually : session.

Section Lemmas.
Variable t : line_terminator.

Lemma form0_valid : form_valid form0 = true.
Proof. reflexivity. Qed.

Lemma rerun_some u r c s' :
  rerun t u r c = Some s' ->
  exists v, page u c r t = Some v /\
    s' = mkSession u (if widgets_drawn u then r else form0) v.
Proof. unfold rerun. destruct (page u c r t) as [v|]; [intros [= <-]; eauto | discriminate]. Qed.

Lemma rerun_form_valid u r c s' :
  form_valid r = true -> rerun t u r c = Some s' -> form_valid (form s') = true.
Proof. intros Hr E. destruct (rerun_some _ _ _ _ E) as (v & _ & ->). simpl. destruct (widgets_drawn u); [exact Hr | exact form0_valid]. Qed.

Lemma handle_form_valid s e s' :
  form_valid (form s) = true -> handle t s e = Some s' -> form_valid (form s') = true.
Proof.
  intros Hs. destruct e; simpl; try (apply rerun_form_valid; exact Hs).
  - destruct (widgets_drawn _ && form_valid r) eqn:G; [|discriminate].
    apply andb_prop in G as [_ G]. apply rerun_form_valid, G.
  - destruct (widgets_drawn _); [apply rerun_form_valid, Hs | discriminate].
  - destruct (has_button _ _); [apply rerun_form_valid, Hs | discriminate].
Qed.

Lemma reachable_valid s : reachable t s -> form_valid (form s) = true.
Proof.
  induction 1 as [s Hi | s e s' _ IH He].
  - exact (rerun_form_valid _ _ _ _ form0_valid Hi).
  - exact (handle_form_valid _ _ _ IH He).
Qed.

Lemma replay_reachable s es s' : reachable t s -> replay t s es = Some s' -> reachable t s'.
Proof.
  revert s. induction es as [|e es IH]; simpl; intros s Hs E; [congruence|].
  destruct (handle t s e) as [s1|] eqn:He; [|discriminate]. eauto with session.
Qed.

(** Every run a reachable session comes from is a run on its upload with
    a form the widgets allow. *)
Lemma handle_rerun s e s' :
  form_valid (form s) = true -> handle t s e = Some s' ->
  exists r c, form_valid r = true /\ rerun t (uploaded s') r c = Some s'.
Proof.
  intros Hs He.
  assert (G : exists u r c, form_valid r = true /\ rerun t u r c = Some s').
  { destruct e; simpl in He; eauto.
    - destruct (widgets_drawn _ && form_valid r) eqn:G; [|discriminate].
      apply andb_prop in G as [_ G]. eauto.
    - destruct (widgets_drawn _); [eauto | discriminate].
    - destruct (has_button _ _); [eauto | discriminate]. }
  destruct G as (u & r & c & Hr & E). pose proof E as E'.
  apply rerun_some in E' as (v & _ & ->). eauto.
Qed.

Lemma reachable_rerun s :
  reachable t s -> exists r c, form_valid r = true /\ rerun t (uploaded s) r c = Some s.
Proof.
  intros H. inversion H as [s0 Hi | s0 e s1 H0 He]; subst.
  - exists form0, false. split; [exact form0_valid|].
    pose proof Hi as E. apply rerun_some in E as (v & _ & ->). exact Hi.
  - exact (handle_rerun _ _ _ (reachable_valid _ H0) He).
Qed.

Lemma single_tab_off r : single_tab false r = ([], None).
Proof. reflexivity. Qed.

(** On an allowed form, the single-entry tab raises only
    [IllegalCharacterError]. *)
Lemma single_tab_raised r c els ex :
  form_valid r = true -> single_tab c r = (els, Some ex) -> ex = IllegalCharacterError.
Proof.
  intros Hr Es. destruct c; [|discriminate].
  destruct (single_tab_cases r Hr) as (shown & result & _ & Ht & Hf).
  destruct (text_ok (species_name r)).
  - destruct (Ht eq_refl) as (sh & E & _). congruence.
  - rewrite (Hf eq_refl) in Es. congruence.
Qed.

Lemma rerun_raised u r c s' ex :
  form_valid r = true -> rerun t u r c = Some s' -> raised (view s') = Some ex ->
  ex = IllegalCharacterError \/ widgets_drawn u = false.
Proof.
  intros Hr E. apply rerun_some in E as (v & Ep & ->). simpl. unfold page in Ep. unfold widgets_drawn.
  destruct (bulk_tab u) as [[b [e|]]|]; try discriminate; [right; reflexivity|].
  destruct (single_tab c r) as [s1 [e|]] eqn:Es.
  - injection Ep as <-. simpl. intros [= <-]. left. exact (single_tab_raised _ _ _ _ Hr Es).
  - destruct (downloads_tab_total t) as (d & Ed & _). rewrite Ed in Ep. injection Ep as <-. discriminate.
Qed.

Lemma has_button_intro l x f v :
  In (DownloadButton l x f) (bulk_view v ++ single_view v ++ downloads_view v) -> has_button l v = true.
Proof.
  intros H. unfold has_button. apply existsb_exists. exists l. split; [|apply String.eqb_refl].
  unfold button_labels. apply in_flat_map. exists (DownloadButton l x f). split; [exact H | left; reflexivity].
Qed.

Lemma rerun_idle r : exists s', rerun t None r false = Some s' /\ uploaded s' = None /\ form s' = r.
Proof.
  unfold rerun, page. change (bulk_tab None) with (Some (@nil element, @None exn)).
  rewrite single_tab_off. destruct (downloads_tab_total t) as (d & Ed & _). rewrite Ed.
  eexists. split; [reflexivity|]. split; reflexivity.
Qed.

Lemma rerun_press r :
  form_valid r = true -> text_ok (species_name r) = true ->
  exists s', rerun t None r true = Some s' /\ form s' = r /\
    has_button "Download Single Report (Excel)" (view s') = true /\
    has_button "Download Sample CSV" (view s') = true.
Proof.
  intros Hv Hn. destruct (single_tab_cases r Hv) as (shown & result & _ & Ht & _).
  destruct (Ht Hn) as (sh & Es & _).
  unfold rerun, page. change (bulk_tab None) with (Some (@nil element, @None exn)). rewrite Es.
  destruct (downloads_tab_total t) as (d & Ed & text & Hin). rewrite Ed.
  eexists. split; [reflexivity|]. split; [reflexivity|]. split; eapply has_button_intro; simpl.
  - right. left. reflexivity.
  - right. right. exact Hin.
Qed.

End Lemmas.

(** ** What every session guarantees *)

Section Claims.
Variable t : line_terminator.

(** C23. In every reachable session, once the bulk tab has completed, the
    only exception that can stop the page is [IllegalCharacterError]
    from the Excel export of the single-entry report: the form, the
    scoring of the one-row frame and the downloads tab never raise. *)
Theorem reachable_raised s ex :
  reachable t s -> raised (view s) = Some ex ->
  ex = IllegalCharacterError \/ widgets_drawn (uploaded s) = false.
Proof.
  intros H. destruct (reachable_rerun t s H) as (r & c & Hr & E). exact (rerun_raised t _ _ _ _ ex Hr E).
Qed.

(** C24. From every session, the user can reach a page that offers the
    sample CSV and the Excel report of any form the widgets allow whose
    name openpyxl accepts: removing the file, filling in the form and
    pressing [Prioritize] gets there, whatever was uploaded. *)
Theorem eventually_report s r :
  form_valid r = true -> text_ok (species_name r) = true ->
  eventually t (fun s' => form s' = r /\
                          has_button "Download Single Report (Excel)" (view s') = true /\
                          has_button "Download Sample CSV" (view s') = true) s.
Proof.
  intros Hv Hn.
  destruct (rerun_idle t (form s)) as (s1 & E1 & U1 & _).
  destruct (rerun_idle t r) as (s2 & E2 & U2 & F2).
  destruct (rerun_press t r Hv Hn) as (s3 & E3 & P3).
  apply (eventually_later t _ s RemoveFile s1); [exact E1|].
  apply (eventually_later t _ s1 (SetForm r) s2); [simpl; rewrite U1, Hv; exact E2|].
  apply (eventually_later t _ s2 Press s3); [simpl; rewrite U2, F2; exact E3|].
  apply eventually_now. exact P3.
Qed.

End Claims.

(** ** Witnesses on concrete sessions *)

(** [run_session H0 H1 es]: [H0] the first run on a line-feed server,
    [H1] the session after the events [es], both computed. *)
Ltac run_session H0 H1 es :=
  computed_eq H0 (init LF);
  match type of H0 with _ = Some ?s0 => computed_eq H1 (replay LF s0 es) end.

Lemma reachable_raised_witness :
  exists s, reachable LF s /\ raised (view s) = Some EmptyDataError /\
    (EmptyDataError = IllegalCharacterError \/ widgets_drawn (uploaded s) = false).
Proof.
  run_session H0 H1 [SetForm species_A; Upload EmptyString].
  match type of H1 with _ = Some ?s1 =>
    exists s1; assert (E : raised (view s1) = Some EmptyDataError) by reflexivity end.
  pose proof (replay_reachable LF _ _ _ (reachable_init LF _ H0) H1) as R.
  split; [exact R|]. split; [exact E|]. exact (reachable_raised LF _ _ R E).
Defined.

Lemma eventually_report_witness :
  form_valid species_A = true /\ text_ok (species_name species_A) = true /\
  exists s, init LF = Some s /\
    eventually LF (fun s' => form s' = species_A /\
                             has_button "Download Single Report (Excel)" (view s') = true /\
                             has_button "Download Sample CSV" (view s') = true) s.
Proof.
  assert (Hv : form_valid species_A = true) by reflexivity.
  assert (Hn : text_ok (species_name species_A) = true) by (vm_compute; reflexivity).
  split; [exact Hv|]. split; [exact Hn|].
  computed_eq H0 (init LF).
  match type of H0 with _ = Some ?s0 => exists s0 end.
  split; [exact H0 | exact (eventually_report LF _ species_A Hv Hn)].
Defined.

End Session.
